(** * Status classification and convergence polling of the kform
      Kubernetes provider

    A shallow embedding of [provider/kstatus/status] (the classifier
    [Compute], its generic rules and its per-kind rules, the field
    accessors of [util.go]) and of the poller [getStatusWithRetries] /
    [getStatus] of the manifest resource, followed by the properties the
    specification states about them.

    Conventions.
    - A Go [interface{}] tree (the content of an
      [unstructured.Unstructured]) is the inductive [value]; a
      [map[string]interface{}] is a [gmap string value].
    - Go [int] is the 64-bit integer of the released targets (amd64 and
      arm64); integers are [Z], and the one operation that can leave the
      range (subtraction) wraps explicitly.
    - A Go result pair (a pointer to a Result and an error) is a pair
      of options: [None] is [nil].  A function that may panic returns
      in [exec].
    - The wall clock ([time.Now]) is an explicit argument [now].
    - Functions of [k8s.io/apimachinery] whose code is short
      ([NestedFieldNoCopy], [NestedString], ...) are transcribed; the
      reflective converter, the RFC 3339 parser and
      [apierrors.IsNotFound] are members of an interface the development
      is parametric in. *)

From Stdlib Require Import ZArith String Ascii List Bool Lia DecimalString.
From stdpp Require Import base option list gmap strings.

Set Warnings "-register-all".
Open Scope string_scope.
Open Scope Z_scope.

(** ** Go values *)

Module Go.

(** Dynamic values held by an [interface{}]: the shapes a decoded
    resource body, or a tree built by hand, can contain.  A float64 is
    kept as mantissa and binary exponent ([mantissa * 2 ^ exponent]). *)
Inductive value : Type :=
| VNil
| VBool (b : bool)
| VString (s : string)
| VInt (n : Z)
| VInt32 (n : Z)
| VInt64 (n : Z)
| VFloat64 (mantissa exponent : Z)
| VSlice (l : list value)
| VMap (m : gmap string value).

(** Go errors.  [wrapError] is [fmt.Errorf] with a [%w] verb: the
    text before the verb and the operand, which may be [nil].
    [statusError] is an [apierrors.StatusError], [accessorError] the
    error of the [unstructured] accessors. *)
Inductive error : Type :=
| errorString (msg : string)
| wrapError (msg : string) (cause : option error)
| statusError (reason : string) (code : Z) (msg : string)
| accessorError (path : list string) (got : value) (expected : string).

(** Outcome of a call that may panic. *)
Inductive exec (A : Type) : Type :=
| Returns (a : A)
| Panics (msg : string).
Arguments Returns {A} a.
Arguments Panics {A} msg.

Definition bind {A B : Type} (m : exec A) (k : A -> exec B) : exec B :=
  match m with
  | Returns a => k a
  | Panics msg => Panics msg
  end.

(** [x != nil] for a pointer or an error. *)
Definition notNil {A : Type} (x : option A) : bool :=
  match x with Some _ => true | None => false end.

(** Two's-complement wrap-around of a 64-bit signed integer. *)
Definition wrap64 (z : Z) : Z := (z + 2 ^ 63) mod 2 ^ 64 - 2 ^ 63.

Definition sub64 (a b : Z) : Z := wrap64 (a - b).

(** [%d] of [fmt.Sprintf]. *)
Definition itoa (z : Z) : string := NilZero.string_of_int (Z.to_int z).

(** [strings.Split s sep] for a one-byte separator. *)
Fixpoint Split (s : string) (sep : ascii) : list string :=
  match s with
  | EmptyString => [EmptyString]
  | String c rest =>
      if Ascii.eqb c sep then EmptyString :: Split rest sep
      else match Split rest sep with
           | hd :: tl => String c hd :: tl
           | [] => [String c EmptyString]
           end
  end.

(** [strings.Join elems sep]. *)
Fixpoint Join (elems : list string) (sep : string) : string :=
  match elems with
  | [] => ""
  | [e] => e
  | e :: rest => e +:+ sep +:+ Join rest sep
  end.

(** [strings.Count s sep] for a one-byte separator, and the cut of
    [s] at the index [strings.Index s sep]: the prefix before and the
    suffix after the first occurrence. *)
Fixpoint Count (s : string) (sep : ascii) : nat :=
  match s with
  | EmptyString => O
  | String c rest => (if Ascii.eqb c sep then 1 else 0)%nat + Count rest sep
  end.

Fixpoint cutAt (s : string) (sep : ascii) : string * string :=
  match s with
  | EmptyString => (EmptyString, EmptyString)
  | String c rest =>
      if Ascii.eqb c sep then (EmptyString, rest)
      else let '(pre, post) := cutAt rest sep in (String c pre, post)
  end.

End Go.
Export Go.

Notation "'let*' p ':=' m 'in' k" := (bind m (fun p => k))
  (at level 10, p name, m at level 100, k at level 200).

(** ** [unstructured] accessors (k8s.io/apimachinery) *)

Module unstructured.

(** Walk [fields] from [val]; [seen] is the path walked so far, kept
    for the error value only. *)
Fixpoint nestedFrom (val : value) (seen fields : list string)
  : value * bool * option error :=
  match fields with
  | [] => (val, true, None)
  | field :: rest =>
      match val with
      | VNil => (VNil, false, None)
      | VMap m =>
          match m !! field with
          | Some v => nestedFrom v (seen ++ [field]) rest
          | None => (VNil, false, None)
          end
      | _ => (VNil, false,
              Some (accessorError (seen ++ [field]) val "map[string]interface{}"))
      end
  end.

Definition NestedFieldNoCopy (obj : gmap string value) (fields : list string)
  : value * bool * option error :=
  nestedFrom (VMap obj) [] fields.

Definition NestedString (obj : gmap string value) (fields : list string)
  : string * bool * option error :=
  let '(val, found, err) := NestedFieldNoCopy obj fields in
  if negb found || notNil err then ("", found, err)
  else match val with
       | VString s => (s, true, None)
       | _ => ("", false, Some (accessorError fields val "string"))
       end.

Definition NestedInt64 (obj : gmap string value) (fields : list string)
  : Z * bool * option error :=
  let '(val, found, err) := NestedFieldNoCopy obj fields in
  if negb found || notNil err then (0, found, err)
  else match val with
       | VInt64 i => (i, true, None)
       | _ => (0, false, Some (accessorError fields val "int64"))
       end.

(** [runtime.DeepCopyJSONValue] copies maps, slices, strings, int64,
    bool, float64 and nil, and panics on every other dynamic type.
    The copy of a tree is the tree; what the model keeps is whether
    the call returns. *)
Fixpoint jsonCopyable (x : value) : bool :=
  match x with
  | VMap m => map_fold (fun _ v acc => jsonCopyable v && acc) true m
  | VSlice l => forallb jsonCopyable l
  | VString _ | VInt64 _ | VBool _ | VFloat64 _ _ | VNil => true
  | VInt _ | VInt32 _ => false
  end.

Definition DeepCopyJSONValue (x : value) : exec value :=
  if jsonCopyable x then Returns x else Panics "cannot deep copy".

Definition NestedSlice (obj : gmap string value) (fields : list string)
  : exec (list value * bool * option error) :=
  let '(val, found, err) := NestedFieldNoCopy obj fields in
  if negb found || notNil err then Returns ([], found, err)
  else match val with
       | VSlice _ =>
           match DeepCopyJSONValue val with
           | Returns (VSlice l) => Returns (l, true, None)
           | Returns _ => Panics "interface conversion"
           | Panics msg => Panics msg
           end
       | _ => Returns ([], false, Some (accessorError fields val "[]interface{}"))
       end.

Definition getNestedString (obj : gmap string value) (fields : list string) : string :=
  let '(val, found, err) := NestedString obj fields in
  if negb found || notNil err then "" else val.

(** An [Unstructured] is its [Object] map; [UnstructuredContent]
    gives that map (an empty one for a nil map, which reads the same). *)
Abbreviation Unstructured := (gmap string value).

Definition UnstructuredContent (u : Unstructured) : gmap string value := u.

Definition GetAPIVersion (u : Unstructured) : string := getNestedString u ["apiVersion"].
Definition GetKind (u : Unstructured) : string := getNestedString u ["kind"].
Definition GetNamespace (u : Unstructured) : string := getNestedString u ["metadata"; "namespace"].
Definition GetName (u : Unstructured) : string := getNestedString u ["metadata"; "name"].

Record GroupVersionKind : Type := mkGVK { Group : string; Version : string; Kind : string }.

(** [schema.ParseGroupVersion]: [None] is the error return. *)
Definition ParseGroupVersion (gv : string) : option (string * string) :=
  if String.eqb gv "" || String.eqb gv "/" then Some ("", "")
  else match Count gv "/"%char with
       | O => Some ("", gv)
       | S O => Some (cutAt gv "/"%char)
       | _ => None
       end.

Definition GetGroupVersionKind (u : Unstructured) : GroupVersionKind :=
  match ParseGroupVersion (GetAPIVersion u) with
  | None => mkGVK "" "" ""
  | Some (g, v) => mkGVK g v (GetKind u)
  end.

(** [GroupVersionKind.String] and [types.NamespacedName.String]. *)
Definition gvkString (gvk : GroupVersionKind) : string :=
  Group gvk +:+ "/" +:+ Version gvk +:+ ", Kind=" +:+ Kind gvk.

Definition nsnString (namespace name : string) : string :=
  namespace +:+ "/" +:+ name.

End unstructured.
Export unstructured.

(** ** Time *)

(** An instant, in nanoseconds since the Unix epoch; a duration, in
    nanoseconds. *)
Definition Time : Type := Z.
Definition Duration : Type := Z.

Definition Millisecond : Duration := 1000000.
Definition Second : Duration := 1000 * Millisecond.

(** The zero [time.Time]: January 1, year 1, 00:00:00 UTC. *)
Definition zeroTime : Time := -62135596800 * Second.

Definition Before (t u : Time) : bool := t <? u.
Definition Add (t : Time) (d : Duration) : Time := t + d.

(** ** The library interface

    What the classifier and the poller take from [k8s.io/apimachinery]
    and the Go runtime without this development fixing how it is
    computed:
    - [FromUnstructured]: [runtime.DefaultUnstructuredConverter] at the
      target type [ObjWithConditions], giving the filled target and the
      error;
    - [ParseRFC3339]: [time.Parse time.RFC3339], [None] on a parse
      error;
    - [IsNotFound]: [apierrors.IsNotFound]. *)

Module metav1.

Definition ConditionStatus : Type := string.
Definition ConditionTrue : ConditionStatus := "True".
Definition ConditionFalse : ConditionStatus := "False".
Definition ConditionUnknown : ConditionStatus := "Unknown".

Record Condition : Type := mkCondition {
  Type_ : string;
  Status : ConditionStatus;
  ObservedGeneration : Z;
  LastTransitionTime : Time;
  Reason : string;
  Message : string
}.

End metav1.

(** A [ConditionedStatus] reflects the observed status of a resource.
    Only one condition of each type may exist. *)
Record ConditionedStatus : Type := mkConditionedStatus {
  Conditions : list metav1.Condition
}.

Record ObjWithConditions : Type := mkObjWithConditions {
  ObjStatus : ConditionedStatus
}.

Class Apimachinery : Type := {
  FromUnstructured : gmap string value -> ObjWithConditions * option error;
  ParseRFC3339 : string -> option Time;
  IsNotFound : error -> bool
}.

(** ** Package [status]: results *)

Definition Reason : Type := string.
Definition ReasonReady : Reason := "Ready".
Definition ReasonTerminating : Reason := "Terminating".
Definition ReasonInProgress : Reason := "InProgress".
Definition ReasonNoStatusInfo : Reason := "NoStatusInfo".
Definition ReasonUserManaged : Reason := "UserManaged".
Definition ReasonFailed : Reason := "Failed".

Definition ConditionTypeReady : string := "Ready".

Record Result : Type := mkResult {
  Status : metav1.ConditionStatus;
  Reason_ : Reason;
  Message : string
}.

Definition ready (msg : string) : Result :=
  {| Status := metav1.ConditionTrue; Reason_ := ReasonReady; Message := msg |}.

Definition noStatusInfo : Result :=
  {| Status := metav1.ConditionTrue; Reason_ := ReasonNoStatusInfo; Message := "" |}.

Definition userManaged : Result :=
  {| Status := metav1.ConditionTrue; Reason_ := ReasonUserManaged; Message := "" |}.

Definition inProgress (msg : string) : Result :=
  {| Status := metav1.ConditionFalse; Reason_ := ReasonInProgress; Message := msg |}.

Definition terminating : Result :=
  {| Status := metav1.ConditionFalse; Reason_ := ReasonTerminating; Message := "" |}.

Definition failed (msg : string) : Result :=
  {| Status := metav1.ConditionFalse; Reason_ := ReasonFailed; Message := msg |}.

(** The Go pair returned by a classifier. *)
Definition ResultErr : Type := option Result * option error.

(** [GetConditionsFn]: the signature of the per-kind functions. *)
Definition GetConditionsFn : Type := Unstructured -> exec ResultErr.

(** ** [util.go]: field accessors *)

(** The path handed to [NestedFieldNoCopy]: the dotted path split, a
    leading empty segment dropped. *)
Definition fieldsOf (fieldPath : string) : list string :=
  let fields := Split fieldPath "."%char in
  match fields with
  | first :: rest => if String.eqb first "" then rest else fields
  | [] => fields
  end.

Definition GetStringField (obj : gmap string value) (fieldPath : string)
  (defaultValue : string) : string :=
  let rv := defaultValue in
  let '(val, found, err) := NestedFieldNoCopy obj (fieldsOf fieldPath) in
  if negb found || notNil err then rv
  else match val with
       | VString v => v
       | _ => rv
       end.

Definition GetIntField (obj : gmap string value) (fieldPath : string)
  (defaultValue : Z) : Z :=
  let '(val, found, err) := NestedFieldNoCopy obj (fieldsOf fieldPath) in
  if negb found || notNil err then defaultValue
  else match val with
       | VInt v => v
       | VInt32 v => v
       | VInt64 v => v
       | _ => defaultValue
       end.

(** ** Condition extraction *)

Section Classifier.

Context `{lib : Apimachinery}.

Definition GetObjectWithConditions (obj : gmap string value)
  : option ObjWithConditions * option error :=
  let '(out, err) := FromUnstructured obj in
  if notNil err then (None, err) else (Some out, None).

(** [objc.Status.Conditions] through the pointer [objc]. *)
Definition conditionsOf (objc : option ObjWithConditions) : exec (list metav1.Condition) :=
  match objc with
  | Some o => Returns (Conditions (ObjStatus o))
  | None => Panics "nil pointer dereference"
  end.

Definition zeroCondition : metav1.Condition :=
  metav1.mkCondition "" "" 0 zeroTime "" "".

Fixpoint getConditionWithStatus (conditions : list metav1.Condition)
  (conditionType : string) (status : metav1.ConditionStatus)
  : metav1.Condition * bool :=
  match conditions with
  | [] => (zeroCondition, false)
  | c :: rest =>
      if String.eqb (metav1.Type_ c) conditionType && String.eqb (metav1.Status c) status
      then (c, true)
      else getConditionWithStatus rest conditionType status
  end.

Definition hasConditionWithStatus (conditions : list metav1.Condition)
  (conditionType : string) (status : metav1.ConditionStatus) : bool :=
  let '(_, found) := getConditionWithStatus conditions conditionType status in
  found.

(** ** Generic rules *)

Definition checkGeneration (u : Unstructured) : ResultErr :=
  let '(generation, found, err) := NestedInt64 u ["metadata"; "generation"] in
  if notNil err
  then (None, Some (wrapError "cannot lookup metadata.generation from resource: " err))
  else if negb found then (None, None)
  else
    let '(observedGeneration, found, err) := NestedInt64 u ["status"; "observedGeneration"] in
    if notNil err
    then (None, Some (wrapError "cannot lookup status.observedGeneration from resource: " err))
    else if found && negb (observedGeneration =? generation)
    then (Some (inProgress (GetKind u +:+ " generation is " +:+ itoa generation
                            +:+ ", but latest observed generation is "
                            +:+ itoa observedGeneration)), None)
    else (None, None).

(** The loop over the conditions in [checkGenericProperties]: the
    first condition of type Ready decides. *)
Fixpoint readyScan (conds : list metav1.Condition) : option Result :=
  match conds with
  | [] => None
  | cond :: rest =>
      if String.eqb (metav1.Type_ cond) ConditionTypeReady then
        if String.eqb (metav1.Status cond) metav1.ConditionTrue
        then Some (ready (metav1.Message cond))
        else Some (inProgress (metav1.Message cond))
      else readyScan rest
  end.

Definition checkGenericProperties (u : Unstructured) : exec ResultErr :=
  let obj := UnstructuredContent u in
  let '(deletionTimestamp, found, err) :=
    NestedString obj ["metadata"; "deletionTimestamp"] in
  if notNil err
  then Returns (None, Some (wrapError
         "cannot lookup metadata.deletionTimestamp from resource: " err))
  else if found && negb (String.eqb deletionTimestamp "")
  then Returns (Some terminating, None)
  else
    let '(res, err) := checkGeneration u in
    if notNil res || notNil err then Returns (res, err)
    else
      let '(objc, err) := GetObjectWithConditions obj in
      if notNil err then Returns (None, err)
      else
        let* conds := conditionsOf objc in
        Returns (readyScan conds, None).

(** ** Per-kind rules ([core.go]) *)

Definition onDeleteUpdateStrategy : string := "OnDelete".
Definition ScheduleWindow : Duration := 15 * Second.
Definition MaxInt32 : Z := 2147483647.

Definition alwaysReady (u : Unstructured) : exec ResultErr :=
  Returns (Some (ready "ready"), None).

Definition stsConditions (u : Unstructured) : exec ResultErr :=
  let obj := UnstructuredContent u in
  let updateStrategy := GetStringField obj ".spec.updateStrategy.type" "" in
  if String.eqb updateStrategy onDeleteUpdateStrategy
  then Returns (Some userManaged, None)
  else
    let specReplicas := GetIntField obj ".spec.replicas" 1 in
    let readyReplicas := GetIntField obj ".status.readyReplicas" 0 in
    let currentReplicas := GetIntField obj ".status.currentReplicas" 0 in
    let updatedReplicas := GetIntField obj ".status.updatedReplicas" 0 in
    let statusReplicas := GetIntField obj ".status.replicas" 0 in
    let partition := GetIntField obj ".spec.updateStrategy.rollingUpdate.partition" (-1) in
    if specReplicas >? statusReplicas then
      Returns (Some (inProgress ("Replicas: " +:+ itoa statusReplicas +:+ "/"
                                 +:+ itoa specReplicas)), None)
    else if specReplicas >? readyReplicas then
      Returns (Some (inProgress ("Ready: " +:+ itoa readyReplicas +:+ "/"
                                 +:+ itoa specReplicas)), None)
    else if statusReplicas >? specReplicas then
      Returns (Some (inProgress ("Pending termination: "
                                 +:+ itoa (sub64 statusReplicas specReplicas))), None)
    else if negb (partition =? -1) then
      if updatedReplicas <? sub64 specReplicas partition then
        Returns (Some (inProgress ("updated: " +:+ itoa updatedReplicas +:+ "/"
                                   +:+ itoa (sub64 specReplicas partition))), None)
      else
        Returns (Some (ready ("Partition rollout complete. updated: "
                              +:+ itoa updatedReplicas)), None)
    else if specReplicas >? currentReplicas then
      Returns (Some (inProgress ("current: " +:+ itoa currentReplicas +:+ "/"
                                 +:+ itoa specReplicas)), None)
    else
      let currentRevision := GetStringField obj ".status.currentRevision" "" in
      let updatedRevision := GetStringField obj ".status.updateRevision" "" in
      if negb (String.eqb currentRevision updatedRevision) then
        Returns (Some (inProgress "Waiting for updated revision to match current"), None)
      else
        Returns (Some (ready ("All replicas scheduled as expected. Replicas: "
                              +:+ itoa statusReplicas)), None).

(** The loop over the conditions in [deploymentConditions]: an early
    return with Failed, or the two flags after the last condition. *)
Fixpoint deploymentScan (conds : list metav1.Condition) (progressing available : bool)
  : Result + bool * bool :=
  match conds with
  | [] => inr (progressing, available)
  | c :: rest =>
      if String.eqb (metav1.Type_ c) "Progressing" then
        if String.eqb (metav1.Reason c) "ProgressDeadlineExceeded"
        then inl (failed (metav1.Message c))
        else if String.eqb (metav1.Status c) metav1.ConditionTrue
                && String.eqb (metav1.Reason c) "NewReplicaSetAvailable"
        then deploymentScan rest true available
        else deploymentScan rest progressing available
      else if String.eqb (metav1.Type_ c) "Available" then
        if String.eqb (metav1.Status c) metav1.ConditionTrue
        then deploymentScan rest progressing true
        else deploymentScan rest progressing available
      else deploymentScan rest progressing available
  end.

Definition deploymentConditions (u : Unstructured) : exec ResultErr :=
  let obj := UnstructuredContent u in
  let progressing := false in
  let progressDeadline := GetIntField obj ".spec.progressDeadlineSeconds" MaxInt32 in
  let progressing := if progressDeadline =? MaxInt32 then true else progressing in
  let available := false in
  let '(objc, err) := GetObjectWithConditions obj in
  if notNil err then Returns (None, err)
  else
    let* conds := conditionsOf objc in
    match deploymentScan conds progressing available with
    | inl res => Returns (Some res, None)
    | inr (progressing, available) =>
        let specReplicas := GetIntField obj ".spec.replicas" 1 in
        let statusReplicas := GetIntField obj ".status.replicas" 0 in
        let updatedReplicas := GetIntField obj ".status.updatedReplicas" 0 in
        let readyReplicas := GetIntField obj ".status.readyReplicas" 0 in
        let availableReplicas := GetIntField obj ".status.availableReplicas" 0 in
        if specReplicas >? statusReplicas then
          Returns (Some (inProgress ("Replicas: " +:+ itoa statusReplicas +:+ "/"
                                     +:+ itoa specReplicas)), None)
        else if specReplicas >? updatedReplicas then
          Returns (Some (inProgress ("Updated: " +:+ itoa updatedReplicas +:+ "/"
                                     +:+ itoa specReplicas)), None)
        else if statusReplicas >? specReplicas then
          Returns (Some (inProgress ("Pending termination: "
                                     +:+ itoa (sub64 statusReplicas specReplicas))), None)
        else if updatedReplicas >? availableReplicas then
          Returns (Some (inProgress ("Available: " +:+ itoa availableReplicas +:+ "/"
                                     +:+ itoa updatedReplicas)), None)
        else if specReplicas >? readyReplicas then
          Returns (Some (inProgress ("Ready: " +:+ itoa readyReplicas +:+ "/"
                                     +:+ itoa specReplicas)), None)
        else if negb progressing then
          Returns (Some (inProgress "ReplicaSet not Available"), None)
        else if negb available then
          Returns (Some (inProgress "Deployment not Available"), None)
        else
          Returns (Some (ready ("Deployment is available. Replicas: "
                                +:+ itoa statusReplicas)), None)
    end.

(** The loop over the conditions in [replicasetConditions]. *)
Fixpoint replicaFailureScan (conds : list metav1.Condition) : option Result :=
  match conds with
  | [] => None
  | c :: rest =>
      if String.eqb (metav1.Type_ c) "ReplicaFailure"
         && String.eqb (metav1.Status c) metav1.ConditionTrue
      then Some (inProgress "Replica Failure condition. Check Pods")
      else replicaFailureScan rest
  end.

Definition replicasetConditions (u : Unstructured) : exec ResultErr :=
  let obj := UnstructuredContent u in
  let '(objc, err) := GetObjectWithConditions obj in
  if notNil err then Returns (None, err)
  else
    let* conds := conditionsOf objc in
    match replicaFailureScan conds with
    | Some res => Returns (Some res, None)
    | None =>
        let specReplicas := GetIntField obj ".spec.replicas" 1 in
        let statusReplicas := GetIntField obj ".status.replicas" 0 in
        let readyReplicas := GetIntField obj ".status.readyReplicas" 0 in
        let availableReplicas := GetIntField obj ".status.availableReplicas" 0 in
        let fullyLabelledReplicas := GetIntField obj ".status.fullyLabeledReplicas" 0 in
        if specReplicas >? fullyLabelledReplicas then
          Returns (Some (inProgress ("Labelled: " +:+ itoa fullyLabelledReplicas +:+ "/"
                                     +:+ itoa specReplicas)), None)
        else if specReplicas >? availableReplicas then
          Returns (Some (inProgress ("Available: " +:+ itoa availableReplicas +:+ "/"
                                     +:+ itoa specReplicas)), None)
        else if specReplicas >? readyReplicas then
          Returns (Some (inProgress ("Ready: " +:+ itoa readyReplicas +:+ "/"
                                     +:+ itoa specReplicas)), None)
        else if statusReplicas >? specReplicas then
          Returns (Some (inProgress ("Pending termination: "
                                     +:+ itoa (sub64 statusReplicas specReplicas))), None)
        else
          Returns (Some (ready ("ReplicaSet is available. Replicas: "
                                +:+ itoa statusReplicas)), None)
    end.

Definition checkGenerationSet (u : Unstructured) : ResultErr :=
  let '(_, found, err) := NestedInt64 u ["metadata"; "generation"] in
  if notNil err
  then (None, Some (wrapError "looking up metadata.generation from resource: " err))
  else if negb found
  then (Some (inProgress (GetKind u +:+ " metadata.generation not found")), None)
  else
    let '(_, found, err) := NestedInt64 u ["status"; "observedGeneration"] in
    if notNil err
    then (None, Some (wrapError "looking up status.observedGeneration from resource: " err))
    else if negb found
    then (Some (inProgress (GetKind u +:+ " status.observedGeneration not found")), None)
    else (None, None).

Definition daemonsetConditions (u : Unstructured) : exec ResultErr :=
  let '(res, err) := checkGenerationSet u in
  if notNil err || notNil res then Returns (res, err)
  else
    let obj := UnstructuredContent u in
    let desiredNumberScheduled := GetIntField obj ".status.desiredNumberScheduled" (-1) in
    let currentNumberScheduled := GetIntField obj ".status.currentNumberScheduled" 0 in
    let updatedNumberScheduled := GetIntField obj ".status.updatedNumberScheduled" 0 in
    let numberAvailable := GetIntField obj ".status.numberAvailable" 0 in
    let numberReady := GetIntField obj ".status.numberReady" 0 in
    if desiredNumberScheduled =? -1 then
      Returns (Some (inProgress "Missing .status.desiredNumberScheduled"), None)
    else if desiredNumberScheduled >? currentNumberScheduled then
      Returns (Some (inProgress ("Current: " +:+ itoa currentNumberScheduled +:+ "/"
                                 +:+ itoa desiredNumberScheduled)), None)
    else if desiredNumberScheduled >? updatedNumberScheduled then
      Returns (Some (inProgress ("Updated: " +:+ itoa updatedNumberScheduled +:+ "/"
                                 +:+ itoa desiredNumberScheduled)), None)
    else if desiredNumberScheduled >? numberAvailable then
      Returns (Some (inProgress ("Available: " +:+ itoa numberAvailable +:+ "/"
                                 +:+ itoa desiredNumberScheduled)), None)
    else if desiredNumberScheduled >? numberReady then
      Returns (Some (inProgress ("Ready: " +:+ itoa numberReady +:+ "/"
                                 +:+ itoa desiredNumberScheduled)), None)
    else
      Returns (Some (ready ("All replicas scheduled as expected. Replicas: "
                            +:+ itoa desiredNumberScheduled)), None).

Definition pvcConditions (u : Unstructured) : exec ResultErr :=
  let obj := UnstructuredContent u in
  let phase := GetStringField obj ".status.phase" "unknown" in
  if negb (String.eqb phase "Bound")
  then Returns (Some (inProgress ("PVC is not Bound. phase: " +:+ phase)), None)
  else Returns (Some (ready "PVC is bound"), None).

(** [u.GetCreationTimestamp]: the zero time when the field is absent,
    empty, the text null, or does not parse. *)
Definition GetCreationTimestamp (u : Unstructured) : Time :=
  let str := getNestedString u ["metadata"; "creationTimestamp"] in
  if String.eqb str "" then zeroTime
  else if String.eqb str "null" then zeroTime
  else match ParseRFC3339 str with
       | Some pt => pt
       | None => zeroTime
       end.

(** The loop of [getCrashLoopingContainers]; each unchecked type
    assertion ([item.(map[string]interface{})], [n.(string)], ...)
    panics on a value of another dynamic type. *)
Fixpoint crashLoopScan (css : list value) (containerNames : list string)
  : exec (list string) :=
  match css with
  | [] => Returns containerNames
  | item :: rest =>
      match item with
      | VMap cs =>
          match cs !! "name" with
          | None => crashLoopScan rest containerNames
          | Some (VString name) =>
              match cs !! "state" with
              | None => crashLoopScan rest containerNames
              | Some (VMap state) =>
                  match state !! "waiting" with
                  | None => crashLoopScan rest containerNames
                  | Some (VMap waitingState) =>
                      match waitingState !! "reason" with
                      | None => crashLoopScan rest containerNames
                      | Some (VString reason) =>
                          if String.eqb reason "CrashLoopBackOff"
                          then crashLoopScan rest (containerNames ++ [name])
                          else crashLoopScan rest containerNames
                      | Some _ => Panics "interface conversion: interface {} is not string"
                      end
                  | Some _ =>
                      Panics "interface conversion: interface {} is not map[string]interface {}"
                  end
              | Some _ =>
                  Panics "interface conversion: interface {} is not map[string]interface {}"
              end
          | Some _ => Panics "interface conversion: interface {} is not string"
          end
      | _ => Panics "interface conversion: interface {} is not map[string]interface {}"
      end
  end.

Definition getCrashLoopingContainers (obj : gmap string value)
  : exec (list string * bool * option error) :=
  let containerNames : list string := [] in
  let* r := NestedSlice obj ["status"; "containerStatuses"] in
  let '(css, found, err) := r in
  if negb found || notNil err then Returns (containerNames, found, err)
  else
    let* containerNames := crashLoopScan css containerNames in
    if (0 <? Z.of_nat (length containerNames))
    then Returns (containerNames, true, None)
    else Returns (containerNames, false, None).

Definition podConditions (now : Time) (u : Unstructured) : exec ResultErr :=
  let obj := UnstructuredContent u in
  let '(objc, err) := GetObjectWithConditions obj in
  if notNil err then Returns (None, err)
  else
    let phase := GetStringField obj ".status.phase" "" in
    if String.eqb phase "Succeeded" then Returns (Some (ready "Pod completed"), None)
    else if String.eqb phase "Failed" then Returns (Some (failed "Pod failed"), None)
    else if String.eqb phase "Running" then
      let* conds := conditionsOf objc in
      if hasConditionWithStatus conds "Ready" metav1.ConditionTrue
      then Returns (Some (ready "Pod ready"), None)
      else
        let* r := getCrashLoopingContainers obj in
        let '(containerNames, isCrashLooping, err) := r in
        if notNil err then Returns (None, err)
        else if isCrashLooping
        then Returns (Some (failed ("Containers in CrashLoop state: "
                                    +:+ Join containerNames ",")), None)
        else Returns (Some (inProgress "Pod is running but is not Ready"), None)
    else if String.eqb phase "Pending" then
      let* conds := conditionsOf objc in
      let '(c, found) := getConditionWithStatus conds "PodScheduled" metav1.ConditionFalse in
      if found && String.eqb (metav1.Reason c) "Unschedulable" then
        if Before (Add now (- ScheduleWindow)) (GetCreationTimestamp u)
        then Returns (Some (inProgress "Pod has not been scheduled"), None)
        else Returns (Some (failed "Pod could not be scheduled"), None)
      else Returns (Some (inProgress "Pod is in the Pending phase"), None)
    else if String.eqb phase ""
    then Returns (Some (inProgress "Pod phase not available"), None)
    else Returns (None, Some (errorString ("unknown phase " +:+ phase))).

Definition pdbConditions (u : Unstructured) : exec ResultErr :=
  Returns (Some (ready "AllowedDisruptions has been computed."), None).

(** The loop over the conditions in [jobConditions]. *)
Fixpoint jobScan (conds : list metav1.Condition) (succeeded podFailed completions : Z)
  : option Result :=
  match conds with
  | [] => None
  | c :: rest =>
      if String.eqb (metav1.Type_ c) "Complete" then
        if String.eqb (metav1.Status c) metav1.ConditionTrue
        then Some (ready ("Job Completed. succeeded: " +:+ itoa succeeded +:+ "/"
                          +:+ itoa completions))
        else jobScan rest succeeded podFailed completions
      else if String.eqb (metav1.Type_ c) "Failed" then
        if String.eqb (metav1.Status c) metav1.ConditionTrue
        then Some (failed ("Job Failed. failed: " +:+ itoa podFailed +:+ "/"
                           +:+ itoa completions))
        else jobScan rest succeeded podFailed completions
      else jobScan rest succeeded podFailed completions
  end.

Definition jobConditions (u : Unstructured) : exec ResultErr :=
  let obj := UnstructuredContent u in
  let parallelism := GetIntField obj ".spec.parallelism" 1 in
  let completions := GetIntField obj ".spec.completions" parallelism in
  let succeeded := GetIntField obj ".status.succeeded" 0 in
  let active := GetIntField obj ".status.active" 0 in
  let podFailed := GetIntField obj ".status.failed" 0 in
  let starttime := GetStringField obj ".status.startTime" "" in
  let '(objc, err) := GetObjectWithConditions obj in
  if notNil err then Returns (None, err)
  else
    let* conds := conditionsOf objc in
    match jobScan conds succeeded podFailed completions with
    | Some res => Returns (Some res, None)
    | None =>
        if String.eqb starttime ""
        then Returns (Some (inProgress "Job not started"), None)
        else Returns (Some (inProgress ("Job in progress. success:" +:+ itoa succeeded
                                        +:+ ", active: " +:+ itoa active
                                        +:+ ", failed: " +:+ itoa podFailed)), None)
    end.

Definition serviceConditions (u : Unstructured) : exec ResultErr :=
  let obj := UnstructuredContent u in
  let specType := GetStringField obj ".spec.type" "ClusterIP" in
  let specClusterIP := GetStringField obj ".spec.clusterIP" "" in
  if String.eqb specType "LoadBalancer" then
    if String.eqb specClusterIP ""
    then Returns (Some (inProgress "ClusterIP not set. Service type: LoadBalancer"), None)
    else Returns (Some (ready "service ready"), None)
  else Returns (Some (ready "service ready"), None).

(** The loop over the conditions in [crdConditions]. *)
Fixpoint crdScan (conds : list metav1.Condition) : option Result :=
  match conds with
  | [] => None
  | c :: rest =>
      if String.eqb (metav1.Type_ c) "NamesAccepted"
         && String.eqb (metav1.Status c) metav1.ConditionFalse
      then Some (failed (metav1.Message c))
      else if String.eqb (metav1.Type_ c) "Established" then
        if String.eqb (metav1.Status c) metav1.ConditionFalse
           && negb (String.eqb (metav1.Reason c) "Installing")
        then Some (failed (metav1.Message c))
        else if String.eqb (metav1.Status c) metav1.ConditionTrue
        then Some (ready "CRD established")
        else crdScan rest
      else crdScan rest
  end.

Definition crdConditions (u : Unstructured) : exec ResultErr :=
  let obj := UnstructuredContent u in
  let '(objc, err) := GetObjectWithConditions obj in
  if notNil err then Returns (None, err)
  else
    let* conds := conditionsOf objc in
    match crdScan conds with
    | Some res => Returns (Some res, None)
    | None => Returns (Some (inProgress "installing"), None)
    end.

(** [legacyTypes]: the registry from the dispatch key to the function
    computing the status.  The clock reading of the call is the one
    [podConditions] takes from [time.Now]. *)
Definition legacyTypes (now : Time) : gmap string GetConditionsFn :=
  list_to_map [
    ("Service", serviceConditions);
    ("Pod", podConditions now);
    ("Secret", alwaysReady);
    ("PersistentVolumeClaim", pvcConditions);
    ("apps/StatefulSet", stsConditions);
    ("apps/DaemonSet", daemonsetConditions);
    ("extensions/DaemonSet", daemonsetConditions);
    ("apps/Deployment", deploymentConditions);
    ("extensions/Deployment", deploymentConditions);
    ("apps/ReplicaSet", replicasetConditions);
    ("extensions/ReplicaSet", replicasetConditions);
    ("policy/PodDisruptionBudget", pdbConditions);
    ("batch/CronJob", alwaysReady);
    ("ConfigMap", alwaysReady);
    ("batch/Job", jobConditions);
    ("apiextensions.k8s.io/CustomResourceDefinition", crdConditions)
  ].

Definition legacyKey (u : Unstructured) : string :=
  let gvk := GetGroupVersionKind u in
  let g := Group gvk in
  let k := Kind gvk in
  let key := g +:+ "/" +:+ k in
  if String.eqb g "" then k else key.

Definition GetLegacyConditionsFn (now : Time) (u : Unstructured) : option GetConditionsFn :=
  legacyTypes now !! legacyKey u.

(** ** The classifier *)

Definition Compute (now : Time) (u : Unstructured) : exec ResultErr :=
  let* r := checkGenericProperties u in
  let '(res, err) := r in
  if notNil err then Returns (None, err)
  else if notNil res then Returns (res, None)
  else
    match GetLegacyConditionsFn now u with
    | Some fn => fn u
    | None => Returns (Some noStatusInfo, err)
    end.

End Classifier.

Arguments legacyTypes : simpl never.
Arguments GetLegacyConditionsFn : simpl never.
Arguments legacyKey : simpl never.

(** ** The poller ([getStatusWithRetries], [getStatus]) *)

Definition maxRetries : Z := 5.
Definition backoffFactor : Z := 2.
Definition initialDelay : Duration := 1 * Second.
Definition initialGetDelay : Duration := 500 * Millisecond.

(** The remote side of one poll session: what the [n]-th call of
    [client.Get] for the polled resource returns, and what [time.Now]
    reads while the [n]-th snapshot is classified.  Each attempt calls
    [client.Get] once, so [n] is the attempt. *)
Record Client : Type := mkClient {
  Get : Z -> Unstructured -> option Unstructured * option error;
  Now : Z -> Time
}.

(** What a poll session does besides returning. *)
Inductive event : Type :=
| EvSleep (d : Duration)
| EvGet (attempt : Z)
| EvPrintf (backoffDuration : Duration) (attempt maxRetries : Z).

Section Poller.

Context `{lib : Apimachinery}.

Definition getStatus (client : Client) (u : Unstructured) (delete : bool) (attempt : Z)
  : exec (option Unstructured * bool * option error) :=
  let '(newObj, err) := Get client attempt u in
  match err with
  | Some e =>
      if IsNotFound e then
        if delete then Returns (None, false, None)
        else Returns (None, true, None)
      else Returns (None, true, err)
  | None =>
      match newObj with
      | None => Panics "nil pointer dereference"
      | Some obj =>
          let* r := Compute (Now client attempt) obj in
          let '(result, err) := r in
          if notNil err then Returns (newObj, true, err)
          else
            match result with
            | None => Panics "nil pointer dereference"
            | Some result =>
                if String.eqb (Status result) metav1.ConditionFalse then
                  if String.eqb (Reason_ result) ReasonFailed then
                    let err := errorString ("failed: " +:+ Message result) in
                    Returns (newObj, false, Some err)
                  else Returns (newObj, true, None)
                else if String.eqb (Reason_ result) ReasonNoStatusInfo
                        && (attempt <? maxRetries - 2)
                then Returns (newObj, true, None)
                else Returns (newObj, false, None)
            end
      end
  end.

(** [float64(initialDelay) * math.Pow(backoffFactor, float64(attempt))]
    converted to a [time.Duration]: for the attempts of the loop the
    product is an integer below 2^53, so the floating-point value is
    the exact one. *)
Definition backoff (attempt : Z) : Duration := initialDelay * backoffFactor ^ attempt.

(** The [for] loop of [getStatusWithRetries], [fuel] iterations from
    [attempt] on.  [err] is the variable declared before the loop.
    The short declaration [newObj, cont, err := getStatus(...)] in the
    body declares three new variables in the scope of the body, so
    the loop never assigns the outer [err]: it is threaded unchanged
    and the body's own error is [err']. *)
Fixpoint retryLoop (client : Client) (u : Unstructured) (delete : bool)
  (gvk nsn : string) (err : option error) (fuel : nat) (attempt : Z)
  (trace : list event) : exec (option Unstructured * option error * list event) :=
  match fuel with
  | O =>
      Returns (None,
               Some (wrapError ("getStatus gvk " +:+ gvk +:+ " nsn " +:+ nsn +:+ " after "
                                +:+ itoa maxRetries +:+ " retries: ") err),
               trace)
  | S fuel' =>
      let* r := getStatus client u delete attempt in
      let '(newObj, cont, err') := r in
      let trace := (trace ++ [EvGet attempt])%list in
      if negb cont then Returns (newObj, err', trace)
      else
        let backoffDuration := backoff attempt in
        let trace := (trace ++ [EvPrintf backoffDuration (attempt + 1) maxRetries;
                                EvSleep backoffDuration])%list in
        retryLoop client u delete gvk nsn err fuel' (attempt + 1) trace
  end.

Definition getStatusWithRetries (client : Client) (u : Unstructured) (delete : bool)
  : exec (option Unstructured * option error * list event) :=
  let gvk := gvkString (GetGroupVersionKind u) in
  let nsn := nsnString (GetNamespace u) (GetName u) in
  let trace := [EvSleep initialGetDelay] in
  let err : option error := None in
  retryLoop client u delete gvk nsn err (Z.to_nat maxRetries) 0 trace.

End Poller.

(** ** The manifest resource ([resourceKubernetesManifest...])

    The four operations of the resource around the poller.  The JSON
    codec ([json.Unmarshal] into an [Unstructured], [json.Marshal] of a
    snapshot) and the text of an error ([err.Error]) are parameters;
    the requests the [Client] sends besides the fetches of a poll
    session are answered by a [Remote]. *)

(** [schema.ResourceObject]: the bytes of the object, the bytes of the
    old object, and the dry-run flag. *)
Record ResourceObject : Type := mkResourceObject {
  GetObject : string;
  GetOldObject : string;
  IsDryRun : bool
}.

Record Remote : Type := mkRemote {
  session : Client;
  Lookup : Unstructured -> option Unstructured * option error;
  Create : Unstructured -> list string -> option Unstructured * option error;
  Update : Unstructured -> list string -> option Unstructured * option error;
  Delete : Unstructured -> list string -> option error
}.

(** What an operation asks of the remote, in order; the fetches and
    sleeps of a poll session are kept together. *)
Inductive request : Type :=
| ReqGet (u : Unstructured)
| ReqCreate (u : Unstructured) (dryRun : list string)
| ReqUpdate (u : Unstructured) (dryRun : list string)
| ReqDelete (u : Unstructured) (dryRun : list string)
| ReqPoll (trace : list event).

(** [diag.Diagnostics]: nil, or the one diagnostic [diag.FromErr]
    makes of an error. *)
Definition Diagnostics : Type := list error.
Definition FromErr (err : error) : Diagnostics := [err].

(** [strings.Contains]. *)
Fixpoint Contains (s substr : string) : bool :=
  String.prefix substr s
  || match s with
     | EmptyString => false
     | String _ rest => Contains rest substr
     end.

Definition GetResourceVersion (u : Unstructured) : string :=
  getNestedString u ["metadata"; "resourceVersion"].

(** [u.SetResourceVersion version]: the field is set in the metadata
    map, which is made when absent; when [metadata] holds something
    that is not a map the error of [SetNestedField] is dropped and the
    object stays as it is. *)
Definition SetResourceVersion (u : Unstructured) (version : string) : Unstructured :=
  match u !! "metadata" with
  | Some (VMap m) => <["metadata" := VMap (<["resourceVersion" := VString version]> m)]> u
  | Some _ => u
  | None => <["metadata" := VMap {[ "resourceVersion" := VString version ]}]> u
  end.

Section Resource.

Context `{lib : Apimachinery}.

Variable Unmarshal : string -> Unstructured * option error.
Variable Marshal : option Unstructured -> string * option error.
Variable ErrorText : error -> string.

(** The bytes and diagnostics an operation returns, with the requests
    it made. *)
Definition outcome : Type := option string * Diagnostics * list request.

Definition dryRunOf (obj : ResourceObject) : list string :=
  if IsDryRun obj then ["All"] else [].

(** The tail shared by the operations: marshal the snapshot. *)
Definition marshalled (newObj : option Unstructured) (requests : list request) : outcome :=
  let '(b, err) := Marshal newObj in
  match err with
  | Some e => (None, FromErr e, requests)
  | None => (Some b, [], requests)
  end.

Definition resourceKubernetesManifestRead (remote : Remote) (obj : ResourceObject)
  : outcome :=
  let '(u, err) := Unmarshal (GetObject obj) in
  match err with
  | Some e => (None, FromErr e, [])
  | None =>
      let '(newObj, err) := Lookup remote u in
      match err with
      | Some e => (None, FromErr e, [ReqGet u])
      | None => marshalled newObj [ReqGet u]
      end
  end.

Definition resourceKubernetesManifestCreate (remote : Remote) (obj : ResourceObject)
  : exec outcome :=
  let '(u, err) := Unmarshal (GetObject obj) in
  match err with
  | Some e => Returns (None, FromErr e, [])
  | None =>
      let dryRun := dryRunOf obj in
      let '(newObj, err) := Create remote u dryRun in
      match err with
      | Some e => Returns (None, FromErr e, [ReqCreate u dryRun])
      | None =>
          if IsDryRun obj then Returns (marshalled newObj [ReqCreate u dryRun])
          else
            let* r := getStatusWithRetries (session remote) u false in
            let '(newObj, err, trace) := r in
            match err with
            | Some e => Returns (None, FromErr e, [ReqCreate u dryRun; ReqPoll trace])
            | None => Returns (marshalled newObj [ReqCreate u dryRun; ReqPoll trace])
            end
      end
  end.

Definition resourceKubernetesManifestUpdate (remote : Remote) (obj : ResourceObject)
  : exec outcome :=
  let '(newu, err) := Unmarshal (GetObject obj) in
  match err with
  | Some e => Returns (None, FromErr e, [])
  | None =>
      let '(oldu, err) := Unmarshal (GetOldObject obj) in
      match err with
      | Some e => Returns (None, FromErr e, [])
      | None =>
          let newu :=
            if negb (String.eqb (GetResourceVersion oldu) "")
            then SetResourceVersion newu (GetResourceVersion oldu)
            else newu in
          let dryRun := dryRunOf obj in
          let '(newObj, err) := Update remote newu dryRun in
          match err with
          | Some e => Returns (None, FromErr e, [ReqUpdate newu dryRun])
          | None =>
              if IsDryRun obj then Returns (marshalled newObj [ReqUpdate newu dryRun])
              else
                let* r := getStatusWithRetries (session remote) newu false in
                let '(newObj, err, trace) := r in
                match err with
                | Some e => Returns (None, FromErr e, [ReqUpdate newu dryRun; ReqPoll trace])
                | None => Returns (marshalled newObj [ReqUpdate newu dryRun; ReqPoll trace])
                end
          end
      end
  end.

(** The deletion returns diagnostics only. *)
Definition resourceKubernetesManifestDelete (remote : Remote) (obj : ResourceObject)
  : exec (Diagnostics * list request) :=
  let '(u, err) := Unmarshal (GetObject obj) in
  match err with
  | Some e => Returns (FromErr e, [])
  | None =>
      let '(_, err) := Lookup remote u in
      match err with
      | Some e =>
          if Contains (ErrorText e) "not found" then Returns ([], [ReqGet u])
          else Returns (FromErr e, [ReqGet u])
      | None =>
          let dryRun := dryRunOf obj in
          match Delete remote u dryRun with
          | Some e => Returns (FromErr e, [ReqGet u; ReqDelete u dryRun])
          | None =>
              let* r := getStatusWithRetries (session remote) u true in
              let '(_, err, trace) := r in
              match err with
              | Some e => Returns (FromErr e, [ReqGet u; ReqDelete u dryRun; ReqPoll trace])
              | None => Returns ([], [ReqGet u; ReqDelete u dryRun; ReqPoll trace])
              end
          end
      end
  end.

End Resource.

(** ** A reference instance of the library interface

    Used to run the classifier and the poller on concrete snapshots.
    The decoder follows the JSON field names of [ObjWithConditions] and
    [metav1.Condition] the way the converter does: an absent or null
    field gives the zero value, a field of another dynamic type is an
    error, further fields are ignored.  The parser reads the timestamp
    form the API server writes, [YYYY-MM-DDThh:mm:ssZ]. *)

Module Reference.

Definition digit (c : ascii) : option Z :=
  let n := Z.of_N (N_of_ascii c) in
  if (48 <=? n) && (n <=? 57) then Some (n - 48) else None.

Fixpoint number (acc : Z) (s : string) : option Z :=
  match s with
  | EmptyString => Some acc
  | String c rest =>
      match digit c with
      | Some d => number (10 * acc + d) rest
      | None => None
      end
  end.

Definition isLeap (y : Z) : bool :=
  ((y mod 4 =? 0) && negb (y mod 100 =? 0)) || (y mod 400 =? 0).

Definition daysIn (y m : Z) : Z :=
  if m =? 2 then (if isLeap y then 29 else 28)
  else if (m =? 4) || (m =? 6) || (m =? 9) || (m =? 11) then 30 else 31.

(** Days from 1970-01-01 to the civil date [y]-[m]-[d]. *)
Definition daysFromCivil (y m d : Z) : Z :=
  let y' := if m <=? 2 then y - 1 else y in
  let era := y' / 400 in
  let yoe := y' - era * 400 in
  let doy := (153 * (if m >? 2 then m - 3 else m + 9) + 2) / 5 + d - 1 in
  let doe := yoe * 365 + yoe / 4 - yoe / 100 + doy in
  era * 146097 + doe - 719468.

Definition parseRFC3339 (s : string) : option Time :=
  if negb (Nat.eqb (String.length s) 20) then None
  else if negb (String.eqb (substring 4 1 s) "-" && String.eqb (substring 7 1 s) "-"
                && String.eqb (substring 10 1 s) "T" && String.eqb (substring 13 1 s) ":"
                && String.eqb (substring 16 1 s) ":" && String.eqb (substring 19 1 s) "Z")
  then None
  else
    match number 0 (substring 0 4 s), number 0 (substring 5 2 s),
          number 0 (substring 8 2 s), number 0 (substring 11 2 s),
          number 0 (substring 14 2 s), number 0 (substring 17 2 s) with
    | Some y, Some m, Some d, Some hh, Some mm, Some ss =>
        if (1 <=? m) && (m <=? 12) && (1 <=? d) && (d <=? daysIn y m)
           && (hh <? 24) && (mm <? 60) && (ss <? 60)
        then Some ((daysFromCivil y m d * 86400 + hh * 3600 + mm * 60 + ss) * Second)
        else None
    | _, _, _, _, _, _ => None
    end.

Definition fromString (v : option value) : option string :=
  match v with
  | None | Some VNil => Some ""
  | Some (VString s) => Some s
  | Some _ => None
  end.

Definition fromInt64 (v : option value) : option Z :=
  match v with
  | None | Some VNil => Some 0
  | Some (VInt64 n) | Some (VInt n) | Some (VInt32 n) => Some n
  | Some (VFloat64 m e) =>
      if 0 <=? e then Some (m * 2 ^ e)
      else if m mod 2 ^ (- e) =? 0 then Some (m / 2 ^ (- e)) else None
  | Some _ => None
  end.

Definition fromTime (v : option value) : option Time :=
  match v with
  | None | Some VNil => Some zeroTime
  | Some (VString s) => parseRFC3339 s
  | Some _ => None
  end.

Definition decodeCondition (v : value) : option metav1.Condition :=
  match v with
  | VNil => Some (metav1.mkCondition "" "" 0 zeroTime "" "")
  | VMap m =>
      match fromString (m !! "type"), fromString (m !! "status"),
            fromInt64 (m !! "observedGeneration"), fromTime (m !! "lastTransitionTime"),
            fromString (m !! "reason"), fromString (m !! "message") with
      | Some t, Some s, Some g, Some ltt, Some r, Some msg =>
          Some (metav1.mkCondition t s g ltt r msg)
      | _, _, _, _, _, _ => None
      end
  | _ => None
  end.

Fixpoint decodeConditions (l : list value) : option (list metav1.Condition) :=
  match l with
  | [] => Some []
  | v :: rest =>
      match decodeCondition v, decodeConditions rest with
      | Some c, Some cs => Some (c :: cs)
      | _, _ => None
      end
  end.

Definition decodeStatus (v : option value) : option ConditionedStatus :=
  match v with
  | None | Some VNil => Some (mkConditionedStatus [])
  | Some (VMap m) =>
      match m !! "conditions" with
      | None | Some VNil => Some (mkConditionedStatus [])
      | Some (VSlice l) =>
          match decodeConditions l with
          | Some cs => Some (mkConditionedStatus cs)
          | None => None
          end
      | Some _ => None
      end
  | Some _ => None
  end.

Definition fromUnstructured (obj : gmap string value) : ObjWithConditions * option error :=
  match decodeStatus (obj !! "status") with
  | Some st => (mkObjWithConditions st, None)
  | None => (mkObjWithConditions (mkConditionedStatus []),
             Some (errorString "cannot convert unstructured status"))
  end.

(** The reasons [apierrors] knows; an error of another reason counts
    as not found when its code is 404. *)
Definition knownReasons : list string :=
  ["Unauthorized"; "Forbidden"; "NotFound"; "AlreadyExists"; "Conflict"; "Gone";
   "Invalid"; "ServerTimeout"; "Timeout"; "TooManyRequests"; "BadRequest";
   "MethodNotAllowed"; "NotAcceptable"; "RequestEntityTooLarge";
   "UnsupportedMediaType"; "InternalError"; "Expired"; "ServiceUnavailable"].

Fixpoint isNotFound (err : error) : bool :=
  match err with
  | statusError reason code _ =>
      String.eqb reason "NotFound"
      || (negb (existsb (String.eqb reason) knownReasons) && (code =? 404))
  | wrapError _ (Some cause) => isNotFound cause
  | _ => false
  end.

Definition apimachinery : Apimachinery :=
  {| FromUnstructured := fromUnstructured;
     ParseRFC3339 := parseRFC3339;
     IsNotFound := isNotFound |}.

End Reference.

(** ** Snapshots

    The manifests of the package's test, as the trees the YAML decoder
    builds (integers as int64), and the snapshots the properties below
    are run on. *)

Module Manifests.

Definition obj (fields : list (string * value)) : value := VMap (list_to_map fields).

Definition condition (type status reason : string) : value :=
  obj [("type", VString type); ("status", VString status); ("reason", VString reason)].

Definition deploymentManifest : Unstructured :=
  list_to_map [
    ("apiVersion", VString "apps/v1");
    ("kind", VString "Deployment");
    ("metadata", obj [("name", VString "test"); ("generation", VInt64 1);
                      ("namespace", VString "qual")]);
    ("status", obj [("observedGeneration", VInt64 1); ("updatedReplicas", VInt64 1);
                    ("readyReplicas", VInt64 1); ("availableReplicas", VInt64 1);
                    ("replicas", VInt64 1);
                    ("conditions", VSlice [
                       condition "Progressing" "True" "NewReplicaSetAvailable";
                       obj [("type", VString "Available"); ("status", VString "True")] ])])
  ].

Definition configMapManifest : Unstructured :=
  list_to_map [
    ("apiVersion", VString "v1");
    ("kind", VString "ConfigMap");
    ("metadata", obj [("name", VString "edge01"); ("namespace", VString "default");
                      ("resourceVersion", VString "803002");
                      ("uid", VString "d777644a-8779-44c9-a6f7-c2e1b0499f5f")]);
    ("data", obj [("attachmentType", VString "vlan"); ("clusterName", VString "edge10");
                  ("count", VString "5"); ("revision", VString "v1")])
  ].

Definition targetCondition (type status reason ltt : string) : value :=
  obj [("lastTransitionTime", VString ltt); ("message", VString "");
       ("reason", VString reason); ("status", VString status); ("type", VString type)].

Definition targetManifest (readyStatus readyReason : string) : Unstructured :=
  list_to_map [
    ("apiVersion", VString "inv.sdcio.dev/v1alpha1");
    ("kind", VString "Target");
    ("metadata", obj [("creationTimestamp", VString "2024-03-29T00:58:41Z");
                      ("generation", VInt64 1);
                      ("name", VString "dev1"); ("namespace", VString "default");
                      ("resourceVersion", VString "695865")]);
    ("spec", obj [("address", VString "172.18.0.4:57400");
                  ("provider", VString "srl.nokia.sdcio.dev")]);
    ("status", obj [("conditions", VSlice [
        targetCondition "DiscoveryReady" "True" "Ready" "2024-03-29T00:58:41Z";
        targetCondition "ConfigReady" "True" "Ready" "2024-03-29T16:10:31Z";
        targetCondition "Ready" readyStatus readyReason "2024-03-29T16:10:31Z";
        targetCondition "DatastoreReady" "True" "Ready" "2024-03-29T16:10:29Z"])])
  ].

Definition targetReadyManifest : Unstructured := targetManifest "True" "Ready".
Definition targetInProgressManifest : Unstructured := targetManifest "False" "Ongoing".

(** The deployment of the test, being deleted. *)
Definition deletedMetadata : gmap string value :=
  list_to_map [("name", VString "test"); ("generation", VInt64 1);
               ("namespace", VString "qual");
               ("deletionTimestamp", VString "2024-03-29T01:00:00Z")].

Definition deletedDeployment : Unstructured :=
  <["metadata" := VMap deletedMetadata]> deploymentManifest.

(** A pending pod the scheduler found no node for, created at
    2024-03-29T00:58:41Z. *)
Definition unschedulablePod : Unstructured :=
  list_to_map [
    ("apiVersion", VString "v1");
    ("kind", VString "Pod");
    ("metadata", obj [("name", VString "web-0"); ("namespace", VString "default");
                      ("creationTimestamp", VString "2024-03-29T00:58:41Z")]);
    ("status", obj [("phase", VString "Pending");
                    ("conditions", VSlice [
                       condition "PodScheduled" "False" "Unschedulable"])])
  ].

Definition podCreated : Time := 1711673921 * Second.

(** A running pod whose first container status carries a number where
    the name is expected. *)
Definition malformedPod : Unstructured :=
  list_to_map [
    ("apiVersion", VString "v1");
    ("kind", VString "Pod");
    ("metadata", obj [("name", VString "web-0"); ("namespace", VString "default")]);
    ("status", obj [("phase", VString "Running");
                    ("containerStatuses", VSlice [
                       obj [("name", VInt64 7);
                            ("state", obj [("waiting",
                               obj [("reason", VString "CrashLoopBackOff")])])] ])])
  ].

(** A resource of a kind the registry does not know, without status. *)
Definition widget : Unstructured :=
  list_to_map [
    ("apiVersion", VString "example.com/v1");
    ("kind", VString "Widget");
    ("metadata", obj [("name", VString "w"); ("namespace", VString "default")])
  ].

(** A status whose replica count was decoded as the float64 1.0. *)
Definition floatReplicas : gmap string value :=
  list_to_map [("status", obj [("replicas", VFloat64 1 0)])].

Definition notFound : error :=
  statusError "NotFound" 404 "widgets.example.com w not found".

Definition connectionRefused : error :=
  errorString "dial tcp 10.0.0.1:6443: connect: connection refused".

(** A remote the resource is already gone from, and one that refuses
    every connection. *)
Definition goneClient : Client :=
  {| Get := fun _ _ => (None, Some notFound); Now := fun _ => podCreated |}.

Definition refusingClient : Client :=
  {| Get := fun _ _ => (None, Some connectionRefused); Now := fun _ => podCreated |}.

End Manifests.

(** ** Further snapshots and remotes *)

Module Fixtures.

Import Manifests.

Definition cond (type status reason message : string) : metav1.Condition :=
  metav1.mkCondition type status 0 zeroTime reason message.

Definition messageCondition (type status message : string) : value :=
  obj [("type", VString type); ("status", VString status); ("message", VString message)].

(** A resource whose deletion timestamp is a number. *)
Definition numberedMetadata : gmap string value :=
  list_to_map [("name", VString "w"); ("deletionTimestamp", VInt64 5)].

Definition badTimestamp : Unstructured :=
  list_to_map [("apiVersion", VString "example.com/v1"); ("kind", VString "Widget");
               ("metadata", VMap numberedMetadata)].

(** The deployment of the test after an edit the controller has not
    seen yet. *)
Definition staleDeployment : Unstructured :=
  <["metadata" := obj [("name", VString "test"); ("generation", VInt64 2);
                       ("namespace", VString "qual")] ]> deploymentManifest.

(** A resource of an unregistered kind that reports Ready=False after
    another condition. *)
Definition waitingWidget : Unstructured :=
  list_to_map [
    ("apiVersion", VString "example.com/v1"); ("kind", VString "Widget");
    ("metadata", obj [("name", VString "w"); ("namespace", VString "default")]);
    ("status", obj [("conditions", VSlice [
       messageCondition "Synced" "True" ""; messageCondition "Ready" "False" "waiting";
       messageCondition "Ready" "True" "late"])])
  ].

Definition replicas (fields : list (string * Z)) : value :=
  obj ((fun '(k, n) => (k, VInt64 n)) <$> fields).

Definition readyStatefulSet : Unstructured :=
  list_to_map [
    ("apiVersion", VString "apps/v1"); ("kind", VString "StatefulSet");
    ("metadata", obj [("name", VString "db"); ("namespace", VString "default")]);
    ("spec", replicas [("replicas", 3)]);
    ("status", obj [("replicas", VInt64 3); ("readyReplicas", VInt64 3);
                    ("currentReplicas", VInt64 3); ("updatedReplicas", VInt64 3);
                    ("currentRevision", VString "db-5c"); ("updateRevision", VString "db-5c")])
  ].

(** A deployment whose rollout ran out of time. *)
Definition stuckDeployment : Unstructured :=
  list_to_map [
    ("apiVersion", VString "apps/v1"); ("kind", VString "Deployment");
    ("metadata", obj [("name", VString "test"); ("namespace", VString "qual")]);
    ("status", obj [("replicas", VInt64 1);
                    ("conditions", VSlice [
                       obj [("type", VString "Progressing"); ("status", VString "False");
                            ("reason", VString "ProgressDeadlineExceeded");
                            ("message", VString "timed out progressing")] ])])
  ].

Definition readyReplicaSet : Unstructured :=
  list_to_map [
    ("apiVersion", VString "apps/v1"); ("kind", VString "ReplicaSet");
    ("metadata", obj [("name", VString "rs"); ("namespace", VString "default")]);
    ("spec", replicas [("replicas", 2)]);
    ("status", replicas [("replicas", 2); ("readyReplicas", 2); ("availableReplicas", 2);
                         ("fullyLabeledReplicas", 2)])
  ].

(** A DaemonSet the controller has not acted on, and one it has. *)
Definition newDaemonSet : Unstructured :=
  list_to_map [
    ("apiVersion", VString "apps/v1"); ("kind", VString "DaemonSet");
    ("metadata", obj [("name", VString "agent"); ("namespace", VString "default")])
  ].

Definition readyDaemonSet : Unstructured :=
  list_to_map [
    ("apiVersion", VString "apps/v1"); ("kind", VString "DaemonSet");
    ("metadata", obj [("name", VString "agent"); ("namespace", VString "default");
                      ("generation", VInt64 1)]);
    ("status", replicas [("observedGeneration", 1); ("desiredNumberScheduled", 2);
                         ("currentNumberScheduled", 2); ("updatedNumberScheduled", 2);
                         ("numberAvailable", 2); ("numberReady", 2)])
  ].

Definition completedJob : Unstructured :=
  list_to_map [
    ("apiVersion", VString "batch/v1"); ("kind", VString "Job");
    ("metadata", obj [("name", VString "migrate"); ("namespace", VString "default")]);
    ("status", obj [("succeeded", VInt64 1); ("startTime", VString "2024-03-29T00:58:41Z");
                    ("conditions", VSlice [messageCondition "Complete" "True" ""])])
  ].

(** A pod the node stopped reporting on. *)
Definition lostPod : Unstructured :=
  list_to_map [
    ("apiVersion", VString "v1"); ("kind", VString "Pod");
    ("metadata", obj [("name", VString "web-0"); ("namespace", VString "default")]);
    ("status", obj [("phase", VString "Unknown")])
  ].

(** The unschedulable pod, without creation timestamp. *)
Definition undatedPod : Unstructured :=
  <["metadata" := obj [("name", VString "web-0"); ("namespace", VString "default")] ]>
    unschedulablePod.

Definition waitingContainer (name reason : string) : value :=
  obj [("name", VString name);
       ("state", obj [("waiting", obj [("reason", VString reason)])])].

Definition runningContainer (name : string) : value :=
  obj [("name", VString name); ("state", obj [("running", obj [])])].

Definition containerStatuses : list value :=
  [waitingContainer "app" "CrashLoopBackOff"; runningContainer "sidecar";
   waitingContainer "init" "ImagePullBackOff"; waitingContainer "proxy" "CrashLoopBackOff"].

Definition crashingPod : Unstructured :=
  list_to_map [
    ("apiVersion", VString "v1"); ("kind", VString "Pod");
    ("metadata", obj [("name", VString "web-0"); ("namespace", VString "default")]);
    ("status", obj [("phase", VString "Running");
                    ("containerStatuses", VSlice containerStatuses)])
  ].

(** Remotes: one that shows the stale deployment first and the
    converged one from the second fetch on, one whose deployment is
    stuck, one that shows a resource without status, one that shows
    the converged deployment. *)
Definition convergingClient : Client :=
  {| Get := fun attempt _ =>
              if attempt <? 1 then (Some staleDeployment, None)
              else (Some deploymentManifest, None);
     Now := fun _ => podCreated |}.

Definition stuckClient : Client :=
  {| Get := fun _ _ => (Some stuckDeployment, None); Now := fun _ => podCreated |}.

Definition silentClient : Client :=
  {| Get := fun _ _ => (Some widget, None); Now := fun _ => podCreated |}.

Definition readyClient : Client :=
  {| Get := fun _ _ => (Some deploymentManifest, None); Now := fun _ => podCreated |}.

(** A codec for the bytes used below, by table, and the text of an
    error. *)
Definition oldDeployment : Unstructured :=
  <["metadata" := obj [("name", VString "test"); ("namespace", VString "qual");
                       ("resourceVersion", VString "695865")] ]> deploymentManifest.

Definition unmarshal (bytes : string) : Unstructured * option error :=
  if String.eqb bytes "deployment" then (deploymentManifest, None)
  else if String.eqb bytes "old deployment" then (oldDeployment, None)
  else if String.eqb bytes "widget" then (widget, None)
  else (∅, Some (errorString "invalid character"))%stdpp.

Definition marshal (newObj : option Unstructured) : string * option error :=
  match newObj with
  | Some u => (GetKind u +:+ " " +:+ GetNamespace u +:+ "/" +:+ GetName u, None)
  | None => ("null", None)
  end.

Fixpoint errorText (err : error) : string :=
  match err with
  | errorString msg => msg
  | wrapError msg (Some cause) => msg +:+ errorText cause
  | wrapError msg None => msg +:+ "%!w(<nil>)"
  | statusError _ _ msg => msg
  | accessorError _ _ expected => "accessor error: expected " +:+ expected
  end.

Definition remoteOf (client : Client)
  (lookup : option Unstructured * option error) : Remote :=
  {| session := client;
     Lookup := fun _ => lookup;
     Create := fun u _ => (Some u, None);
     Update := fun u _ => (Some u, None);
     Delete := fun _ _ => None |}.

Definition absentRemote : Remote := remoteOf goneClient (None, Some notFound).
Definition liveRemote : Remote := remoteOf readyClient (Some deploymentManifest, None).

Definition dryRunDeployment : ResourceObject :=
  {| GetObject := "deployment"; GetOldObject := "old deployment"; IsDryRun := true |}.

Definition widgetObject : ResourceObject :=
  {| GetObject := "widget"; GetOldObject := ""; IsDryRun := false |}.

End Fixtures.

(** ** Vocabulary of the properties *)

(** The invariant of a [Result]. *)
Definition ResultInvariant (r : Result) : Prop :=
  (Status r = metav1.ConditionTrue <->
     Reason_ r = ReasonReady \/ Reason_ r = ReasonNoStatusInfo \/ Reason_ r = ReasonUserManaged)
  /\ (Status r = metav1.ConditionFalse <->
     Reason_ r = ReasonTerminating \/ Reason_ r = ReasonInProgress \/ Reason_ r = ReasonFailed).

(** The results the six constructors of the package build. *)
Inductive verdict : Result -> Prop :=
| verdict_ready msg : verdict (ready msg)
| verdict_noStatusInfo : verdict noStatusInfo
| verdict_userManaged : verdict userManaged
| verdict_inProgress msg : verdict (inProgress msg)
| verdict_terminating : verdict terminating
| verdict_failed msg : verdict (failed msg).

(** A call returns the verdict [r] (whatever error comes with it). *)
Definition yields (x : exec ResultErr) (r : Result) : Prop :=
  exists err, x = Returns (Some r, err).

(** Every verdict a call can return is built by a constructor. *)
Definition sound (x : exec ResultErr) : Prop :=
  forall r, yields x r -> verdict r.

(** The conditions the properties speak of. *)
Definition unschedulable (c : metav1.Condition) : Prop :=
  metav1.Type_ c = "PodScheduled"
  /\ metav1.Status c = metav1.ConditionFalse
  /\ metav1.Reason c = "Unschedulable".

Definition progressingDone (c : metav1.Condition) : Prop :=
  metav1.Type_ c = "Progressing"
  /\ metav1.Status c = metav1.ConditionTrue
  /\ metav1.Reason c = "NewReplicaSetAvailable".

Definition availableTrue (c : metav1.Condition) : Prop :=
  metav1.Type_ c = "Available" /\ metav1.Status c = metav1.ConditionTrue.

Section Scenarios.

Context `{lib : Apimachinery}.

(** A Deployment with one replica asked for (or none stated), one
    replica counted, updated, ready and available, the latest
    generation observed, and conditions that are all either
    Progressing=True/NewReplicaSetAvailable or Available=True, both
    present. *)
Definition availableDeployment (u : Unstructured) : Prop :=
  (legacyKey u = "apps/Deployment" \/ legacyKey u = "extensions/Deployment")
  /\ GetIntField u ".spec.replicas" 1 = 1
  /\ GetIntField u ".status.replicas" 0 = 1
  /\ GetIntField u ".status.updatedReplicas" 0 = 1
  /\ GetIntField u ".status.readyReplicas" 0 = 1
  /\ GetIntField u ".status.availableReplicas" 0 = 1
  /\ (exists g, NestedInt64 u ["metadata"; "generation"] = (g, true, None)
              /\ NestedInt64 u ["status"; "observedGeneration"] = (g, true, None))
  /\ exists objc, GetObjectWithConditions u = (Some objc, None)
       /\ (exists c, c ∈ Conditions (ObjStatus objc) /\ progressingDone c)
       /\ (exists c, c ∈ Conditions (ObjStatus objc) /\ availableTrue c)
       /\ (forall c, c ∈ Conditions (ObjStatus objc) -> progressingDone c \/ availableTrue c).

(** [metadata.deletionTimestamp] is absent or the empty string. *)
Definition notDeleting (u : Unstructured) : Prop :=
  exists s found,
    NestedString u ["metadata"; "deletionTimestamp"] = (s, found, None)
    /\ (found = false \/ s = "").

(** Whether a call at [now] falls within the schedule window of [u]. *)
Definition withinScheduleWindow (now : Time) (u : Unstructured) : bool :=
  Before (Add now (- ScheduleWindow)) (GetCreationTimestamp u).

End Scenarios.

(** ** Vocabulary of the further properties *)

(** A call does not panic. *)
Definition noPanic {A : Type} (x : exec A) : Prop := forall msg, x <> Panics msg.

(** A returning call gives a verdict or an error, and not both. *)
Definition verdictXorError (x : exec ResultErr) : Prop :=
  forall res err, x = Returns (res, err) ->
    (exists r, res = Some r /\ err = None) \/ (res = None /\ exists e, err = Some e).

(** A condition of the given type and status. *)
Definition conditionIs (conditionType : string) (status : metav1.ConditionStatus)
  (c : metav1.Condition) : Prop :=
  metav1.Type_ c = conditionType /\ metav1.Status c = status.

(** A Progressing condition that reports the progress deadline
    exceeded. *)
Definition deadlineExceeded (c : metav1.Condition) : Prop :=
  metav1.Type_ c = "Progressing" /\ metav1.Reason c = "ProgressDeadlineExceeded".

(** How [getCrashLoopingContainers] reads one entry of
    [status.containerStatuses]: its name, and the reason of its
    waiting state when it has one. *)
Definition waitingReasonOf (cs : gmap string value) (reason : option string) : Prop :=
  match reason with
  | Some r =>
      exists state waitingState,
        cs !! "state" = Some (VMap state)
        /\ state !! "waiting" = Some (VMap waitingState)
        /\ waitingState !! "reason" = Some (VString r)
  | None =>
      cs !! "state" = None
      \/ exists state,
           cs !! "state" = Some (VMap state)
           /\ (state !! "waiting" = None
               \/ exists waitingState,
                    state !! "waiting" = Some (VMap waitingState)
                    /\ waitingState !! "reason" = None)
  end.

Definition containerStatusOf (item : value) (view : string * option string) : Prop :=
  exists cs, item = VMap cs
             /\ cs !! "name" = Some (VString (fst view))
             /\ waitingReasonOf cs (snd view).

(** The names of the containers that wait with reason CrashLoopBackOff. *)
Definition crashLooping (views : list (string * option string)) : list string :=
  fst <$> filter (fun view => snd view = Some "CrashLoopBackOff") views.

(** The trace of the first [n] attempts of a poll session that all
    ask to continue: a fetch, the notice, the backoff sleep. *)
Fixpoint retries (n : nat) : list event :=
  match n with
  | O => []
  | S n' =>
      retries n' ++ [EvGet (Z.of_nat n');
                     EvPrintf (backoff (Z.of_nat n')) (Z.of_nat n' + 1) maxRetries;
                     EvSleep (backoff (Z.of_nat n'))]
  end.

(** The fetches of a trace, and the time slept in it. *)
Fixpoint gets (trace : list event) : nat :=
  match trace with
  | [] => O
  | EvGet _ :: rest => S (gets rest)
  | _ :: rest => gets rest
  end.

Fixpoint slept (trace : list event) : Duration :=
  match trace with
  | [] => 0
  | EvSleep d :: rest => d + slept rest
  | _ :: rest => slept rest
  end.

Create HintDb verdicts.

Section Properties.

Context `{lib : Apimachinery}.

#[local] Hint Constructors verdict : verdicts.

Lemma verdict_invariant r : verdict r -> ResultInvariant r.
Proof.
  intros [msg| | |msg| |msg]; (split; split); simpl;
    intros H; try discriminate H; auto;
    repeat (destruct H as [H|H]; try discriminate H).
Qed.

Lemma sound_returns res err :
  (forall r, res = Some r -> verdict r) -> sound (Returns (res, err)).
Proof. intros H r [e Hr]. injection Hr as -> _. now apply H. Qed.

Lemma sound_verdict r err : verdict r -> sound (Returns (Some r, err)).
Proof. intros H. apply sound_returns. now intros ? [= <-]. Qed.

Lemma sound_error err : sound (Returns (None, err)).
Proof. apply sound_returns. discriminate. Qed.

Lemma sound_panics msg : sound (Panics msg).
Proof. intros r [e Hr]. discriminate Hr. Qed.

#[local] Hint Resolve sound_verdict sound_error sound_panics : verdicts.

(** Unfold a rule, split on every test it makes, and close each leaf
    with the constructor that built it. *)
Ltac leaves := unfold bind, conditionsOf; repeat case_match; eauto with verdicts.

Lemma readyScan_verdict conds r : readyScan conds = Some r -> verdict r.
Proof.
  induction conds as [|c rest IH]; simpl; [discriminate|].
  repeat case_match; intros [= <-] || apply IH; auto with verdicts.
Qed.

Lemma checkGeneration_verdict u r err : checkGeneration u = (Some r, err) -> verdict r.
Proof.
  unfold checkGeneration. repeat case_match; intros [= <- _] || discriminate;
    auto with verdicts.
Qed.

Lemma checkGenericProperties_sound u : sound (checkGenericProperties u).
Proof.
  unfold checkGenericProperties.
  destruct (NestedString _ _) as [[s found] err]; simpl.
  destruct (notNil err); [auto with verdicts|].
  destruct (found && _); [auto with verdicts|].
  destruct (checkGeneration u) as [res e] eqn:Hgen.
  destruct (notNil res || notNil e).
  { apply sound_returns. intros r ->. eapply checkGeneration_verdict, Hgen. }
  destruct (GetObjectWithConditions _) as [objc e']; simpl.
  destruct (notNil e'); [auto with verdicts|].
  destruct objc; simpl; [|auto with verdicts].
  apply sound_returns, readyScan_verdict.
Qed.

Lemma deploymentScan_verdict conds p a r : deploymentScan conds p a = inl r -> verdict r.
Proof.
  revert p a. induction conds as [|c rest IH]; simpl; intros p a; [discriminate|].
  repeat case_match; try (intros [= <-]; auto with verdicts); apply IH.
Qed.

Lemma replicaFailureScan_verdict conds r : replicaFailureScan conds = Some r -> verdict r.
Proof.
  induction conds as [|c rest IH]; simpl; [discriminate|].
  case_match; [intros [= <-]; auto with verdicts | apply IH].
Qed.

Lemma jobScan_verdict conds s f n r : jobScan conds s f n = Some r -> verdict r.
Proof.
  induction conds as [|c rest IH]; simpl; [discriminate|].
  repeat case_match; try (intros [= <-]; auto with verdicts); apply IH.
Qed.

Lemma crdScan_verdict conds r : crdScan conds = Some r -> verdict r.
Proof.
  induction conds as [|c rest IH]; simpl; [discriminate|].
  repeat case_match; try (intros [= <-]; auto with verdicts); apply IH.
Qed.

Lemma checkGenerationSet_verdict u r err : checkGenerationSet u = (Some r, err) -> verdict r.
Proof.
  unfold checkGenerationSet. repeat case_match; intros [= <- _] || discriminate;
    auto with verdicts.
Qed.

Lemma alwaysReady_sound u : sound (alwaysReady u).
Proof. unfold alwaysReady. auto with verdicts. Qed.

Lemma pdbConditions_sound u : sound (pdbConditions u).
Proof. unfold pdbConditions. auto with verdicts. Qed.

Lemma serviceConditions_sound u : sound (serviceConditions u).
Proof. unfold serviceConditions. leaves. Qed.

Lemma pvcConditions_sound u : sound (pvcConditions u).
Proof. unfold pvcConditions. leaves. Qed.

Lemma stsConditions_sound u : sound (stsConditions u).
Proof. unfold stsConditions. leaves. Qed.

Lemma deploymentConditions_sound u : sound (deploymentConditions u).
Proof.
  unfold deploymentConditions.
  destruct (GetObjectWithConditions _) as [[objc|] e]; simpl;
    destruct (notNil e); auto with verdicts.
  destruct (deploymentScan _ _ _) as [r|[p a]] eqn:Hscan.
  - apply sound_verdict. eapply deploymentScan_verdict, Hscan.
  - leaves.
Qed.

Lemma replicasetConditions_sound u : sound (replicasetConditions u).
Proof.
  unfold replicasetConditions.
  destruct (GetObjectWithConditions _) as [[objc|] e]; simpl;
    destruct (notNil e); auto with verdicts.
  destruct (replicaFailureScan _) as [r|] eqn:Hscan.
  - apply sound_verdict. eapply replicaFailureScan_verdict, Hscan.
  - leaves.
Qed.

Lemma daemonsetConditions_sound u : sound (daemonsetConditions u).
Proof.
  unfold daemonsetConditions.
  destruct (checkGenerationSet u) as [res e] eqn:Hgen.
  destruct (notNil e || notNil res).
  - apply sound_returns. intros r ->. eapply checkGenerationSet_verdict, Hgen.
  - leaves.
Qed.

Lemma jobConditions_sound u : sound (jobConditions u).
Proof.
  unfold jobConditions.
  destruct (GetObjectWithConditions _) as [[objc|] e]; simpl;
    destruct (notNil e); auto with verdicts.
  destruct (jobScan _ _ _ _) as [r|] eqn:Hscan.
  - apply sound_verdict. eapply jobScan_verdict, Hscan.
  - leaves.
Qed.

Lemma crdConditions_sound u : sound (crdConditions u).
Proof.
  unfold crdConditions.
  destruct (GetObjectWithConditions _) as [[objc|] e]; simpl;
    destruct (notNil e); auto with verdicts.
  destruct (crdScan _) as [r|] eqn:Hscan.
  - apply sound_verdict. eapply crdScan_verdict, Hscan.
  - auto with verdicts.
Qed.

Lemma podConditions_sound now u : sound (podConditions now u).
Proof.
  unfold podConditions.
  destruct (GetObjectWithConditions _) as [objc e].
  destruct (getCrashLoopingContainers _) as [[[names looping] e']|msg]; leaves.
Qed.

(** The functions the registry holds. *)
Lemma legacyTypes_lookup now key fn :
  legacyTypes now !! key = Some fn ->
  fn ∈ [serviceConditions; podConditions now; alwaysReady; pvcConditions; stsConditions;
        daemonsetConditions; deploymentConditions; replicasetConditions; pdbConditions;
        jobConditions; crdConditions].
Proof.
  unfold legacyTypes. intros H. apply elem_of_list_to_map_2 in H.
  repeat (apply elem_of_cons in H as [H|H]; [injection H as _ ->; set_solver|]).
  inversion H.
Qed.

Lemma legacyTypes_sound now key fn u : legacyTypes now !! key = Some fn -> sound (fn u).
Proof.
  intros H. apply legacyTypes_lookup in H.
  repeat (apply elem_of_cons in H as [->|H]);
    eauto using serviceConditions_sound, podConditions_sound, alwaysReady_sound,
      pvcConditions_sound, stsConditions_sound, daemonsetConditions_sound,
      deploymentConditions_sound, replicasetConditions_sound, pdbConditions_sound,
      jobConditions_sound, crdConditions_sound.
  inversion H.
Qed.

Lemma Compute_sound now u : sound (Compute now u).
Proof.
  unfold Compute.
  pose proof (checkGenericProperties_sound u) as Hgen.
  generalize dependent (checkGenericProperties u).
  intros [[res err]|msg] Hgen; unfold bind; [|auto with verdicts].
  destruct (notNil err); [auto with verdicts|].
  destruct res as [r|]; cbn [notNil].
  - apply sound_verdict, Hgen. now exists err.
  - unfold GetLegacyConditionsFn.
    destruct (legacyTypes now !! legacyKey u) as [fn|] eqn:Hfn.
    + eapply legacyTypes_sound, Hfn.
    + auto with verdicts.
Qed.

(** C1.  Every verdict the classifier produces satisfies the Result
    invariant: whether it comes from [Compute], from the generic
    rules or from any function of the registry, its status is True
    exactly when its reason is Ready, NoStatusInfo or UserManaged,
    and False exactly when its reason is Terminating, InProgress or
    Failed. *)
Theorem verdicts_satisfy_invariant now u r :
  yields (Compute now u) r
  \/ yields (checkGenericProperties u) r
  \/ (exists key fn, legacyTypes now !! key = Some fn /\ yields (fn u) r) ->
  ResultInvariant r.
Proof.
  intros [H|[H|(key & fn & Hfn & H)]]; apply verdict_invariant.
  - now apply (Compute_sound now u).
  - now apply (checkGenericProperties_sound u).
  - now apply (legacyTypes_sound now key fn u Hfn).
Qed.

(** *** The generic rules *)

Lemma deletionTimestamp_terminating u m s :
  u !! "metadata" = Some (VMap m) ->
  m !! "deletionTimestamp" = Some (VString s) ->
  s <> "" ->
  checkGenericProperties u = Returns (Some terminating, None).
Proof.
  intros Hmeta Hts Hs.
  unfold checkGenericProperties, NestedString, NestedFieldNoCopy, UnstructuredContent.
  cbn [nestedFrom]. rewrite Hmeta. cbn [nestedFrom app]. rewrite Hts.
  cbn [negb orb notNil andb].
  destruct (String.eqb s "") eqn:E; [apply String.eqb_eq in E; contradiction|].
  reflexivity.
Qed.

(** C3.  A snapshot whose [metadata.deletionTimestamp] holds a
    non-empty string is classified Terminating, with status False and
    no error, whatever its kind and whatever else it contains: the
    deletion rule is the first one applied. *)
Theorem deletion_takes_precedence now u m s :
  u !! "metadata" = Some (VMap m) ->
  m !! "deletionTimestamp" = Some (VString s) ->
  s <> "" ->
  Compute now u
  = Returns (Some {| Status := metav1.ConditionFalse;
                     Reason_ := ReasonTerminating;
                     Message := "" |}, None).
Proof.
  intros Hmeta Hts Hs. unfold Compute.
  rewrite (deletionTimestamp_terminating u m s Hmeta Hts Hs).
  reflexivity.
Qed.

(** C5.  When the generic rules finish without a verdict and the
    registry holds no function for the snapshot's key, [Compute]
    returns exactly the verdict NoStatusInfo, with status True and an
    empty message, and a nil error. *)
Theorem unregistered_kind_no_status_info now u :
  checkGenericProperties u = Returns (None, None) ->
  GetLegacyConditionsFn now u = None ->
  Compute now u
  = Returns (Some {| Status := metav1.ConditionTrue;
                     Reason_ := ReasonNoStatusInfo;
                     Message := "" |}, None).
Proof.
  intros Hgen Hkey. unfold Compute.
  rewrite Hgen. unfold bind. cbn [notNil]. rewrite Hkey. reflexivity.
Qed.

(** What "the generic rules finish without a verdict" amounts to on
    the snapshot: no non-empty deletion timestamp, no generation
    mismatch, and decodable conditions none of which has type Ready. *)
Lemma checkGenericProperties_defers u s found objc :
  NestedString u ["metadata"; "deletionTimestamp"] = (s, found, None) ->
  found = false \/ s = "" ->
  checkGeneration u = (None, None) ->
  GetObjectWithConditions u = (Some objc, None) ->
  (forall c, c ∈ Conditions (ObjStatus objc) -> metav1.Type_ c <> ConditionTypeReady) ->
  checkGenericProperties u = Returns (None, None).
Proof.
  intros Hts Hempty Hgen Hobj Hready.
  unfold checkGenericProperties, UnstructuredContent.
  rewrite Hts, Hgen, Hobj. cbn [notNil orb conditionsOf bind].
  assert (found && negb (String.eqb s "") = false) as ->.
  { destruct Hempty as [-> | ->]; [reflexivity|]. now rewrite andb_false_r. }
  assert (readyScan (Conditions (ObjStatus objc)) = None) as ->; [|reflexivity].
  induction (Conditions (ObjStatus objc)) as [|c rest IH]; [reflexivity|].
  cbn [readyScan].
  destruct (String.eqb (metav1.Type_ c) ConditionTypeReady) eqn:E.
  - apply String.eqb_eq in E. exfalso. apply (Hready c); [left|exact E].
  - apply IH. intros c' Hc'. apply Hready. now right.
Qed.

(** *** The field accessors *)

(** C10.  [GetIntField] gives the stored number only when the value
    at the path is a Go int, int32 or int64.  When the value found
    there has any other dynamic type, a float64 in particular, the
    result is the default passed in, and the stored number is
    ignored. *)
Theorem GetIntField_native_integers_only obj fieldPath defaultValue val :
  NestedFieldNoCopy obj (fieldsOf fieldPath) = (val, true, None) ->
  (forall n, val = VInt n \/ val = VInt32 n \/ val = VInt64 n ->
             GetIntField obj fieldPath defaultValue = n)
  /\ ((forall n, val <> VInt n /\ val <> VInt32 n /\ val <> VInt64 n) ->
      GetIntField obj fieldPath defaultValue = defaultValue)
  /\ (forall mantissa exponent, val = VFloat64 mantissa exponent ->
      GetIntField obj fieldPath defaultValue = defaultValue).
Proof.
  intros Hval. unfold GetIntField. rewrite Hval. cbn [negb orb notNil].
  repeat split.
  - intros n [-> | [-> | ->]]; reflexivity.
  - intros Hother. destruct val as [| | |n|n|n| | |]; try reflexivity;
      destruct (Hother n) as (H1 & H2 & H3); congruence.
  - intros mantissa exponent ->. reflexivity.
Qed.

(** *** Pods *)

Lemma getConditionWithStatus_found conds t st c :
  getConditionWithStatus conds t st = (c, true) ->
  c ∈ conds /\ metav1.Type_ c = t /\ metav1.Status c = st.
Proof.
  induction conds as [|a rest IH]; cbn [getConditionWithStatus]; [discriminate|].
  destruct (String.eqb (metav1.Type_ a) t) eqn:Et;
    destruct (String.eqb (metav1.Status a) st) eqn:Es; cbn [andb];
    try (intros H; destruct (IH H) as (Hin & Ht & Hs); repeat split; auto; now right).
  intros [= <-]. apply String.eqb_eq in Et, Es. repeat split; auto. now left.
Qed.

(** With one condition per type, the lookup finds the condition of the
    type and status asked for, wherever it stands in the list. *)
Lemma getConditionWithStatus_unique conds t st c :
  NoDup (metav1.Type_ <$> conds) ->
  c ∈ conds -> metav1.Type_ c = t -> metav1.Status c = st ->
  getConditionWithStatus conds t st = (c, true).
Proof.
  intros Hnodup Hin Ht Hs.
  induction conds as [|a rest IH]; [inversion Hin|].
  cbn [fmap list_fmap] in Hnodup. apply NoDup_cons in Hnodup as [Hfresh Hnodup].
  cbn [getConditionWithStatus].
  apply elem_of_cons in Hin as [<- | Hin].
  - subst t st. now rewrite !String.eqb_refl.
  - destruct (String.eqb (metav1.Type_ a) t) eqn:Et.
    + apply String.eqb_eq in Et. exfalso. apply Hfresh.
      rewrite Et, <- Ht. now apply list_elem_of_fmap_2.
    + cbn [andb]. now apply IH.
Qed.

Lemma within_window now u :
  now - GetCreationTimestamp u < ScheduleWindow -> withinScheduleWindow now u = true.
Proof. unfold withinScheduleWindow, Before, Add. intros H. apply Z.ltb_lt. lia. Qed.

Lemma past_window now u :
  ScheduleWindow <= now - GetCreationTimestamp u -> withinScheduleWindow now u = false.
Proof. unfold withinScheduleWindow, Before, Add. intros H. apply Z.ltb_ge. lia. Qed.

(** The Pending branch of [podConditions]. *)
Lemma podConditions_pending now u objc :
  GetObjectWithConditions u = (Some objc, None) ->
  GetStringField u ".status.phase" "" = "Pending" ->
  podConditions now u
  = let '(c, found) := getConditionWithStatus (Conditions (ObjStatus objc))
                         "PodScheduled" metav1.ConditionFalse in
    if found && String.eqb (metav1.Reason c) "Unschedulable" then
      if withinScheduleWindow now u
      then Returns (Some (inProgress "Pod has not been scheduled"), None)
      else Returns (Some (failed "Pod could not be scheduled"), None)
    else Returns (Some (inProgress "Pod is in the Pending phase"), None).
Proof.
  intros Hobj Hphase. unfold podConditions, UnstructuredContent.
  rewrite Hobj, Hphase. reflexivity.
Qed.

(** C7.  For a Pod in phase Pending whose conditions decode: when the
    conditions (one per type, as a ConditionedStatus holds them)
    carry PodScheduled with status False and reason Unschedulable,
    [podConditions] returns InProgress while the age of the pod, from
    [metadata.creationTimestamp] to now, is below the 15-second
    schedule window, and Failed with the message "Pod could not be
    scheduled" once the pod is older than 15 seconds; when no
    condition is such a one, it returns InProgress. *)
Theorem pending_pod_schedule_window now u objc :
  GetObjectWithConditions u = (Some objc, None) ->
  GetStringField u ".status.phase" "" = "Pending" ->
  let conds := Conditions (ObjStatus objc) in
  let age := now - GetCreationTimestamp u in
  ((exists c, c ∈ conds /\ unschedulable c) ->
   NoDup (metav1.Type_ <$> conds) ->
   (age < 15 * Second ->
    podConditions now u
    = Returns (Some {| Status := metav1.ConditionFalse; Reason_ := ReasonInProgress;
                       Message := "Pod has not been scheduled" |}, None))
   /\ (15 * Second < age ->
       podConditions now u
       = Returns (Some {| Status := metav1.ConditionFalse; Reason_ := ReasonFailed;
                          Message := "Pod could not be scheduled" |}, None)))
  /\ ((forall c, c ∈ conds -> ~ unschedulable c) ->
      podConditions now u
      = Returns (Some {| Status := metav1.ConditionFalse; Reason_ := ReasonInProgress;
                         Message := "Pod is in the Pending phase" |}, None)).
Proof.
  intros Hobj Hphase conds age.
  rewrite (podConditions_pending now u objc Hobj Hphase). fold conds.
  split.
  - intros (c & Hin & Ht & Hs & Hr) Hnodup.
    rewrite (getConditionWithStatus_unique conds _ _ c Hnodup Hin Ht Hs).
    rewrite Hr. cbn [andb]. rewrite String.eqb_refl.
    split; intros Hage.
    + now rewrite within_window.
    + rewrite past_window; [reflexivity|]. fold age. unfold ScheduleWindow. lia.
  - intros Hnone.
    destruct (getConditionWithStatus conds "PodScheduled" metav1.ConditionFalse)
      as [c found] eqn:Hget.
    destruct found; [|reflexivity].
    apply getConditionWithStatus_found in Hget as (Hin & Ht & Hs).
    destruct (String.eqb (metav1.Reason c) "Unschedulable") eqn:Er; [|reflexivity].
    apply String.eqb_eq in Er. exfalso. apply (Hnone c Hin). now repeat split.
Qed.

(** *** The registry *)

Lemma GetLegacyConditionsFn_Pod now u :
  legacyKey u = "Pod" -> GetLegacyConditionsFn now u = Some (podConditions now).
Proof. unfold GetLegacyConditionsFn. intros ->. reflexivity. Qed.

Lemma GetLegacyConditionsFn_Deployment now u :
  legacyKey u = "apps/Deployment" \/ legacyKey u = "extensions/Deployment" ->
  GetLegacyConditionsFn now u = Some deploymentConditions.
Proof. unfold GetLegacyConditionsFn. intros [-> | ->]; reflexivity. Qed.

(** Only the entry of Pod reads the clock. *)
Lemma GetLegacyConditionsFn_clock now1 now2 u :
  legacyKey u <> "Pod" -> GetLegacyConditionsFn now1 u = GetLegacyConditionsFn now2 u.
Proof.
  intros Hkey. unfold GetLegacyConditionsFn, legacyTypes.
  cbn [list_to_map foldr uncurry fst snd].
  rewrite !lookup_insert. repeat case_decide; congruence.
Qed.

(** *** Deployments *)

Lemma deploymentScan_flags conds p a :
  (forall c, c ∈ conds -> progressingDone c \/ availableTrue c) ->
  exists p' a',
    deploymentScan conds p a = inr (p', a')
    /\ (p = true -> p' = true) /\ (a = true -> a' = true)
    /\ ((exists c, c ∈ conds /\ progressingDone c) -> p' = true)
    /\ ((exists c, c ∈ conds /\ availableTrue c) -> a' = true).
Proof.
  revert p a. induction conds as [|c rest IH]; intros p a Hall.
  - exists p, a. repeat split; auto; intros (c & Hin & _); inversion Hin.
  - assert (Hrest : forall c', c' ∈ rest -> progressingDone c' \/ availableTrue c')
      by (intros c' Hc'; apply Hall; now right).
    cbn [deploymentScan].
    destruct (Hall c) as [(Ht & Hs & Hr) | (Ht & Hs)]; [now left| |].
    + rewrite Ht, Hs, Hr. cbn.
      destruct (IH true a Hrest) as (p' & a' & -> & Hp & Ha & _ & Hav).
      exists p', a'. repeat split; auto.
      intros (c' & Hin & Hc'). apply elem_of_cons in Hin as [-> | Hin].
      * destruct Hc' as (Ht' & _). rewrite Ht in Ht'. discriminate Ht'.
      * apply Hav. now exists c'.
    + rewrite Ht, Hs. cbn.
      destruct (IH p true Hrest) as (p' & a' & -> & Hp & Ha & Hpr & _).
      exists p', a'. repeat split; auto.
      intros (c' & Hin & Hc'). apply elem_of_cons in Hin as [-> | Hin].
      * destruct Hc' as (Ht' & _). rewrite Ht in Ht'. discriminate Ht'.
      * apply Hpr. now exists c'.
Qed.

Lemma deploymentConditions_available u :
  availableDeployment u ->
  deploymentConditions u
  = Returns (Some (ready "Deployment is available. Replicas: 1"), None).
Proof.
  intros (_ & Hspec & Hstatus & Hupdated & Hready & Havailable & _
          & objc & Hobj & Hprog & Havail & Hall).
  unfold deploymentConditions, UnstructuredContent.
  rewrite Hobj, Hspec, Hstatus, Hupdated, Hready, Havailable.
  cbn [notNil bind conditionsOf].
  destruct (deploymentScan_flags (Conditions (ObjStatus objc))
              (if GetIntField u ".spec.progressDeadlineSeconds" MaxInt32 =? MaxInt32
               then true else false) false Hall)
    as (p' & a' & -> & _ & _ & Hp & Ha).
  rewrite (Hp Hprog), (Ha Havail). reflexivity.
Qed.

Lemma checkGeneration_observed u g :
  NestedInt64 u ["metadata"; "generation"] = (g, true, None) ->
  NestedInt64 u ["status"; "observedGeneration"] = (g, true, None) ->
  checkGeneration u = (None, None).
Proof.
  intros Hgen Hobs. unfold checkGeneration. rewrite Hgen, Hobs.
  cbn [notNil negb andb]. now rewrite Z.eqb_refl.
Qed.

(** C9, amended.  A Deployment with spec.replicas 1 (or unset),
    status.replicas, updatedReplicas, readyReplicas and
    availableReplicas all 1, generation and observedGeneration equal,
    conditions Progressing=True/NewReplicaSetAvailable and
    Available=True, and whose [metadata.deletionTimestamp] is absent
    or empty, is classified exactly Ready, status True, with the
    message "Deployment is available. Replicas: 1" and no error. *)
Theorem available_deployment_ready now u :
  availableDeployment u ->
  notDeleting u ->
  Compute now u
  = Returns (Some {| Status := metav1.ConditionTrue; Reason_ := ReasonReady;
                     Message := "Deployment is available. Replicas: 1" |}, None).
Proof.
  intros Hdep (s & found & Hts & Hempty).
  pose proof (deploymentConditions_available u Hdep) as Hdc.
  destruct Hdep as (Hkey & _ & _ & _ & _ & _ & (g & Hgen & Hobs)
                    & objc & Hobj & _ & _ & Hall).
  unfold Compute.
  rewrite (checkGenericProperties_defers u s found objc Hts Hempty
             (checkGeneration_observed u g Hgen Hobs) Hobj).
  - unfold bind. cbn [notNil].
    rewrite (GetLegacyConditionsFn_Deployment now u Hkey). exact Hdc.
  - intros c Hin. destruct (Hall c Hin) as [(Ht & _) | (Ht & _)];
      rewrite Ht; discriminate.
Qed.

(** *** The clock *)

Lemma podConditions_clock now1 now2 u :
  GetStringField u ".status.phase" "" <> "Pending"
  \/ withinScheduleWindow now1 u = withinScheduleWindow now2 u ->
  podConditions now1 u = podConditions now2 u.
Proof.
  intros Hcase. unfold podConditions.
  destruct (GetObjectWithConditions _) as [objc err].
  destruct (notNil err); [reflexivity|].
  repeat (case_match; [reflexivity|]).
  case_match; [|reflexivity].
  destruct Hcase as [Hphase | Hwindow].
  - exfalso. apply Hphase. now apply String.eqb_eq.
  - unfold withinScheduleWindow in Hwindow. rewrite Hwindow. reflexivity.
Qed.

(** C2, amended.  [Compute] is a function of the snapshot and of the
    clock reading of the call.  Two calls on the same snapshot give
    the same result whenever the snapshot does not dispatch to the
    Pod rule, or its phase is not Pending, or both calls fall on the
    same side of the 15-second schedule window that starts at
    [metadata.creationTimestamp]. *)
Theorem Compute_same_snapshot_same_verdict now1 now2 u :
  legacyKey u <> "Pod"
  \/ GetStringField u ".status.phase" "" <> "Pending"
  \/ withinScheduleWindow now1 u = withinScheduleWindow now2 u ->
  Compute now1 u = Compute now2 u.
Proof.
  intros Hcase. unfold Compute.
  destruct (checkGenericProperties u) as [[res err]|msg]; unfold bind; [|reflexivity].
  destruct (notNil err); [reflexivity|].
  destruct (notNil res); [reflexivity|].
  destruct (decide (legacyKey u = "Pod")) as [Hpod | Hother].
  - rewrite !(GetLegacyConditionsFn_Pod _ u Hpod).
    apply podConditions_clock. destruct Hcase as [H | H]; [contradiction | exact H].
  - now rewrite (GetLegacyConditionsFn_clock now1 now2 u Hother).
Qed.

(** *** The poller *)

(** C8.  When the poll validates a deletion and the first fetch
    answers not found, [getStatusWithRetries] returns at once: a nil
    snapshot and a nil error, after the initial settle delay and one
    call of [client.Get], with no retry and no backoff sleep. *)
Theorem deletion_confirmed_by_first_not_found client u newObj e :
  Get client 0 u = (newObj, Some e) ->
  IsNotFound e = true ->
  getStatusWithRetries client u true
  = Returns (None, None, [EvSleep initialGetDelay; EvGet 0]).
Proof.
  intros Hget Hnf. unfold getStatusWithRetries.
  change (Z.to_nat maxRetries) with 5%nat. cbn [retryLoop].
  unfold getStatus. rewrite Hget, Hnf. reflexivity.
Qed.

(** When every attempt of the loop asks to continue, the loop ends on
    its last line, and the error built there wraps the variable
    declared before the loop, which no attempt assigned. *)
Lemma retryLoop_exhausted client u delete gvk nsn err fuel attempt trace :
  (forall a, attempt <= a < attempt + Z.of_nat fuel ->
             exists newObj e, getStatus client u delete a = Returns (newObj, true, e)) ->
  exists trace',
    retryLoop client u delete gvk nsn err fuel attempt trace
    = Returns (None,
               Some (wrapError ("getStatus gvk " +:+ gvk +:+ " nsn " +:+ nsn +:+ " after "
                                +:+ itoa maxRetries +:+ " retries: ") err),
               trace').
Proof.
  revert attempt trace. induction fuel as [|fuel IH]; intros attempt trace Hcont.
  - exists trace. reflexivity.
  - cbn [retryLoop].
    destruct (Hcont attempt) as (newObj & e & ->); [lia|].
    unfold bind. cbn [negb].
    apply IH. intros a Ha. apply Hcont. lia.
Qed.

Lemma exhausted_retries_wrap_nil client u delete :
  (forall a, 0 <= a < maxRetries ->
             exists newObj e, getStatus client u delete a = Returns (newObj, true, e)) ->
  exists trace,
    getStatusWithRetries client u delete
    = Returns (None,
               Some (wrapError ("getStatus gvk " +:+ gvkString (GetGroupVersionKind u)
                                +:+ " nsn " +:+ nsnString (GetNamespace u) (GetName u)
                                +:+ " after " +:+ itoa maxRetries +:+ " retries: ") None),
               trace).
Proof.
  intros Hcont. unfold getStatusWithRetries. apply retryLoop_exhausted.
  intros a Ha. apply Hcont. change (Z.of_nat (Z.to_nat maxRetries)) with maxRetries in Ha. lia.
Qed.

End Properties.

(** ** Concrete runs, on the reference instance *)

Module Runs.

Import Manifests.

#[local] Existing Instance Reference.apimachinery.

(** The four cases of the package's test of [Compute]. *)
Example TestCompute_Deployment now :
  Compute now deploymentManifest
  = Returns (Some (mkResult "True" "Ready" "Deployment is available. Replicas: 1"), None).
Proof. reflexivity. Qed.

Example TestCompute_ConfigMap now :
  Compute now configMapManifest = Returns (Some (mkResult "True" "Ready" "ready"), None).
Proof. reflexivity. Qed.

Example TestCompute_TargetReady now :
  Compute now targetReadyManifest = Returns (Some (mkResult "True" "Ready" ""), None).
Proof. reflexivity. Qed.

Example TestCompute_TargetInProgress now :
  Compute now targetInProgressManifest
  = Returns (Some (mkResult "False" "InProgress" ""), None).
Proof. reflexivity. Qed.

(** C6.  A running pod whose container status holds a number under
    [name] makes the unchecked assertion [n.(string)] of
    [getCrashLoopingContainers] panic: [podConditions] and [Compute]
    return neither a verdict nor an error. *)
Theorem malformed_container_status_panics now :
  getCrashLoopingContainers malformedPod
  = Panics "interface conversion: interface {} is not string"
  /\ podConditions now malformedPod
     = Panics "interface conversion: interface {} is not string"
  /\ Compute now malformedPod
     = Panics "interface conversion: interface {} is not string".
Proof. repeat split; reflexivity. Qed.

(** C4.  Five attempts that each fail with a connection error exhaust
    the budget; the error returned names the resource and the number
    of retries and wraps nil: the error of the attempts is not in it. *)
Theorem exhausted_retries_lose_last_error :
  getStatusWithRetries refusingClient widget false
  = Returns (None,
             Some (wrapError
                     "getStatus gvk example.com/v1, Kind=Widget nsn default/w after 5 retries: "
                     None),
             [EvSleep (500 * Millisecond);
              EvGet 0; EvPrintf (1 * Second) 1 5; EvSleep (1 * Second);
              EvGet 1; EvPrintf (2 * Second) 2 5; EvSleep (2 * Second);
              EvGet 2; EvPrintf (4 * Second) 3 5; EvSleep (4 * Second);
              EvGet 3; EvPrintf (8 * Second) 4 5; EvSleep (8 * Second);
              EvGet 4; EvPrintf (16 * Second) 5 5; EvSleep (16 * Second)]).
Proof. reflexivity. Qed.

(** Counterexample to C2: the same snapshot, classified 14 and 16
    seconds after its creation, gets two different verdicts. *)
Lemma Compute_depends_on_clock :
  Compute (podCreated + 14 * Second) unschedulablePod
  = Returns (Some (mkResult "False" "InProgress" "Pod has not been scheduled"), None)
  /\ Compute (podCreated + 16 * Second) unschedulablePod
     = Returns (Some (mkResult "False" "Failed" "Pod could not be scheduled"), None)
  /\ Compute (podCreated + 14 * Second) unschedulablePod
     <> Compute (podCreated + 16 * Second) unschedulablePod.
Proof.
  repeat split; try reflexivity.
  intros H. vm_compute in H. discriminate H.
Qed.

(** The deployment of the test satisfies the premises of C9, and so
    does the same deployment while it is being deleted. *)
Lemma deploymentManifest_available : availableDeployment deploymentManifest.
Proof.
  unfold availableDeployment.
  split; [left; reflexivity|].
  do 5 (split; [reflexivity|]).
  split; [exists 1; split; reflexivity|].
  eexists. split; [reflexivity|]. cbn [Conditions ObjStatus].
  split; [|split].
  - eexists. split; [apply list_elem_of_here|]. repeat split.
  - eexists. split; [apply list_elem_of_further, list_elem_of_here|]. repeat split.
  - intros c Hc. apply elem_of_cons in Hc as [-> | Hc]; [left; repeat split|].
    apply elem_of_cons in Hc as [-> | Hc]; [right; repeat split|]. inversion Hc.
Defined.

Lemma deletedDeployment_available : availableDeployment deletedDeployment.
Proof.
  unfold availableDeployment.
  split; [left; reflexivity|].
  do 5 (split; [reflexivity|]).
  split; [exists 1; split; reflexivity|].
  eexists. split; [reflexivity|]. cbn [Conditions ObjStatus].
  split; [|split].
  - eexists. split; [apply list_elem_of_here|]. repeat split.
  - eexists. split; [apply list_elem_of_further, list_elem_of_here|]. repeat split.
  - intros c Hc. apply elem_of_cons in Hc as [-> | Hc]; [left; repeat split|].
    apply elem_of_cons in Hc as [-> | Hc]; [right; repeat split|]. inversion Hc.
Qed.

(** Counterexample to C9: a deployment with every property the claim
    lists, being deleted, is classified Terminating, not Ready. *)
Lemma available_deployment_being_deleted :
  availableDeployment deletedDeployment
  /\ Compute 0 deletedDeployment
     = Returns (Some (mkResult "False" "Terminating" ""), None)
  /\ Compute 0 deletedDeployment
     <> Returns (Some (mkResult "True" "Ready" "Deployment is available. Replicas: 1"), None).
Proof.
  split; [exact deletedDeployment_available|].
  split; [reflexivity|].
  intros H. vm_compute in H. discriminate H.
Qed.

(** *** The properties at concrete snapshots *)

Lemma verdicts_satisfy_invariant_witness :
  yields (Compute 0 deploymentManifest)
    (mkResult "True" "Ready" "Deployment is available. Replicas: 1")
  /\ ResultInvariant (mkResult "True" "Ready" "Deployment is available. Replicas: 1").
Proof.
  assert (H : yields (Compute 0 deploymentManifest)
                (mkResult "True" "Ready" "Deployment is available. Replicas: 1"))
    by (exists None; reflexivity).
  split; [exact H|].
  apply (verdicts_satisfy_invariant 0 deploymentManifest). left. exact H.
Defined.

Lemma deletion_takes_precedence_witness :
  deletedDeployment !! "metadata" = Some (VMap deletedMetadata)
  /\ deletedMetadata !! "deletionTimestamp" = Some (VString "2024-03-29T01:00:00Z")
  /\ Compute 0 deletedDeployment
     = Returns (Some (mkResult "False" "Terminating" ""), None).
Proof.
  split; [reflexivity|]. split; [reflexivity|].
  apply (deletion_takes_precedence 0 deletedDeployment deletedMetadata
           "2024-03-29T01:00:00Z"); [reflexivity | reflexivity | discriminate].
Defined.

Lemma unregistered_kind_no_status_info_witness :
  checkGenericProperties widget = Returns (None, None)
  /\ GetLegacyConditionsFn 0 widget = None
  /\ Compute 0 widget = Returns (Some (mkResult "True" "NoStatusInfo" ""), None).
Proof.
  split; [reflexivity|]. split; [reflexivity|].
  apply (unregistered_kind_no_status_info 0 widget); reflexivity.
Defined.

Lemma GetIntField_native_integers_only_witness :
  NestedFieldNoCopy floatReplicas (fieldsOf ".status.replicas") = (VFloat64 1 0, true, None)
  /\ GetIntField floatReplicas ".status.replicas" 0 = 0
  /\ GetIntField deploymentManifest ".status.replicas" 0 = 1.
Proof.
  split; [reflexivity|]. split.
  - exact (proj2 (proj2 (GetIntField_native_integers_only floatReplicas
                            ".status.replicas" 0 (VFloat64 1 0) eq_refl))
                  1 0 eq_refl).
  - exact (proj1 (GetIntField_native_integers_only deploymentManifest
                    ".status.replicas" 0 (VInt64 1) eq_refl)
                  1 (or_intror (or_intror eq_refl))).
Defined.

Lemma pending_pod_schedule_window_witness :
  podConditions (podCreated + 14 * Second) unschedulablePod
  = Returns (Some (mkResult "False" "InProgress" "Pod has not been scheduled"), None)
  /\ podConditions (podCreated + 16 * Second) unschedulablePod
     = Returns (Some (mkResult "False" "Failed" "Pod could not be scheduled"), None)
  /\ podConditions (podCreated + 16 * Second) configMapManifest
     = Returns (Some (mkResult "False" "InProgress" "Pod phase not available"), None).
Proof.
  pose (objc := fst (Reference.fromUnstructured unschedulablePod)).
  assert (Hobj : GetObjectWithConditions unschedulablePod = (Some objc, None))
    by reflexivity.
  assert (Hphase : GetStringField unschedulablePod ".status.phase" "" = "Pending")
    by reflexivity.
  assert (Hcarries : exists c, c ∈ Conditions (ObjStatus objc) /\ unschedulable c).
  { eexists. split; [apply list_elem_of_here|]. repeat split. }
  assert (Hnodup : NoDup (metav1.Type_ <$> Conditions (ObjStatus objc))).
  { apply NoDup_cons. split; [inversion 1 | apply NoDup_nil_2]. }
  split; [|split].
  - apply (pending_pod_schedule_window (podCreated + 14 * Second) unschedulablePod objc
             Hobj Hphase); [exact Hcarries | exact Hnodup | reflexivity].
  - apply (pending_pod_schedule_window (podCreated + 16 * Second) unschedulablePod objc
             Hobj Hphase); [exact Hcarries | exact Hnodup | reflexivity].
  - reflexivity.
Defined.

Lemma available_deployment_ready_witness :
  availableDeployment deploymentManifest
  /\ notDeleting deploymentManifest
  /\ Compute 0 deploymentManifest
     = Returns (Some (mkResult "True" "Ready" "Deployment is available. Replicas: 1"), None).
Proof.
  assert (Hnot : notDeleting deploymentManifest).
  { exists "", false. split; [reflexivity | left; reflexivity]. }
  split; [exact deploymentManifest_available|]. split; [exact Hnot|].
  apply (available_deployment_ready 0 deploymentManifest deploymentManifest_available Hnot).
Defined.

Lemma Compute_same_snapshot_same_verdict_witness :
  withinScheduleWindow (podCreated + 16 * Second) unschedulablePod
  = withinScheduleWindow (podCreated + 3600 * Second) unschedulablePod
  /\ Compute (podCreated + 16 * Second) unschedulablePod
     = Compute (podCreated + 3600 * Second) unschedulablePod.
Proof.
  split; [reflexivity|].
  apply (Compute_same_snapshot_same_verdict (podCreated + 16 * Second)
           (podCreated + 3600 * Second) unschedulablePod).
  right. right. reflexivity.
Defined.

Lemma deletion_confirmed_by_first_not_found_witness :
  Get goneClient 0 widget = (None, Some notFound)
  /\ IsNotFound notFound = true
  /\ getStatusWithRetries goneClient widget true
     = Returns (None, None, [EvSleep (500 * Millisecond); EvGet 0]).
Proof.
  split; [reflexivity|]. split; [reflexivity|].
  apply (deletion_confirmed_by_first_not_found goneClient widget None notFound);
    reflexivity.
Defined.

End Runs.

(** ** Further properties of the code *)

Section Accessors.

Lemma Split_dot_cons c rest :
  c <> "."%char ->
  exists hd tl, Split (String c rest) "."%char = String c hd :: tl.
Proof.
  intros Hc. cbn [Split].
  destruct (Ascii.eqb c ".") eqn:E; [apply Ascii.eqb_eq in E; contradiction|].
  destruct (Split rest ".") as [|hd tl]; eauto.
Qed.

Lemma fieldsOf_leading_dot c rest :
  c <> "."%char ->
  fieldsOf (String "." (String c rest)) = fieldsOf (String c rest).
Proof.
  intros Hc. unfold fieldsOf.
  destruct (Split_dot_cons c rest Hc) as (hd & tl & Hsplit).
  change (Split (String "." (String c rest)) ".")
    with (EmptyString :: Split (String c rest) ".").
  rewrite Hsplit. reflexivity.
Qed.

(** X1.  The dot in front of a field path is optional: [GetIntField]
    and [GetStringField] read the same field with and without it. *)
Theorem accessors_leading_dot_optional obj c rest defaultInt defaultString :
  c <> "."%char ->
  GetIntField obj (String "." (String c rest)) defaultInt
  = GetIntField obj (String c rest) defaultInt
  /\ GetStringField obj (String "." (String c rest)) defaultString
     = GetStringField obj (String c rest) defaultString.
Proof.
  intros Hc. unfold GetIntField, GetStringField.
  now rewrite (fieldsOf_leading_dot c rest Hc).
Qed.

(** X2.  The accessors never fail the caller: when the first key of
    the path is absent from the object, or holds something that is
    not a map while the path goes on, they return the default. *)
Theorem accessors_default_when_path_breaks obj fieldPath k rest defaultInt defaultString :
  fieldsOf fieldPath = k :: rest ->
  obj !! k = None
  \/ (exists v, obj !! k = Some v /\ rest <> [] /\ forall m, v <> VMap m) ->
  GetIntField obj fieldPath defaultInt = defaultInt
  /\ GetStringField obj fieldPath defaultString = defaultString.
Proof.
  intros Hfields Hbreak. unfold GetIntField, GetStringField, NestedFieldNoCopy.
  rewrite Hfields. cbn [nestedFrom].
  destruct Hbreak as [-> | (v & -> & Hrest & Hv)]; [split; reflexivity|].
  destruct rest as [|k2 rest]; [contradiction|].
  destruct v; cbn [nestedFrom negb orb notNil]; try (split; reflexivity).
  exfalso. now apply (Hv m).
Qed.

(** X3.  [GetStringField] gives the stored value only when it is a
    string; a value of any other dynamic type at the path is ignored
    and the default returned. *)
Theorem GetStringField_strings_only obj fieldPath defaultValue val :
  NestedFieldNoCopy obj (fieldsOf fieldPath) = (val, true, None) ->
  (forall s, val = VString s -> GetStringField obj fieldPath defaultValue = s)
  /\ ((forall s, val <> VString s) ->
      GetStringField obj fieldPath defaultValue = defaultValue).
Proof.
  intros Hval. unfold GetStringField. rewrite Hval. cbn [negb orb notNil].
  split.
  - intros s ->. reflexivity.
  - intros Hother. destruct val; try reflexivity. now destruct (Hother s).
Qed.

End Accessors.

Section ConditionLookup.

Context `{lib : Apimachinery}.

Lemma getConditionWithStatus_none conds t st c :
  getConditionWithStatus conds t st = (c, false) ->
  c = zeroCondition /\ forall c', c' ∈ conds -> ~ conditionIs t st c'.
Proof.
  induction conds as [|a rest IH]; cbn [getConditionWithStatus].
  - intros [= <-]. split; [reflexivity|]. intros c' Hc'. inversion Hc'.
  - destruct (String.eqb (metav1.Type_ a) t && String.eqb (metav1.Status a) st) eqn:E;
      [discriminate|].
    intros H. destruct (IH H) as [Hz Hrest]. split; [exact Hz|].
    intros c' Hc' [Ht Hs]. apply elem_of_cons in Hc' as [-> | Hc'].
    + rewrite Ht, Hs, !String.eqb_refl in E. discriminate E.
    + apply (Hrest c' Hc'). now split.
Qed.

(** X4.  [getConditionWithStatus] returns the first condition of the
    list that has both the type and the status asked for: conditions
    in front of it that differ in type or status are passed over, and
    conditions behind it are not looked at. *)
Theorem getConditionWithStatus_first_match pre c post t st :
  (forall c', c' ∈ pre -> ~ conditionIs t st c') ->
  conditionIs t st c ->
  getConditionWithStatus (pre ++ c :: post) t st = (c, true).
Proof.
  intros Hpre [Ht Hs]. induction pre as [|a pre IH]; cbn [app getConditionWithStatus].
  - now rewrite Ht, Hs, !String.eqb_refl.
  - destruct (String.eqb (metav1.Type_ a) t && String.eqb (metav1.Status a) st) eqn:E.
    + exfalso. apply andb_prop in E as [Et Es].
      apply String.eqb_eq in Et, Es. apply (Hpre a); [now left | now split].
    + apply IH. intros c' Hc'. apply Hpre. now right.
Qed.

(** X5.  [hasConditionWithStatus] holds exactly when some condition
    of the list has the type and the status; when none has,
    [getConditionWithStatus] gives the zero condition. *)
Theorem hasConditionWithStatus_iff conds t st :
  (hasConditionWithStatus conds t st = true <-> exists c, c ∈ conds /\ conditionIs t st c)
  /\ (hasConditionWithStatus conds t st = false ->
      getConditionWithStatus conds t st = (zeroCondition, false)).
Proof.
  unfold hasConditionWithStatus.
  destruct (getConditionWithStatus conds t st) as [c found] eqn:Hget.
  destruct found.
  - split; [|discriminate]. split; [|reflexivity]. intros _.
    apply getConditionWithStatus_found in Hget as (Hin & Ht & Hs).
    exists c. repeat split; assumption.
  - apply getConditionWithStatus_none in Hget as [-> Hnone].
    split; [|reflexivity]. split; [discriminate|].
    intros (c' & Hin & Hc'). exfalso. exact (Hnone c' Hin Hc').
Qed.

End ConditionLookup.

Section GenericRules.

Context `{lib : Apimachinery}.

Lemma NestedString_wrong_type (u : gmap string value) m v :
  u !! "metadata" = Some (VMap m) ->
  m !! "deletionTimestamp" = Some v ->
  (forall s, v <> VString s) ->
  NestedString u ["metadata"; "deletionTimestamp"]
  = ("", false, Some (accessorError ["metadata"; "deletionTimestamp"] v "string")).
Proof.
  intros Hmeta Hts Hv. unfold NestedString, NestedFieldNoCopy.
  cbn [nestedFrom]. rewrite Hmeta. cbn [nestedFrom app]. rewrite Hts.
  cbn [negb orb notNil]. destruct v; try reflexivity. now destruct (Hv s).
Qed.

(** X6.  A [metadata.deletionTimestamp] that is present but not a
    string makes [Compute] return an error, and no verdict: the error
    of the accessor, wrapped. *)
Theorem malformed_deletionTimestamp_is_an_error now (u : gmap string value) m v :
  u !! "metadata" = Some (VMap m) ->
  m !! "deletionTimestamp" = Some v ->
  (forall s, v <> VString s) ->
  Compute now u
  = Returns (None,
             Some (wrapError "cannot lookup metadata.deletionTimestamp from resource: "
                     (Some (accessorError ["metadata"; "deletionTimestamp"] v "string")))).
Proof.
  intros Hmeta Hts Hv. unfold Compute, checkGenericProperties, UnstructuredContent.
  rewrite (NestedString_wrong_type u m v Hmeta Hts Hv). reflexivity.
Qed.

Lemma notDeleting_passes u s found :
  NestedString u ["metadata"; "deletionTimestamp"] = (s, found, None) ->
  found = false \/ s = "" ->
  found && negb (String.eqb s "") = false.
Proof. intros _ [-> | ->]; [reflexivity | now rewrite andb_false_r]. Qed.

(** X7.  When [metadata.generation] and [status.observedGeneration]
    are both present and differ, a resource that is not being deleted
    is InProgress, with a message that gives both numbers, whatever
    its kind and its conditions: the registry is not consulted. *)
Theorem generation_mismatch_is_in_progress now u generation observedGeneration :
  notDeleting u ->
  NestedInt64 u ["metadata"; "generation"] = (generation, true, None) ->
  NestedInt64 u ["status"; "observedGeneration"] = (observedGeneration, true, None) ->
  observedGeneration <> generation ->
  Compute now u
  = Returns (Some (inProgress (GetKind u +:+ " generation is " +:+ itoa generation
                               +:+ ", but latest observed generation is "
                               +:+ itoa observedGeneration)), None).
Proof.
  intros (s & found & Hts & Hempty) Hgen Hobs Hne.
  unfold Compute, checkGenericProperties, UnstructuredContent, checkGeneration.
  rewrite Hts, Hgen, Hobs. cbn [notNil negb].
  rewrite (notDeleting_passes u s found Hts Hempty).
  apply Z.eqb_neq in Hne. rewrite Hne. reflexivity.
Qed.

Lemma readyScan_first pre c post :
  (forall c', c' ∈ pre -> metav1.Type_ c' <> ConditionTypeReady) ->
  metav1.Type_ c = ConditionTypeReady ->
  readyScan (pre ++ c :: post)
  = Some (if String.eqb (metav1.Status c) metav1.ConditionTrue
          then ready (metav1.Message c) else inProgress (metav1.Message c)).
Proof.
  intros Hpre Hc. induction pre as [|a pre IH]; cbn [app readyScan].
  - rewrite Hc, String.eqb_refl. now destruct (String.eqb _ _).
  - destruct (String.eqb (metav1.Type_ a) ConditionTypeReady) eqn:E.
    + apply String.eqb_eq in E. exfalso. apply (Hpre a); [now left | exact E].
    + apply IH. intros c' Hc'. apply Hpre. now right.
Qed.

(** X8.  For a resource that is not being deleted and whose generation
    check passes, the first condition of type Ready decides, whatever
    the kind: status True gives Ready, any other status gives
    InProgress, each with the message of that condition.  The rule of
    the kind is not run. *)
Theorem first_ready_condition_decides now u objc pre c post :
  notDeleting u ->
  checkGeneration u = (None, None) ->
  GetObjectWithConditions u = (Some objc, None) ->
  Conditions (ObjStatus objc) = (pre ++ c :: post)%list ->
  (forall c', c' ∈ pre -> metav1.Type_ c' <> "Ready") ->
  metav1.Type_ c = "Ready" ->
  Compute now u
  = Returns (Some (if String.eqb (metav1.Status c) "True"
                   then ready (metav1.Message c)
                   else inProgress (metav1.Message c)), None).
Proof.
  intros (s & found & Hts & Hempty) Hgen Hobj Hconds Hpre Hc.
  unfold Compute, checkGenericProperties, UnstructuredContent.
  rewrite Hts, Hgen, Hobj. cbn [notNil orb].
  rewrite (notDeleting_passes u s found Hts Hempty).
  cbn [conditionsOf bind].
  rewrite Hconds, (readyScan_first pre c post Hpre Hc).
  now destruct (String.eqb _ _).
Qed.

(** X9.  The kinds that are always ready: when the generic rules give
    no verdict, a Secret, a ConfigMap or a CronJob is Ready with the
    message "ready", whatever the snapshot holds. *)
Theorem always_ready_kinds now u :
  checkGenericProperties u = Returns (None, None) ->
  legacyKey u = "Secret" \/ legacyKey u = "ConfigMap" \/ legacyKey u = "batch/CronJob" ->
  Compute now u = Returns (Some (ready "ready"), None).
Proof.
  intros Hgen Hkey. unfold Compute. rewrite Hgen. unfold bind. cbn [notNil].
  assert (GetLegacyConditionsFn now u = Some alwaysReady) as ->; [|reflexivity].
  unfold GetLegacyConditionsFn. destruct Hkey as [-> | [-> | ->]]; reflexivity.
Qed.

End GenericRules.

Section ComputeInvariants.

Context `{lib : Apimachinery}.

Lemma GetObjectWithConditions_cases obj objc err :
  GetObjectWithConditions obj = (objc, err) ->
  (exists o, objc = Some o /\ err = None) \/ (objc = None /\ exists e, err = Some e).
Proof.
  unfold GetObjectWithConditions. destruct (FromUnstructured obj) as [out [e|]];
    cbn [notNil]; intros [= <- <-]; eauto.
Qed.

(** Split on the outcome of the decoder: either an error that the rule
    returns, or the conditions. *)
Ltac decoded :=
  let H := fresh "Hobj" in
  destruct (GetObjectWithConditions _) as [objc err] eqn:H;
  apply GetObjectWithConditions_cases in H as [(o & -> & ->) | (-> & e & ->)];
  cbn [notNil conditionsOf bind].

Ltac xor_leaf :=
  let H := fresh in
  intros ? ? H;
  first [ discriminate H
        | injection H as <- <-;
          ((left; eexists; split; reflexivity)
           || (right; split; [reflexivity | eexists; reflexivity])) ].

Ltac xor_leaves := unfold verdictXorError; repeat case_match; xor_leaf.

Lemma checkGenerationSet_cases u res err :
  checkGenerationSet u = (res, err) ->
  (res = None /\ err = None)
  \/ (exists r, res = Some r /\ err = None) \/ (res = None /\ exists e, err = Some e).
Proof.
  unfold checkGenerationSet.
  repeat case_match; intros [= <- <-]; eauto 6.
Qed.

Lemma checkGeneration_cases u res err :
  checkGeneration u = (res, err) ->
  (res = None /\ err = None)
  \/ (exists r, res = Some r /\ err = None) \/ (res = None /\ exists e, err = Some e).
Proof.
  unfold checkGeneration.
  repeat case_match; intros [= <- <-]; eauto 6.
Qed.

Lemma alwaysReady_xor u : verdictXorError (alwaysReady u).
Proof. unfold alwaysReady. xor_leaves. Qed.

Lemma pdbConditions_xor u : verdictXorError (pdbConditions u).
Proof. unfold pdbConditions. xor_leaves. Qed.

Lemma serviceConditions_xor u : verdictXorError (serviceConditions u).
Proof. unfold serviceConditions. xor_leaves. Qed.

Lemma pvcConditions_xor u : verdictXorError (pvcConditions u).
Proof. unfold pvcConditions. xor_leaves. Qed.

Lemma stsConditions_xor u : verdictXorError (stsConditions u).
Proof. unfold stsConditions. xor_leaves. Qed.

Lemma deploymentConditions_xor u : verdictXorError (deploymentConditions u).
Proof. unfold deploymentConditions. decoded; xor_leaves. Qed.

Lemma replicasetConditions_xor u : verdictXorError (replicasetConditions u).
Proof. unfold replicasetConditions. decoded; xor_leaves. Qed.

Lemma jobConditions_xor u : verdictXorError (jobConditions u).
Proof. unfold jobConditions. decoded; xor_leaves. Qed.

Lemma crdConditions_xor u : verdictXorError (crdConditions u).
Proof. unfold crdConditions. decoded; xor_leaves. Qed.

Lemma daemonsetConditions_xor u : verdictXorError (daemonsetConditions u).
Proof.
  unfold daemonsetConditions.
  destruct (checkGenerationSet u) as [res err] eqn:Hgen.
  apply checkGenerationSet_cases in Hgen
    as [(-> & ->) | [(r & -> & ->) | (-> & e & ->)]]; cbn [notNil orb]; xor_leaves.
Qed.

Lemma podConditions_xor now u : verdictXorError (podConditions now u).
Proof.
  unfold podConditions. decoded; [|xor_leaves].
  destruct (getCrashLoopingContainers _) as [[[names looping] [e| ]]|msg];
    cbn [notNil bind]; xor_leaves.
Qed.

(** The entries of the registry, with their keys. *)
Lemma legacyTypes_entry now key fn :
  legacyTypes now !! key = Some fn ->
  (key, fn) ∈ [("Service", serviceConditions); ("Pod", podConditions now);
               ("Secret", alwaysReady); ("PersistentVolumeClaim", pvcConditions);
               ("apps/StatefulSet", stsConditions);
               ("apps/DaemonSet", daemonsetConditions);
               ("extensions/DaemonSet", daemonsetConditions);
               ("apps/Deployment", deploymentConditions);
               ("extensions/Deployment", deploymentConditions);
               ("apps/ReplicaSet", replicasetConditions);
               ("extensions/ReplicaSet", replicasetConditions);
               ("policy/PodDisruptionBudget", pdbConditions);
               ("batch/CronJob", alwaysReady); ("ConfigMap", alwaysReady);
               ("batch/Job", jobConditions);
               ("apiextensions.k8s.io/CustomResourceDefinition", crdConditions)].
Proof. unfold legacyTypes. apply elem_of_list_to_map_2. Qed.

Lemma legacyTypes_xor now key fn u :
  legacyTypes now !! key = Some fn -> verdictXorError (fn u).
Proof.
  intros H. apply legacyTypes_lookup in H.
  repeat (apply elem_of_cons in H as [->|H]);
    eauto using serviceConditions_xor, podConditions_xor, alwaysReady_xor,
      pvcConditions_xor, stsConditions_xor, daemonsetConditions_xor,
      deploymentConditions_xor, replicasetConditions_xor, pdbConditions_xor,
      jobConditions_xor, crdConditions_xor.
  inversion H.
Qed.

(** X10.  Whenever [Compute] returns, it returns a verdict with a nil
    error or an error with a nil verdict: never both, never neither.
    A caller that finds the error nil can read the verdict. *)
Theorem Compute_verdict_or_error now u res err :
  Compute now u = Returns (res, err) ->
  (exists r, res = Some r /\ err = None) \/ (res = None /\ exists e, err = Some e).
Proof.
  unfold Compute.
  destruct (checkGenericProperties u) as [[gres gerr]|msg]; unfold bind; [|discriminate].
  destruct gerr as [e|]; cbn [notNil]; [intros [= <- <-]; eauto|].
  destruct gres as [r|]; cbn [notNil]; [intros [= <- <-]; eauto|].
  unfold GetLegacyConditionsFn.
  destruct (legacyTypes now !! legacyKey u) as [fn|] eqn:Hfn.
  - intros H. exact (legacyTypes_xor now _ fn u Hfn res err H).
  - intros [= <- <-]. eauto.
Qed.

End ComputeInvariants.

Section Panics.

Context `{lib : Apimachinery}.

Ltac decoded :=
  let H := fresh "Hobj" in
  destruct (GetObjectWithConditions _) as [objc err] eqn:H;
  apply GetObjectWithConditions_cases in H as [(o & -> & ->) | (-> & e & ->)];
  cbn [notNil conditionsOf bind].

Ltac never_panics := unfold noPanic; intros ?; repeat case_match; discriminate.

Lemma checkGenericProperties_noPanic u : noPanic (checkGenericProperties u).
Proof.
  unfold checkGenericProperties.
  destruct (NestedString _ _) as [[s found] err0].
  destruct (notNil err0); [never_panics|].
  destruct (found && _); [never_panics|].
  destruct (checkGeneration u) as [res err1].
  destruct (notNil res || notNil err1); [never_panics|].
  decoded; never_panics.
Qed.

Lemma alwaysReady_noPanic u : noPanic (alwaysReady u).
Proof. unfold alwaysReady. never_panics. Qed.

Lemma pdbConditions_noPanic u : noPanic (pdbConditions u).
Proof. unfold pdbConditions. never_panics. Qed.

Lemma serviceConditions_noPanic u : noPanic (serviceConditions u).
Proof. unfold serviceConditions. never_panics. Qed.

Lemma pvcConditions_noPanic u : noPanic (pvcConditions u).
Proof. unfold pvcConditions. never_panics. Qed.

Lemma stsConditions_noPanic u : noPanic (stsConditions u).
Proof. unfold stsConditions. never_panics. Qed.

Lemma daemonsetConditions_noPanic u : noPanic (daemonsetConditions u).
Proof. unfold daemonsetConditions. never_panics. Qed.

Lemma deploymentConditions_noPanic u : noPanic (deploymentConditions u).
Proof. unfold deploymentConditions. decoded; never_panics. Qed.

Lemma replicasetConditions_noPanic u : noPanic (replicasetConditions u).
Proof. unfold replicasetConditions. decoded; never_panics. Qed.

Lemma jobConditions_noPanic u : noPanic (jobConditions u).
Proof. unfold jobConditions. decoded; never_panics. Qed.

Lemma crdConditions_noPanic u : noPanic (crdConditions u).
Proof. unfold crdConditions. decoded; never_panics. Qed.

(** [podConditions] panics only where [getCrashLoopingContainers] does. *)
Lemma podConditions_panics now u msg :
  podConditions now u = Panics msg ->
  GetStringField u ".status.phase" "" = "Running"
  /\ getCrashLoopingContainers u = Panics msg.
Proof.
  unfold podConditions, UnstructuredContent. decoded; [|discriminate].
  destruct (String.eqb _ "Succeeded"); [discriminate|].
  destruct (String.eqb _ "Failed"); [discriminate|].
  destruct (String.eqb _ "Running") eqn:Hrun.
  - destruct (hasConditionWithStatus _ _ _); [discriminate|].
    destruct (getCrashLoopingContainers u) as [[[names looping] e]|m]; cbn [bind].
    + repeat case_match; discriminate.
    + intros [= ->]. split; [now apply String.eqb_eq | reflexivity].
  - repeat case_match; discriminate.
Qed.

(** X11.  [Compute] panics only for a Pod in phase Running, and only
    when [getCrashLoopingContainers] panics on it: the generic rules
    and the rules of every other kind return for every snapshot. *)
Theorem Compute_panics_only_on_running_pods now u msg :
  Compute now u = Panics msg ->
  legacyKey u = "Pod"
  /\ GetStringField u ".status.phase" "" = "Running"
  /\ getCrashLoopingContainers u = Panics msg.
Proof.
  unfold Compute.
  pose proof (checkGenericProperties_noPanic u) as Hgen.
  destruct (checkGenericProperties u) as [[res err]|m]; unfold bind;
    [|now destruct (Hgen m)].
  destruct (notNil err); [discriminate|].
  destruct (notNil res); [discriminate|].
  unfold GetLegacyConditionsFn.
  destruct (legacyTypes now !! legacyKey u) as [fn|] eqn:Hfn; [|discriminate].
  apply legacyTypes_entry in Hfn. intros Hpanic.
  repeat (apply elem_of_cons in Hfn as [Hfn|Hfn];
          [injection Hfn as Hkey ->;
           first [ split; [exact Hkey | exact (podConditions_panics now u msg Hpanic)]
                 | exfalso; revert Hpanic;
                   first [ apply alwaysReady_noPanic | apply pdbConditions_noPanic
                         | apply serviceConditions_noPanic | apply pvcConditions_noPanic
                         | apply stsConditions_noPanic | apply daemonsetConditions_noPanic
                         | apply deploymentConditions_noPanic
                         | apply replicasetConditions_noPanic
                         | apply jobConditions_noPanic | apply crdConditions_noPanic ] ]|]).
  inversion Hfn.
Qed.

End Panics.

Section Workloads.

Context `{lib : Apimachinery}.

(** Turn the tests a rule made into facts about integers and strings. *)
Ltac tests :=
  repeat match goal with
         | H : (_ >? _) = _ |- _ => rewrite Z.gtb_ltb in H
         | H : (_ <? _) = false |- _ => apply Z.ltb_ge in H
         | H : (_ <? _) = true |- _ => apply Z.ltb_lt in H
         | H : (_ =? _) = true |- _ => apply Z.eqb_eq in H
         | H : (_ =? _) = false |- _ => apply Z.eqb_neq in H
         | H : negb _ = false |- _ => apply negb_false_iff in H
         | H : negb _ = true |- _ => apply negb_true_iff in H
         | H : String.eqb _ _ = true |- _ => apply String.eqb_eq in H
         | H : String.eqb _ _ = false |- _ => apply String.eqb_neq in H
         end.

(** X12.  [stsConditions] reports Ready only when the replicas counted
    equal the replicas asked for and at least as many are ready; then,
    without a partition, as many are current and the current and
    update revisions agree, and with a partition, the updated replicas
    reach the replicas asked for less the partition. *)
Theorem stsConditions_ready_sound u msg :
  stsConditions u = Returns (Some (ready msg), None) ->
  let specReplicas := GetIntField u ".spec.replicas" 1 in
  let partition := GetIntField u ".spec.updateStrategy.rollingUpdate.partition" (-1) in
  GetIntField u ".status.replicas" 0 = specReplicas
  /\ specReplicas <= GetIntField u ".status.readyReplicas" 0
  /\ (partition = -1 ->
      specReplicas <= GetIntField u ".status.currentReplicas" 0
      /\ GetStringField u ".status.currentRevision" ""
         = GetStringField u ".status.updateRevision" "")
  /\ (partition <> -1 ->
      sub64 specReplicas partition <= GetIntField u ".status.updatedReplicas" 0).
Proof.
  unfold stsConditions, UnstructuredContent.
  repeat case_match; intros [= Hmsg]; tests; repeat split; intros; try lia;
    try congruence.
Qed.

Lemma deploymentScan_inr conds p a p' a' :
  deploymentScan conds p a = inr (p', a') ->
  (forall c, c ∈ conds -> ~ deadlineExceeded c)
  /\ (p' = true -> p = true \/ exists c, c ∈ conds /\ progressingDone c)
  /\ (a' = true -> a = true \/ exists c, c ∈ conds /\ availableTrue c).
Proof.
  revert p a. induction conds as [|c rest IH]; intros p a; cbn [deploymentScan].
  - intros [= <- <-]. repeat split; auto. intros c Hc. inversion Hc.
  - assert (Hstep : forall p0 a0,
               deploymentScan rest p0 a0 = inr (p', a') ->
               ~ deadlineExceeded c ->
               (p0 = true -> p = true \/ progressingDone c) ->
               (a0 = true -> a = true \/ availableTrue c) ->
               (forall c0, c0 ∈ c :: rest -> ~ deadlineExceeded c0)
               /\ (p' = true -> p = true \/ exists c0, c0 ∈ c :: rest /\ progressingDone c0)
               /\ (a' = true -> a = true \/ exists c0, c0 ∈ c :: rest /\ availableTrue c0)).
    { intros p0 a0 Hscan Hc Hp Ha.
      destruct (IH p0 a0 Hscan) as (Hnone & Hp' & Ha').
      repeat split.
      - intros c0 Hc0. apply elem_of_cons in Hc0 as [-> | Hc0]; auto.
      - intros H. destruct (Hp' H) as [H0 | (c0 & Hin & Hc0)].
        + destruct (Hp H0) as [? | ?]; [now left | right; exists c; split; [now left | auto]].
        + right. exists c0. split; [now right | auto].
      - intros H. destruct (Ha' H) as [H0 | (c0 & Hin & Hc0)].
        + destruct (Ha H0) as [? | ?]; [now left | right; exists c; split; [now left | auto]].
        + right. exists c0. split; [now right | auto]. }
    repeat case_match; try discriminate; intros Hscan; tests;
      apply (Hstep _ _ Hscan); unfold deadlineExceeded, progressingDone, availableTrue;
      try (intros [? ?]; congruence); auto;
      match goal with H : _ && _ = true |- _ => apply andb_prop in H as [? ?]; tests end;
      auto.
Qed.

Lemma deploymentScan_inl conds p a r :
  deploymentScan conds p a = inl r ->
  exists c, c ∈ conds /\ deadlineExceeded c /\ r = failed (metav1.Message c).
Proof.
  revert p a. induction conds as [|c rest IH]; intros p a; cbn [deploymentScan];
    [discriminate|].
  assert (Hrest : forall p0 a0, deploymentScan rest p0 a0 = inl r ->
            exists c0, c0 ∈ c :: rest /\ deadlineExceeded c0
                       /\ r = failed (metav1.Message c0)).
  { intros p0 a0 H. destruct (IH p0 a0 H) as (c0 & Hin & Hc0).
    exists c0. split; [now right | exact Hc0]. }
  repeat case_match; try (apply Hrest).
  intros [= <-]. tests. exists c. split; [now left|]. now split.
Qed.

(** X13.  [deploymentConditions] reports Failed exactly when some
    Progressing condition has the reason ProgressDeadlineExceeded,
    whatever the replica counts and the other conditions. *)
Theorem deployment_failed_iff_deadline_exceeded u objc r :
  GetObjectWithConditions u = (Some objc, None) ->
  deploymentConditions u = Returns (Some r, None) ->
  (Reason_ r = ReasonFailed <->
   exists c, c ∈ Conditions (ObjStatus objc) /\ deadlineExceeded c).
Proof.
  intros Hobj. unfold deploymentConditions, UnstructuredContent.
  rewrite Hobj. cbn [notNil conditionsOf bind].
  destruct (deploymentScan _ _ _) as [r'|[p' a']] eqn:Hscan.
  - intros [= <-]. apply deploymentScan_inl in Hscan as (c & Hin & Hc & ->).
    split; [intros _; now exists c | reflexivity].
  - apply deploymentScan_inr in Hscan as (Hnone & _ & _).
    intros Hr. split.
    + revert Hr. repeat case_match; intros [= <-]; discriminate.
    + intros (c & Hin & Hc). exfalso. exact (Hnone c Hin Hc).
Qed.

(** X14.  [deploymentConditions] reports Ready only when the replicas
    counted equal the replicas asked for, all of them are updated,
    available and ready, an Available condition is True, and either no
    progress deadline is set or a Progressing condition is True with
    reason NewReplicaSetAvailable. *)
Theorem deploymentConditions_ready_sound u objc msg :
  GetObjectWithConditions u = (Some objc, None) ->
  deploymentConditions u = Returns (Some (ready msg), None) ->
  let specReplicas := GetIntField u ".spec.replicas" 1 in
  let updatedReplicas := GetIntField u ".status.updatedReplicas" 0 in
  GetIntField u ".status.replicas" 0 = specReplicas
  /\ specReplicas <= updatedReplicas
  /\ updatedReplicas <= GetIntField u ".status.availableReplicas" 0
  /\ specReplicas <= GetIntField u ".status.readyReplicas" 0
  /\ (exists c, c ∈ Conditions (ObjStatus objc) /\ availableTrue c)
  /\ (GetIntField u ".spec.progressDeadlineSeconds" MaxInt32 = MaxInt32
      \/ exists c, c ∈ Conditions (ObjStatus objc) /\ progressingDone c).
Proof.
  intros Hobj. unfold deploymentConditions, UnstructuredContent.
  rewrite Hobj. cbn [notNil conditionsOf bind].
  destruct (deploymentScan _ _ _) as [r'|[p' a']] eqn:Hscan.
  - apply deploymentScan_inl in Hscan as (c & _ & _ & ->). discriminate.
  - apply deploymentScan_inr in Hscan as (_ & Hp & Ha).
    repeat case_match; intros [= Hmsg]; tests; subst.
    all: repeat split; try lia.
    all: try (destruct (Ha eq_refl) as [? | ?]; [discriminate | assumption]).
    all: destruct (Hp eq_refl) as [? | ?]; [|now right]; try discriminate.
    all: now left.
Qed.

Lemma replicaFailureScan_none conds :
  replicaFailureScan conds = None ->
  forall c, c ∈ conds -> ~ conditionIs "ReplicaFailure" metav1.ConditionTrue c.
Proof.
  induction conds as [|a rest IH]; cbn [replicaFailureScan].
  - intros _ c Hc. inversion Hc.
  - destruct (_ && _) eqn:E; [discriminate|]. intros H c Hc [Ht Hs].
    apply elem_of_cons in Hc as [-> | Hc].
    + rewrite Ht, Hs in E. discriminate E.
    + apply (IH H c Hc). now split.
Qed.

(** X15.  [replicasetConditions] reports Ready only when no
    ReplicaFailure condition is True, the fully labelled, available
    and ready replicas each reach the replicas asked for, and no more
    replicas are counted than asked for. *)
Theorem replicasetConditions_ready_sound u objc msg :
  GetObjectWithConditions u = (Some objc, None) ->
  replicasetConditions u = Returns (Some (ready msg), None) ->
  let specReplicas := GetIntField u ".spec.replicas" 1 in
  (forall c, c ∈ Conditions (ObjStatus objc) ->
             ~ conditionIs "ReplicaFailure" metav1.ConditionTrue c)
  /\ specReplicas <= GetIntField u ".status.fullyLabeledReplicas" 0
  /\ specReplicas <= GetIntField u ".status.availableReplicas" 0
  /\ specReplicas <= GetIntField u ".status.readyReplicas" 0
  /\ GetIntField u ".status.replicas" 0 <= specReplicas.
Proof.
  intros Hobj. unfold replicasetConditions, UnstructuredContent.
  rewrite Hobj. cbn [notNil conditionsOf bind].
  destruct (replicaFailureScan _) as [r|] eqn:Hscan.
  - intros [= ->]. exfalso. revert Hscan. clear.
    induction (Conditions (ObjStatus objc)) as [|a rest IH]; cbn [replicaFailureScan];
      [discriminate|]. now destruct (_ && _).
  - pose proof (replicaFailureScan_none _ Hscan).
    repeat case_match; intros [= Hmsg]; tests. repeat split; auto; lia.
Qed.

(** X16.  [daemonsetConditions] is stricter than the generic rule on
    generations: without [metadata.generation], or with it and without
    [status.observedGeneration], the DaemonSet is InProgress; and it
    reports Ready only when both are there, the desired number of
    pods is known, and the current, updated, available and ready
    numbers each reach it. *)
Theorem daemonsetConditions_generation_and_ready u :
  (forall g, NestedInt64 u ["metadata"; "generation"] = (g, false, None) ->
     daemonsetConditions u
     = Returns (Some (inProgress (GetKind u +:+ " metadata.generation not found")), None))
  /\ (forall g o,
        NestedInt64 u ["metadata"; "generation"] = (g, true, None) ->
        NestedInt64 u ["status"; "observedGeneration"] = (o, false, None) ->
        daemonsetConditions u
        = Returns (Some (inProgress (GetKind u +:+ " status.observedGeneration not found")),
                   None))
  /\ (forall msg,
        daemonsetConditions u = Returns (Some (ready msg), None) ->
        let desired := GetIntField u ".status.desiredNumberScheduled" (-1) in
        (exists g o, NestedInt64 u ["metadata"; "generation"] = (g, true, None)
                     /\ NestedInt64 u ["status"; "observedGeneration"] = (o, true, None))
        /\ desired <> -1
        /\ desired <= GetIntField u ".status.currentNumberScheduled" 0
        /\ desired <= GetIntField u ".status.updatedNumberScheduled" 0
        /\ desired <= GetIntField u ".status.numberAvailable" 0
        /\ desired <= GetIntField u ".status.numberReady" 0).
Proof.
  unfold daemonsetConditions, checkGenerationSet, UnstructuredContent.
  split; [|split].
  - intros g ->. reflexivity.
  - intros g o -> ->. reflexivity.
  - intros msg.
    destruct (NestedInt64 u ["metadata"; "generation"]) as [[g found] [e| ]];
      cbn [notNil orb]; [discriminate|].
    destruct found; cbn [negb notNil orb]; [|discriminate].
    destruct (NestedInt64 u ["status"; "observedGeneration"]) as [[o found] [e| ]];
      cbn [notNil orb]; [discriminate|].
    destruct found; cbn [negb notNil orb]; [|discriminate].
    repeat case_match; intros [= Hmsg]; tests.
    repeat split; eauto; lia.
Qed.

Lemma jobScan_cases conds succeeded podFailed completions r :
  jobScan conds succeeded podFailed completions = Some r ->
  (Reason_ r = ReasonReady /\ exists c, c ∈ conds /\ conditionIs "Complete" "True" c)
  \/ (Reason_ r = ReasonFailed /\ exists c, c ∈ conds /\ conditionIs "Failed" "True" c).
Proof.
  induction conds as [|a rest IH]; cbn [jobScan]; [discriminate|].
  assert (Hrest : jobScan rest succeeded podFailed completions = Some r ->
     (Reason_ r = ReasonReady
      /\ exists c, c ∈ a :: rest /\ conditionIs "Complete" "True" c)
     \/ (Reason_ r = ReasonFailed
         /\ exists c, c ∈ a :: rest /\ conditionIs "Failed" "True" c)).
  { intros H. destruct (IH H) as [(Hr & c & Hin & Hc) | (Hr & c & Hin & Hc)];
      [left | right]; (split; [exact Hr|]); exists c; (split; [now right | exact Hc]). }
  repeat case_match; try exact Hrest; intros [= <-]; tests; [left | right];
    (split; [reflexivity|]); exists a; (split; [now left | now split]).
Qed.

(** X17.  [jobConditions] reports Ready only when a Complete condition
    is True and Failed only when a Failed condition is True; a Job
    with neither is InProgress, and "Job not started" exactly when
    [status.startTime] is empty or absent. *)
Theorem jobConditions_verdicts u objc r :
  GetObjectWithConditions u = (Some objc, None) ->
  jobConditions u = Returns (Some r, None) ->
  let conds := Conditions (ObjStatus objc) in
  (Reason_ r = ReasonReady -> exists c, c ∈ conds /\ conditionIs "Complete" "True" c)
  /\ (Reason_ r = ReasonFailed -> exists c, c ∈ conds /\ conditionIs "Failed" "True" c)
  /\ ((forall c, c ∈ conds -> ~ conditionIs "Complete" "True" c
                              /\ ~ conditionIs "Failed" "True" c) ->
      Reason_ r = ReasonInProgress
      /\ (Message r = "Job not started" <-> GetStringField u ".status.startTime" "" = "")).
Proof.
  intros Hobj. unfold jobConditions, UnstructuredContent.
  rewrite Hobj. cbn [notNil conditionsOf bind].
  destruct (jobScan _ _ _ _) as [r'|] eqn:Hscan.
  - intros [= <-].
    destruct (jobScan_cases _ _ _ _ _ Hscan) as [(Hr & c & Hin & Hc) | (Hr & c & Hin & Hc)].
    + split; [now exists c|]. split; [rewrite Hr; discriminate|].
      intros Hnone. destruct (Hnone c Hin) as [H _]. now destruct (H Hc).
    + split; [rewrite Hr; discriminate|]. split; [now exists c|].
      intros Hnone. destruct (Hnone c Hin) as [_ H]. now destruct (H Hc).
  - destruct (String.eqb _ "") eqn:Hstart; intros [= <-]; tests;
      (split; [discriminate|]); (split; [discriminate|]); intros _;
      (split; [reflexivity|]); cbn [Message inProgress].
    + split; auto.
    + split; [discriminate | contradiction].
Qed.

(** X18.  A pod phase that is not one of Succeeded, Failed, Running,
    Pending and the empty string makes [podConditions] return an
    error that names the phase, and no verdict. *)
Theorem pod_unknown_phase_is_an_error now u objc :
  GetObjectWithConditions u = (Some objc, None) ->
  let phase := GetStringField u ".status.phase" "" in
  phase <> "Succeeded" -> phase <> "Failed" -> phase <> "Running" ->
  phase <> "Pending" -> phase <> "" ->
  podConditions now u = Returns (None, Some (errorString ("unknown phase " +:+ phase))).
Proof.
  intros Hobj phase H1 H2 H3 H4 H5. unfold podConditions, UnstructuredContent.
  rewrite Hobj. cbn [notNil]. fold phase.
  apply String.eqb_neq in H1, H2, H3, H4, H5.
  now rewrite H1, H2, H3, H4, H5.
Qed.

(** X19.  A pending pod the scheduler found no node for, and that
    carries no [metadata.creationTimestamp], gets no grace period: at
    any time after 1970 it is Failed. *)
Theorem unschedulable_pod_without_creationTimestamp now u objc pre c post :
  GetObjectWithConditions u = (Some objc, None) ->
  GetStringField u ".status.phase" "" = "Pending" ->
  Conditions (ObjStatus objc) = (pre ++ c :: post)%list ->
  (forall c', c' ∈ pre -> ~ conditionIs "PodScheduled" metav1.ConditionFalse c') ->
  unschedulable c ->
  getNestedString u ["metadata"; "creationTimestamp"] = "" ->
  0 <= now ->
  podConditions now u = Returns (Some (failed "Pod could not be scheduled"), None).
Proof.
  intros Hobj Hphase Hconds Hpre (Ht & Hs & Hr) Hcreated Hnow.
  rewrite (podConditions_pending now u objc Hobj Hphase), Hconds.
  rewrite (getConditionWithStatus_first_match pre c post _ _ Hpre (conj Ht Hs)).
  rewrite Hr. cbn [andb]. rewrite String.eqb_refl.
  assert (withinScheduleWindow now u = false) as ->; [|reflexivity].
  unfold withinScheduleWindow, GetCreationTimestamp, Before, Add.
  rewrite Hcreated. cbn [String.eqb]. apply Z.ltb_ge.
  unfold zeroTime, ScheduleWindow, Second, Millisecond. lia.
Qed.

Lemma crashLoopScan_views css views containerNames :
  Forall2 containerStatusOf css views ->
  crashLoopScan css containerNames = Returns (containerNames ++ crashLooping views)%list.
Proof.
  intros Hviews. revert containerNames.
  induction Hviews as [|item [name reason] css views (cs & -> & Hname & Hreason) _ IH];
    intros containerNames.
  - cbn. now rewrite app_nil_r.
  - cbn [crashLoopScan fst snd] in *. rewrite Hname.
    unfold crashLooping. rewrite filter_cons. cbn [snd].
    destruct reason as [r|]; cbn [waitingReasonOf] in Hreason.
    + destruct Hreason as (state & waitingState & -> & -> & ->).
      destruct (String.eqb r "CrashLoopBackOff") eqn:Hr.
      * apply String.eqb_eq in Hr. subst r.
        rewrite decide_True by reflexivity. cbn [fmap list_fmap fst].
        rewrite IH. unfold crashLooping. now rewrite <- app_assoc.
      * apply String.eqb_neq in Hr.
        rewrite decide_False by congruence. apply IH.
    + rewrite decide_False by discriminate.
      destruct Hreason as [-> | (state & -> & [-> | (waitingState & -> & ->)])];
        apply IH.
Qed.

(** X20.  On container statuses of the expected shape (a name, and a
    waiting state with a reason or no waiting state),
    [getCrashLoopingContainers] returns the names of the containers
    waiting with reason CrashLoopBackOff, in the order of the list and
    no others, and flags crash looping exactly when there is one. *)
Theorem getCrashLoopingContainers_on_container_statuses obj css views :
  NestedSlice obj ["status"; "containerStatuses"] = Returns (css, true, None) ->
  Forall2 containerStatusOf css views ->
  getCrashLoopingContainers obj
  = Returns (crashLooping views,
             negb (Nat.eqb (length (crashLooping views)) 0), None).
Proof.
  intros Hslice Hviews. unfold getCrashLoopingContainers.
  rewrite Hslice. cbn [bind negb orb notNil].
  rewrite (crashLoopScan_views css views [] Hviews). cbn [bind app].
  destruct (crashLooping views); reflexivity.
Qed.

End Workloads.

Section Polling.

Context `{lib : Apimachinery}.

Local Open Scope list_scope.

Lemma retryLoop_continue client u delete gvk nsn err fuel attempt trace newObj e :
  getStatus client u delete attempt = Returns (newObj, true, e) ->
  retryLoop client u delete gvk nsn err (S fuel) attempt trace
  = retryLoop client u delete gvk nsn err fuel (attempt + 1)
      (trace ++ [EvGet attempt; EvPrintf (backoff attempt) (attempt + 1) maxRetries;
                 EvSleep (backoff attempt)]).
Proof.
  intros Hget. cbn [retryLoop]. rewrite Hget. cbn [bind negb].
  now rewrite <- app_assoc.
Qed.

Lemma retryLoop_stop client u delete gvk nsn err fuel attempt trace newObj e :
  getStatus client u delete attempt = Returns (newObj, false, e) ->
  retryLoop client u delete gvk nsn err (S fuel) attempt trace
  = Returns (newObj, e, trace ++ [EvGet attempt]).
Proof. intros Hget. cbn [retryLoop]. rewrite Hget. reflexivity. Qed.

(** After [k] attempts that ask to continue, the loop stands at
    attempt [k] with the trace of [k] retries. *)
Lemma getStatusWithRetries_after client u delete (k : nat) :
  (k <= 5)%nat ->
  (forall a, 0 <= a < Z.of_nat k ->
             exists newObj e, getStatus client u delete a = Returns (newObj, true, e)) ->
  getStatusWithRetries client u delete
  = retryLoop client u delete (gvkString (GetGroupVersionKind u))
      (nsnString (GetNamespace u) (GetName u)) None (5 - k) (Z.of_nat k)
      ([EvSleep initialGetDelay] ++ retries k).
Proof.
  induction k as [|k IH]; intros Hk Hcont.
  - reflexivity.
  - rewrite IH; [|lia|intros a Ha; apply Hcont; lia].
    destruct (Hcont (Z.of_nat k)) as (newObj & e & Hget); [lia|].
    replace (5 - k)%nat with (S (5 - S k)) by lia.
    rewrite (retryLoop_continue _ _ _ _ _ _ _ _ _ _ _ Hget).
    cbn [retries]. rewrite <- app_assoc.
    now replace (Z.of_nat (S k)) with (Z.of_nat k + 1) by lia.
Qed.

(** X21.  The poll session returns what the first attempt that does
    not ask to continue returns: after the initial settle delay, one
    fetch and one backoff sleep for each earlier attempt, and one last
    fetch; nothing is fetched or slept after it. *)
Theorem poll_returns_at_first_terminal_attempt client u delete (k : nat) newObj e :
  (k < 5)%nat ->
  (forall a, 0 <= a < Z.of_nat k ->
             exists o e', getStatus client u delete a = Returns (o, true, e')) ->
  getStatus client u delete (Z.of_nat k) = Returns (newObj, false, e) ->
  getStatusWithRetries client u delete
  = Returns (newObj, e, [EvSleep initialGetDelay] ++ retries k ++ [EvGet (Z.of_nat k)]).
Proof.
  intros Hk Hcont Hstop.
  rewrite (getStatusWithRetries_after client u delete k); [|lia|exact Hcont].
  replace (5 - k)%nat with (S (5 - S k)) by lia.
  rewrite (retryLoop_stop _ _ _ _ _ _ _ _ _ _ _ Hstop).
  now rewrite <- app_assoc.
Qed.

(** X22.  When every one of the five attempts asks to continue, the
    session ends with a nil snapshot and an error that names the
    group, version and kind, the namespace and name, and the five
    retries; it has fetched five times and slept 31.5 seconds: the
    settle delay of 500 ms and backoffs of 1, 2, 4, 8 and 16 s. *)
Theorem poll_exhausts_budget client u delete :
  (forall a, 0 <= a < maxRetries ->
             exists o e, getStatus client u delete a = Returns (o, true, e)) ->
  getStatusWithRetries client u delete
  = Returns (None,
             Some (wrapError ("getStatus gvk " +:+ gvkString (GetGroupVersionKind u)
                              +:+ " nsn " +:+ nsnString (GetNamespace u) (GetName u)
                              +:+ " after 5 retries: ") None),
             [EvSleep initialGetDelay] ++ retries 5)
  /\ gets ([EvSleep initialGetDelay] ++ retries 5) = 5%nat
  /\ slept ([EvSleep initialGetDelay] ++ retries 5) = 31500 * Millisecond.
Proof.
  intros Hcont. split; [|split; reflexivity].
  rewrite (getStatusWithRetries_after client u delete 5); [reflexivity | lia | exact Hcont].
Qed.

(** What [getStatus] returns for a snapshot that was fetched and
    classified. *)
Lemma getStatus_classified client u delete attempt obj r :
  Get client attempt u = (Some obj, None) ->
  Compute (Now client attempt) obj = Returns (Some r, None) ->
  getStatus client u delete attempt
  = if String.eqb (Status r) metav1.ConditionFalse then
      if String.eqb (Reason_ r) ReasonFailed
      then Returns (Some obj, false, Some (errorString ("failed: " +:+ Message r)))
      else Returns (Some obj, true, None)
    else if String.eqb (Reason_ r) ReasonNoStatusInfo && (attempt <? maxRetries - 2)
    then Returns (Some obj, true, None)
    else Returns (Some obj, false, None).
Proof. intros Hget Hcompute. unfold getStatus. rewrite Hget, Hcompute. reflexivity. Qed.

(** X23.  A verdict Failed ends the session at the attempt that sees
    it: the snapshot comes back with the error "failed: " and the
    message of the verdict, and the remaining retries are not made. *)
Theorem failed_verdict_ends_poll client u delete (k : nat) obj msg :
  (k < 5)%nat ->
  (forall a, 0 <= a < Z.of_nat k ->
             exists o e, getStatus client u delete a = Returns (o, true, e)) ->
  Get client (Z.of_nat k) u = (Some obj, None) ->
  Compute (Now client (Z.of_nat k)) obj = Returns (Some (failed msg), None) ->
  getStatusWithRetries client u delete
  = Returns (Some obj, Some (errorString ("failed: " +:+ msg)),
             [EvSleep initialGetDelay] ++ retries k ++ [EvGet (Z.of_nat k)]).
Proof.
  intros Hk Hcont Hget Hcompute.
  pose proof (getStatus_classified client u delete _ obj _ Hget Hcompute) as Hstop.
  cbn in Hstop.
  rewrite (getStatusWithRetries_after client u delete k); [|lia|exact Hcont].
  replace (5 - k)%nat with (S (5 - S k)) by lia.
  rewrite (retryLoop_stop _ _ _ _ _ _ _ _ _ _ _ Hstop).
  now rewrite <- app_assoc.
Qed.

(** X24.  A resource that keeps classifying NoStatusInfo is polled
    again on the attempts 0, 1 and 2, and accepted on attempt 3: the
    session returns the fourth snapshot with a nil error, after four
    fetches and 7.5 seconds of sleep. *)
Theorem no_status_info_accepted_on_fourth_attempt client u delete :
  (forall a, 0 <= a <= 3 ->
             exists obj, Get client a u = (Some obj, None)
                         /\ Compute (Now client a) obj = Returns (Some noStatusInfo, None)) ->
  exists obj,
    Get client 3 u = (Some obj, None)
    /\ getStatusWithRetries client u delete
       = Returns (Some obj, None, [EvSleep initialGetDelay] ++ retries 3 ++ [EvGet 3])
    /\ gets ([EvSleep initialGetDelay] ++ retries 3 ++ [EvGet 3]) = 4%nat
    /\ slept ([EvSleep initialGetDelay] ++ retries 3 ++ [EvGet 3]) = 7500 * Millisecond.
Proof.
  intros Hall.
  destruct (Hall 3) as (obj & Hget & Hcompute); [lia|].
  exists obj. split; [exact Hget|]. split; [|split; reflexivity].
  pose proof (getStatus_classified client u delete _ obj _ Hget Hcompute) as Hstop.
  cbn in Hstop.
  rewrite (getStatusWithRetries_after client u delete 3); [|lia|].
  - change (5 - 3)%nat with 2%nat. change (Z.of_nat 3) with 3.
    rewrite (retryLoop_stop _ _ _ _ _ _ _ _ _ _ _ Hstop).
    now rewrite <- app_assoc.
  - intros a Ha. destruct (Hall a) as (o & Hg & Hc); [lia|].
    exists (Some o), None.
    rewrite (getStatus_classified client u delete _ o _ Hg Hc).
    cbn [Status Reason_ noStatusInfo].
    assert ((a <? maxRetries - 2) = true) as -> by (apply Z.ltb_lt; unfold maxRetries; lia).
    reflexivity.
Qed.

(** How [getStatus] can come to return a snapshot with a nil error and
    no request to continue. *)
Lemma getStatus_success client u delete attempt obj :
  getStatus client u delete attempt = Returns (Some obj, false, None) ->
  Get client attempt u = (Some obj, None)
  /\ exists r, Compute (Now client attempt) obj = Returns (Some r, None)
               /\ Status r <> metav1.ConditionFalse
               /\ (Reason_ r = ReasonNoStatusInfo -> maxRetries - 2 <= attempt).
Proof.
  unfold getStatus.
  destruct (Get client attempt u) as [[o| ] [e| ]];
    try (repeat case_match; discriminate).
  destruct (Compute (Now client attempt) o) as [[[r| ] [e| ]]|msg] eqn:Hcompute;
    cbn [bind notNil]; try discriminate.
  destruct (String.eqb (Status r) metav1.ConditionFalse) eqn:Hstatus;
    [repeat case_match; discriminate|].
  destruct (String.eqb (Reason_ r) ReasonNoStatusInfo && (attempt <? maxRetries - 2))
    eqn:Hgrace; [discriminate|].
  intros [= ->]. split; [reflexivity|]. exists r. split; [exact Hcompute|].
  split; [now apply String.eqb_neq|].
  intros Hr. rewrite Hr, String.eqb_refl in Hgrace. cbn [andb] in Hgrace.
  now apply Z.ltb_ge.
Qed.

Lemma retryLoop_success client u delete gvk nsn err fuel attempt trace obj trace' :
  retryLoop client u delete gvk nsn err fuel attempt trace = Returns (Some obj, None, trace') ->
  exists a, attempt <= a < attempt + Z.of_nat fuel
            /\ getStatus client u delete a = Returns (Some obj, false, None).
Proof.
  revert attempt trace. induction fuel as [|fuel IH]; intros attempt trace;
    cbn [retryLoop]; [discriminate|].
  destruct (getStatus client u delete attempt) as [[[o cont] e]|msg] eqn:Hget;
    cbn [bind]; [|discriminate].
  destruct cont; cbn [negb].
  - intros H. destruct (IH _ _ H) as (a & Ha & Hstop). exists a. split; [lia | exact Hstop].
  - intros [= -> -> _]. exists attempt. split; [lia | exact Hget].
Qed.

(** X25.  The session reports success with a snapshot only for a
    snapshot it fetched on one of its five attempts and [Compute]
    classified, without error, with a status other than False; and a
    verdict NoStatusInfo is accepted no earlier than attempt 3. *)
Theorem poll_success_is_classified client u delete obj trace :
  getStatusWithRetries client u delete = Returns (Some obj, None, trace) ->
  exists a r,
    0 <= a < maxRetries
    /\ Get client a u = (Some obj, None)
    /\ Compute (Now client a) obj = Returns (Some r, None)
    /\ Status r <> metav1.ConditionFalse
    /\ (Reason_ r = ReasonNoStatusInfo -> 3 <= a).
Proof.
  unfold getStatusWithRetries. intros H.
  apply retryLoop_success in H as (a & Ha & Hstop).
  apply getStatus_success in Hstop as (Hget & r & Hcompute & Hstatus & Hgrace).
  exists a, r. change (Z.of_nat (Z.to_nat maxRetries)) with maxRetries in Ha.
  repeat split; try assumption; lia.
Qed.

Lemma getStatus_delete_flag client u attempt :
  (forall o e, Get client attempt u = (o, Some e) -> IsNotFound e = false) ->
  getStatus client u true attempt = getStatus client u false attempt.
Proof.
  intros Hfound. unfold getStatus.
  destruct (Get client attempt u) as [o [e| ]]; [|reflexivity].
  now rewrite (Hfound o e eq_refl).
Qed.

Lemma retryLoop_ext client u d1 d2 gvk nsn err fuel attempt trace :
  (forall a, attempt <= a < attempt + Z.of_nat fuel ->
             getStatus client u d1 a = getStatus client u d2 a) ->
  retryLoop client u d1 gvk nsn err fuel attempt trace
  = retryLoop client u d2 gvk nsn err fuel attempt trace.
Proof.
  revert attempt trace. induction fuel as [|fuel IH]; intros attempt trace Hsame;
    cbn [retryLoop]; [reflexivity|].
  rewrite (Hsame attempt) by lia.
  destruct (getStatus client u d2 attempt) as [[[o cont] e]|msg]; cbn [bind];
    [|reflexivity].
  destruct cont; cbn [negb]; [|reflexivity].
  apply IH. intros a Ha. apply Hsame. lia.
Qed.

(** X26.  The deletion flag matters only when a fetch answers not
    found: as long as no attempt does, polling for a deletion and
    polling for a creation or an update do the same and return the
    same, the snapshot of a resource that is still there and
    classified with a status other than False included. *)
Theorem deletion_flag_only_matters_on_not_found client u :
  (forall a o e, 0 <= a < maxRetries ->
                 Get client a u = (o, Some e) -> IsNotFound e = false) ->
  getStatusWithRetries client u true = getStatusWithRetries client u false.
Proof.
  intros Hfound. unfold getStatusWithRetries. apply retryLoop_ext.
  intros a Ha. apply getStatus_delete_flag. intros o e. apply Hfound.
  change (Z.of_nat (Z.to_nat maxRetries)) with maxRetries in Ha. lia.
Qed.

Lemma gets_app t1 t2 : gets (t1 ++ t2) = (gets t1 + gets t2)%nat.
Proof.
  induction t1 as [|ev t1 IH]; [reflexivity|].
  destruct ev; cbn [app gets]; rewrite IH; reflexivity.
Qed.

Lemma slept_app t1 t2 : slept (t1 ++ t2) = slept t1 + slept t2.
Proof.
  induction t1 as [|ev t1 IH]; [reflexivity|].
  destruct ev; cbn [app slept]; rewrite IH; lia.
Qed.

Lemma retryLoop_bounded client u delete gvk nsn err fuel attempt trace o e trace' :
  0 <= attempt ->
  retryLoop client u delete gvk nsn err fuel attempt trace = Returns (o, e, trace') ->
  (gets trace' <= gets trace + fuel)%nat
  /\ slept trace' <= slept trace
                     + initialDelay * (2 ^ (attempt + Z.of_nat fuel) - 2 ^ attempt).
Proof.
  revert attempt trace. induction fuel as [|fuel IH]; intros attempt trace Hattempt;
    cbn [retryLoop].
  - intros [= _ _ <-]. split; [lia|]. rewrite Z.add_0_r. lia.
  - destruct (getStatus client u delete attempt) as [[[o' cont] e']|msg]; cbn [bind];
      [|discriminate].
    assert (Hpow : 2 ^ (attempt + Z.of_nat (S fuel)) = 2 * 2 ^ (attempt + Z.of_nat fuel)).
    { replace (attempt + Z.of_nat (S fuel)) with (Z.succ (attempt + Z.of_nat fuel)) by lia.
      apply Z.pow_succ_r. lia. }
    assert (Hmono : 2 ^ attempt <= 2 ^ (attempt + Z.of_nat fuel))
      by (apply Z.pow_le_mono_r; lia).
    assert (Hpos : 0 < 2 ^ attempt) by (apply Z.pow_pos_nonneg; lia).
    destruct cont; cbn [negb].
    + intros H. apply IH in H as [Hgets Hslept]; [|lia].
      rewrite !gets_app in Hgets. rewrite !slept_app in Hslept.
      cbn [gets slept] in Hgets, Hslept. split; [lia|].
      replace (attempt + 1 + Z.of_nat fuel) with (attempt + Z.of_nat (S fuel)) in Hslept
        by lia.
      replace (2 ^ (attempt + 1)) with (2 * 2 ^ attempt) in Hslept
        by (symmetry; apply Z.pow_succ_r; lia).
      unfold backoff, backoffFactor in Hslept. lia.
    + intros [= _ _ <-]. rewrite gets_app, slept_app. cbn [gets slept].
      split; [lia|]. unfold initialDelay, Second, Millisecond. lia.
Qed.

(** X27.  Whatever the remote answers, a session that returns has
    fetched at most five times and slept at most 31.5 seconds. *)
Theorem poll_effort_is_bounded client u delete o e trace :
  getStatusWithRetries client u delete = Returns (o, e, trace) ->
  (gets trace <= 5)%nat /\ slept trace <= 31500 * Millisecond.
Proof.
  unfold getStatusWithRetries. intros H.
  apply retryLoop_bounded in H as [Hgets Hslept]; [|lia].
  change (Z.to_nat maxRetries) with 5%nat in *.
  cbn [gets slept Nat.add] in Hgets, Hslept. split; [exact Hgets|].
  change (initialGetDelay + 0 + initialDelay * (2 ^ (0 + Z.of_nat 5) - 2 ^ 0))
    with (31500 * Millisecond) in Hslept.
  exact Hslept.
Qed.

End Polling.

Section ResourceOperations.

Context `{lib : Apimachinery}.

Variable Unmarshal : string -> Unstructured * option error.
Variable Marshal : option Unstructured -> string * option error.
Variable ErrorText : error -> string.

Local Open Scope list_scope.

Lemma marshalled_requests newObj requests :
  snd (marshalled Marshal newObj requests) = requests.
Proof. unfold marshalled. now destruct (Marshal newObj) as [b [e| ]]. Qed.

(** X28.  A dry run never polls: [resourceKubernetesManifestCreate]
    and [resourceKubernetesManifestUpdate] on a dry-run object always
    return, and the only request they can have made is the one create
    or update request, sent with the dry-run option All. *)
Theorem dry_run_never_polls remote obj :
  IsDryRun obj = true ->
  (exists b d requests,
     resourceKubernetesManifestCreate Unmarshal Marshal remote obj = Returns (b, d, requests)
     /\ (requests = [] \/ exists u, requests = [ReqCreate u ["All"]]))
  /\ (exists b d requests,
        resourceKubernetesManifestUpdate Unmarshal Marshal remote obj
        = Returns (b, d, requests)
        /\ (requests = [] \/ exists u, requests = [ReqUpdate u ["All"]])).
Proof.
  intros Hdry. split.
  - unfold resourceKubernetesManifestCreate, dryRunOf. rewrite Hdry.
    destruct (Unmarshal (GetObject obj)) as [u [e| ]]; [eauto 6|].
    destruct (Create remote u ["All"]) as [newObj [e| ]]; [eauto 8|].
    pose proof (marshalled_requests newObj [ReqCreate u ["All"]]) as Hreq.
    destruct (marshalled Marshal newObj _) as [[b d] requests]. cbn [snd] in Hreq.
    subst requests. eauto 8.
  - unfold resourceKubernetesManifestUpdate, dryRunOf. rewrite Hdry.
    destruct (Unmarshal (GetObject obj)) as [newu [e| ]]; [eauto 6|].
    destruct (Unmarshal (GetOldObject obj)) as [oldu [e| ]]; [eauto 6|].
    destruct (Update remote _ ["All"]) as [newObj [e| ]]; [eauto 8|].
    match goal with
    | |- context [marshalled Marshal newObj ?reqs] =>
        pose proof (marshalled_requests newObj reqs) as Hreq;
        destruct (marshalled Marshal newObj reqs) as [[b d] requests]
    end.
    cbn [snd] in Hreq. subst requests. eauto 8.
Qed.

Lemma retryLoop_nil_error client u delete gvk nsn err fuel attempt trace o trace' :
  retryLoop client u delete gvk nsn err fuel attempt trace = Returns (o, None, trace') ->
  exists a, attempt <= a < attempt + Z.of_nat fuel
            /\ getStatus client u delete a = Returns (o, false, None).
Proof.
  revert attempt trace. induction fuel as [|fuel IH]; intros attempt trace;
    cbn [retryLoop]; [discriminate|].
  destruct (getStatus client u delete attempt) as [[[o' cont] e]|msg] eqn:Hget;
    cbn [bind]; [|discriminate].
  destruct cont; cbn [negb].
  - intros H. destruct (IH _ _ H) as (a & Ha & Hstop). exists a. split; [lia | exact Hstop].
  - intros [= -> -> _]. exists attempt. split; [lia | exact Hget].
Qed.

Lemma getStatus_nil_snapshot client u delete attempt :
  getStatus client u delete attempt = Returns (None, false, None) ->
  delete = true
  /\ exists o e, Get client attempt u = (o, Some e) /\ IsNotFound e = true.
Proof.
  unfold getStatus.
  destruct (Get client attempt u) as [o [e| ]].
  - destruct (IsNotFound e) eqn:Hnf; [|discriminate].
    destruct delete; [|discriminate]. intros _. split; [reflexivity|]. now exists o, e.
  - destruct o as [obj| ]; [|discriminate].
    destruct (Compute (Now client attempt) obj) as [[res err]|msg]; cbn [bind];
      [|discriminate].
    repeat case_match; discriminate.
Qed.

(** X29.  What it means that [resourceKubernetesManifestDelete]
    returns no diagnostics: the resource was already reported "not
    found" by the fetch made before deleting, and then no delete
    request was sent; or, after the delete request, a fetch of the
    poll session answered not found; or a fetch of the poll session
    returned a snapshot that [Compute] classified with a status other
    than False. *)
Theorem delete_without_diagnostics remote obj requests :
  resourceKubernetesManifestDelete Unmarshal ErrorText remote obj = Returns ([], requests) ->
  exists u,
    Unmarshal (GetObject obj) = (u, None)
    /\ ((exists o e, Lookup remote u = (o, Some e)
                     /\ Contains (ErrorText e) "not found" = true
                     /\ requests = [ReqGet u])
        \/ (exists trace,
              requests = [ReqGet u; ReqDelete u (if IsDryRun obj then ["All"] else []);
                          ReqPoll trace]
              /\ exists a, 0 <= a < maxRetries
                  /\ ((exists o e, Get (session remote) a u = (o, Some e)
                                   /\ IsNotFound e = true)
                      \/ (exists snapshot r,
                            Get (session remote) a u = (Some snapshot, None)
                            /\ Compute (Now (session remote) a) snapshot
                               = Returns (Some r, None)
                            /\ Status r <> metav1.ConditionFalse)))).
Proof.
  unfold resourceKubernetesManifestDelete, dryRunOf, FromErr.
  destruct (Unmarshal (GetObject obj)) as [u [e| ]]; [discriminate|].
  intros H. exists u. split; [reflexivity|]. revert H.
  destruct (Lookup remote u) as [o [e| ]].
  - destruct (Contains (ErrorText e) "not found") eqn:Hnf; [|discriminate].
    intros [= <-]. left. now exists o, e.
  - destruct (Delete remote u _) as [e| ]; [discriminate|].
    destruct (getStatusWithRetries (session remote) u true) as [[[snap err] trace]|msg]
      eqn:Hpoll; cbn [bind]; [|discriminate].
    destruct err as [e| ]; [discriminate|].
    intros [= <-]. right. exists trace. split; [reflexivity|].
    unfold getStatusWithRetries in Hpoll.
    apply retryLoop_nil_error in Hpoll as (a & Ha & Hstop).
    change (Z.of_nat (Z.to_nat maxRetries)) with maxRetries in Ha.
    exists a. split; [lia|].
    destruct snap as [snapshot| ].
    + right. apply getStatus_success in Hstop as (Hget & r & Hcompute & Hstatus & _).
      now exists snapshot, r.
    + left. now apply getStatus_nil_snapshot in Hstop as (_ & Hnf).
Qed.

Lemma GetResourceVersion_SetResourceVersion u version :
  (u !! "metadata" = None \/ exists m, u !! "metadata" = Some (VMap m)) ->
  GetResourceVersion (SetResourceVersion u version) = version.
Proof.
  intros Hmeta.
  unfold GetResourceVersion, SetResourceVersion, getNestedString, NestedString,
    NestedFieldNoCopy.
  destruct Hmeta as [-> | (m & ->)]; cbn [nestedFrom];
    rewrite lookup_insert_eq; cbn [nestedFrom app].
  - now rewrite lookup_singleton_eq.
  - now rewrite lookup_insert_eq.
Qed.

(** X30.  An update is sent with the resource version of the old
    object: when the old object has one, and the metadata of the new
    object is a map or absent, the object of the update request reads
    that resource version, and keeps every other top-level field of
    the new object; when the old object has none, the new object is
    sent as it is. *)
Theorem update_carries_old_resourceVersion remote obj newu oldu b d requests :
  Unmarshal (GetObject obj) = (newu, None) ->
  Unmarshal (GetOldObject obj) = (oldu, None) ->
  (newu !! "metadata" = None \/ exists m, newu !! "metadata" = Some (VMap m)) ->
  resourceKubernetesManifestUpdate Unmarshal Marshal remote obj = Returns (b, d, requests) ->
  exists sent rest,
    requests = ReqUpdate sent (if IsDryRun obj then ["All"] else []) :: rest
    /\ (GetResourceVersion oldu <> "" ->
        GetResourceVersion sent = GetResourceVersion oldu
        /\ forall k, k <> "metadata" -> sent !! k = newu !! k)
    /\ (GetResourceVersion oldu = "" -> sent = newu).
Proof.
  intros Hnew Hold Hmeta. unfold resourceKubernetesManifestUpdate, dryRunOf.
  rewrite Hnew, Hold.
  set (sent := if negb (String.eqb (GetResourceVersion oldu) "")
               then SetResourceVersion newu (GetResourceVersion oldu) else newu).
  assert (Hsent : (GetResourceVersion oldu <> "" ->
                   GetResourceVersion sent = GetResourceVersion oldu
                   /\ forall k, k <> "metadata" -> sent !! k = newu !! k)
                  /\ (GetResourceVersion oldu = "" -> sent = newu)).
  { subst sent. destruct (String.eqb (GetResourceVersion oldu) "") eqn:E; cbn [negb].
    - apply String.eqb_eq in E. split; [congruence | reflexivity].
    - apply String.eqb_neq in E. split; [|congruence]. intros _.
      split; [now apply GetResourceVersion_SetResourceVersion|].
      intros k Hk. unfold SetResourceVersion.
      destruct Hmeta as [-> | (m & ->)]; now rewrite lookup_insert_ne. }
  clearbody sent.
  destruct (Update remote sent _) as [newObj [e| ]].
  - intros [= <- <- <-]. eauto.
  - destruct (IsDryRun obj).
    + match goal with
      | |- context [marshalled Marshal newObj ?reqs] =>
          pose proof (marshalled_requests newObj reqs) as Hreq;
          destruct (marshalled Marshal newObj reqs) as [[b' d'] requests']
      end.
      cbn [snd] in Hreq. intros [= <- <- <-]. subst requests'. eauto.
    + destruct (getStatusWithRetries _ _ _) as [[[snap err] trace]|msg]; cbn [bind];
        [|discriminate].
      destruct err as [e| ].
      * intros [= <- <- <-]. eauto.
      * match goal with
        | |- context [marshalled Marshal snap ?reqs] =>
            pose proof (marshalled_requests snap reqs) as Hreq;
            destruct (marshalled Marshal snap reqs) as [[b' d'] requests']
        end.
        cbn [snd] in Hreq. intros [= <- <- <-]. subst requests'. eauto.
Qed.

End ResourceOperations.

(** ** The further properties at concrete snapshots *)

Module ExtraRuns.

Import Manifests Fixtures.

#[local] Existing Instance Reference.apimachinery.

Local Open Scope list_scope.

Lemma accessors_leading_dot_optional_witness :
  GetIntField deploymentManifest ".status.replicas" 0
  = GetIntField deploymentManifest "status.replicas" 0
  /\ GetStringField deploymentManifest ".metadata.name" ""
     = GetStringField deploymentManifest "metadata.name" "".
Proof.
  split.
  - apply (accessors_leading_dot_optional deploymentManifest "s" "tatus.replicas" 0 "").
    discriminate.
  - apply (accessors_leading_dot_optional deploymentManifest "m" "etadata.name" 0 "").
    discriminate.
Defined.

Lemma accessors_default_when_path_breaks_witness :
  fieldsOf ".status.replicas" = ["status"; "replicas"]
  /\ configMapManifest !! "status" = None
  /\ GetIntField configMapManifest ".status.replicas" 7 = 7
  /\ GetStringField configMapManifest ".status.replicas" "none" = "none"
  /\ GetIntField deploymentManifest ".kind.name" 7 = 7.
Proof.
  split; [reflexivity|]. split; [reflexivity|].
  split; [|split].
  - apply (accessors_default_when_path_breaks configMapManifest ".status.replicas"
             "status" ["replicas"] 7 "none"); [reflexivity | left; reflexivity].
  - apply (accessors_default_when_path_breaks configMapManifest ".status.replicas"
             "status" ["replicas"] 7 "none"); [reflexivity | left; reflexivity].
  - apply (accessors_default_when_path_breaks deploymentManifest ".kind.name"
             "kind" ["name"] 7 ""); [reflexivity|].
    right. exists (VString "Deployment").
    split; [reflexivity|]. split; discriminate.
Defined.

Lemma GetStringField_strings_only_witness :
  GetStringField floatReplicas ".status.replicas" "unknown" = "unknown"
  /\ GetStringField deploymentManifest ".kind" "unknown" = "Deployment".
Proof.
  split.
  - apply (proj2 (GetStringField_strings_only floatReplicas ".status.replicas" "unknown"
                    (VFloat64 1 0) eq_refl)).
    discriminate.
  - exact (proj1 (GetStringField_strings_only deploymentManifest ".kind" "unknown"
                    (VString "Deployment") eq_refl) "Deployment" eq_refl).
Defined.

Lemma getConditionWithStatus_first_match_witness :
  getConditionWithStatus
    ([cond "Ready" "False" "" "first"; cond "Synced" "True" "" ""]
     ++ cond "Ready" "True" "" "second" :: [cond "Ready" "True" "" "third"])
    "Ready" "True"
  = (cond "Ready" "True" "" "second", true).
Proof.
  apply getConditionWithStatus_first_match; [|split; reflexivity].
  intros c Hc [Ht Hs].
  apply elem_of_cons in Hc as [-> | Hc]; [discriminate Hs|].
  apply elem_of_cons in Hc as [-> | Hc]; [discriminate Ht|].
  inversion Hc.
Defined.

Lemma hasConditionWithStatus_iff_witness :
  hasConditionWithStatus [cond "Synced" "True" "" ""; cond "Ready" "True" "" ""]
    "Ready" "True" = true
  /\ getConditionWithStatus [cond "Synced" "True" "" ""] "Ready" "True"
     = (zeroCondition, false).
Proof.
  split.
  - apply (proj1 (hasConditionWithStatus_iff _ "Ready" "True")).
    exists (cond "Ready" "True" "" "").
    split; [apply list_elem_of_further, list_elem_of_here | split; reflexivity].
  - apply (proj2 (hasConditionWithStatus_iff _ "Ready" "True")). reflexivity.
Defined.

Lemma malformed_deletionTimestamp_is_an_error_witness :
  badTimestamp !! "metadata" = Some (VMap numberedMetadata)
  /\ numberedMetadata !! "deletionTimestamp" = Some (VInt64 5)
  /\ Compute 0 badTimestamp
     = Returns (None,
                Some (wrapError "cannot lookup metadata.deletionTimestamp from resource: "
                        (Some (accessorError ["metadata"; "deletionTimestamp"]
                                 (VInt64 5) "string")))).
Proof.
  split; [reflexivity|]. split; [reflexivity|].
  apply (malformed_deletionTimestamp_is_an_error 0 badTimestamp numberedMetadata (VInt64 5));
    [reflexivity | reflexivity | discriminate].
Defined.

Lemma staleDeployment_notDeleting : notDeleting staleDeployment.
Proof. exists "", false. split; [reflexivity | left; reflexivity]. Defined.

Lemma generation_mismatch_is_in_progress_witness :
  Compute 0 staleDeployment
  = Returns (Some (mkResult "False" "InProgress"
                     "Deployment generation is 2, but latest observed generation is 1"),
             None).
Proof.
  apply (generation_mismatch_is_in_progress 0 staleDeployment 2 1
           staleDeployment_notDeleting); [reflexivity | reflexivity | discriminate].
Defined.

Lemma first_ready_condition_decides_witness :
  Compute 0 waitingWidget
  = Returns (Some (mkResult "False" "InProgress" "waiting"), None).
Proof.
  apply (first_ready_condition_decides 0 waitingWidget
           (fst (Reference.fromUnstructured waitingWidget))
           [cond "Synced" "True" "" ""] (cond "Ready" "False" "" "waiting")
           [cond "Ready" "True" "" "late"]).
  - exists "", false. split; [reflexivity | left; reflexivity].
  - reflexivity.
  - reflexivity.
  - reflexivity.
  - intros c Hc. apply elem_of_cons in Hc as [-> | Hc]; [discriminate | inversion Hc].
  - reflexivity.
Defined.

Lemma always_ready_kinds_witness :
  checkGenericProperties configMapManifest = Returns (None, None)
  /\ legacyKey configMapManifest = "ConfigMap"
  /\ Compute 0 configMapManifest = Returns (Some (mkResult "True" "Ready" "ready"), None).
Proof.
  split; [reflexivity|]. split; [reflexivity|].
  apply (always_ready_kinds 0 configMapManifest); [reflexivity|].
  right. left. reflexivity.
Defined.

Lemma Compute_verdict_or_error_witness :
  (exists r, Some (mkResult "False" "InProgress" "waiting") = Some r
             /\ @None error = None)
  \/ (Some (mkResult "False" "InProgress" "waiting") = None
      /\ exists e, @None error = Some e).
Proof.
  apply (Compute_verdict_or_error 0 waitingWidget). reflexivity.
Defined.

Lemma Compute_panics_only_on_running_pods_witness :
  legacyKey malformedPod = "Pod"
  /\ GetStringField malformedPod ".status.phase" "" = "Running"
  /\ getCrashLoopingContainers malformedPod
     = Panics "interface conversion: interface {} is not string".
Proof.
  apply (Compute_panics_only_on_running_pods 0 malformedPod). reflexivity.
Defined.

Lemma stsConditions_ready_sound_witness :
  stsConditions readyStatefulSet
  = Returns (Some (ready "All replicas scheduled as expected. Replicas: 3"), None)
  /\ GetIntField readyStatefulSet ".status.replicas" 0
     = GetIntField readyStatefulSet ".spec.replicas" 1.
Proof.
  split; [reflexivity|].
  apply (stsConditions_ready_sound readyStatefulSet
           "All replicas scheduled as expected. Replicas: 3").
  reflexivity.
Defined.

Lemma deployment_failed_iff_deadline_exceeded_witness :
  deploymentConditions stuckDeployment
  = Returns (Some (failed "timed out progressing"), None)
  /\ exists c, c ∈ Conditions (ObjStatus (fst (Reference.fromUnstructured stuckDeployment)))
               /\ deadlineExceeded c.
Proof.
  split; [reflexivity|].
  apply (deployment_failed_iff_deadline_exceeded stuckDeployment
           (fst (Reference.fromUnstructured stuckDeployment))
           (failed "timed out progressing")); reflexivity.
Defined.

Lemma deploymentConditions_ready_sound_witness :
  deploymentConditions deploymentManifest
  = Returns (Some (ready "Deployment is available. Replicas: 1"), None)
  /\ GetIntField deploymentManifest ".status.replicas" 0
     = GetIntField deploymentManifest ".spec.replicas" 1.
Proof.
  split; [reflexivity|].
  apply (deploymentConditions_ready_sound deploymentManifest
           (fst (Reference.fromUnstructured deploymentManifest))
           "Deployment is available. Replicas: 1"); reflexivity.
Defined.

Lemma replicasetConditions_ready_sound_witness :
  replicasetConditions readyReplicaSet
  = Returns (Some (ready "ReplicaSet is available. Replicas: 2"), None)
  /\ GetIntField readyReplicaSet ".status.replicas" 0
     <= GetIntField readyReplicaSet ".spec.replicas" 1.
Proof.
  split; [reflexivity|].
  apply (replicasetConditions_ready_sound readyReplicaSet
           (fst (Reference.fromUnstructured readyReplicaSet))
           "ReplicaSet is available. Replicas: 2"); reflexivity.
Defined.

Lemma daemonsetConditions_generation_and_ready_witness :
  daemonsetConditions newDaemonSet
  = Returns (Some (inProgress "DaemonSet metadata.generation not found"), None)
  /\ GetIntField readyDaemonSet ".status.desiredNumberScheduled" (-1)
     <= GetIntField readyDaemonSet ".status.numberReady" 0.
Proof.
  split.
  - apply (proj1 (daemonsetConditions_generation_and_ready newDaemonSet) 0). reflexivity.
  - apply (proj2 (proj2 (daemonsetConditions_generation_and_ready readyDaemonSet))
             "All replicas scheduled as expected. Replicas: 2").
    reflexivity.
Defined.

Lemma jobConditions_verdicts_witness :
  jobConditions completedJob
  = Returns (Some (ready "Job Completed. succeeded: 1/1"), None)
  /\ exists c, c ∈ Conditions (ObjStatus (fst (Reference.fromUnstructured completedJob)))
               /\ conditionIs "Complete" "True" c.
Proof.
  split; [reflexivity|].
  apply (jobConditions_verdicts completedJob
           (fst (Reference.fromUnstructured completedJob))
           (ready "Job Completed. succeeded: 1/1")); reflexivity.
Defined.

Lemma pod_unknown_phase_is_an_error_witness :
  GetStringField lostPod ".status.phase" "" = "Unknown"
  /\ podConditions 0 lostPod = Returns (None, Some (errorString "unknown phase Unknown")).
Proof.
  split; [reflexivity|].
  apply (pod_unknown_phase_is_an_error 0 lostPod
           (fst (Reference.fromUnstructured lostPod))); [reflexivity | ..]; discriminate.
Defined.

Lemma unschedulable_pod_without_creationTimestamp_witness :
  getNestedString undatedPod ["metadata"; "creationTimestamp"] = ""
  /\ podConditions podCreated undatedPod
     = Returns (Some (failed "Pod could not be scheduled"), None).
Proof.
  split; [reflexivity|].
  apply (unschedulable_pod_without_creationTimestamp podCreated undatedPod
           (fst (Reference.fromUnstructured undatedPod))
           [] (cond "PodScheduled" "False" "Unschedulable" "") []).
  - reflexivity.
  - reflexivity.
  - reflexivity.
  - intros c Hc. inversion Hc.
  - repeat split.
  - reflexivity.
  - discriminate.
Defined.

Lemma waitingContainer_status name reason :
  containerStatusOf (waitingContainer name reason) (name, Some reason).
Proof.
  eexists. split; [reflexivity|]. split; [reflexivity|].
  eexists. eexists. split; [reflexivity|]. split; reflexivity.
Defined.

Lemma runningContainer_status name :
  containerStatusOf (runningContainer name) (name, None).
Proof.
  eexists. split; [reflexivity|]. split; [reflexivity|].
  right. eexists. split; [reflexivity|]. left. reflexivity.
Defined.

Lemma getCrashLoopingContainers_on_container_statuses_witness :
  NestedSlice crashingPod ["status"; "containerStatuses"]
  = Returns (containerStatuses, true, None)
  /\ getCrashLoopingContainers crashingPod = Returns (["app"; "proxy"], true, None).
Proof.
  split; [reflexivity|].
  apply (getCrashLoopingContainers_on_container_statuses crashingPod containerStatuses
           [("app", Some "CrashLoopBackOff"); ("sidecar", None);
            ("init", Some "ImagePullBackOff"); ("proxy", Some "CrashLoopBackOff")]);
    [reflexivity|].
  unfold containerStatuses.
  constructor; [exact (waitingContainer_status "app" "CrashLoopBackOff")|].
  constructor; [exact (runningContainer_status "sidecar")|].
  constructor; [exact (waitingContainer_status "init" "ImagePullBackOff")|].
  constructor; [exact (waitingContainer_status "proxy" "CrashLoopBackOff")|].
  constructor.
Defined.

Lemma convergingClient_first_attempt a :
  0 <= a < Z.of_nat 1 ->
  exists o e, getStatus convergingClient deploymentManifest false a = Returns (o, true, e).
Proof.
  intros Ha. assert (a = 0) as -> by lia.
  exists (Some staleDeployment), None. reflexivity.
Defined.

Lemma poll_returns_at_first_terminal_attempt_witness :
  getStatusWithRetries convergingClient deploymentManifest false
  = Returns (Some deploymentManifest, None,
             [EvSleep (500 * Millisecond); EvGet 0; EvPrintf (1 * Second) 1 5;
              EvSleep (1 * Second); EvGet 1]).
Proof.
  apply (poll_returns_at_first_terminal_attempt convergingClient deploymentManifest false
           1 (Some deploymentManifest) None);
    [lia | exact convergingClient_first_attempt | reflexivity].
Defined.

Lemma refusingClient_continues a :
  0 <= a < maxRetries ->
  exists o e, getStatus refusingClient widget false a = Returns (o, true, e).
Proof. intros _. exists None, (Some connectionRefused). reflexivity. Defined.

Lemma poll_exhausts_budget_witness :
  slept ([EvSleep initialGetDelay] ++ retries 5) = 31500 * Millisecond
  /\ exists err trace,
       getStatusWithRetries refusingClient widget false = Returns (None, Some err, trace).
Proof.
  destruct (poll_exhausts_budget refusingClient widget false refusingClient_continues)
    as (Hpoll & _ & Hslept).
  split; [exact Hslept|]. eexists. eexists. exact Hpoll.
Defined.

Lemma failed_verdict_ends_poll_witness :
  getStatusWithRetries stuckClient deploymentManifest false
  = Returns (Some stuckDeployment, Some (errorString "failed: timed out progressing"),
             [EvSleep (500 * Millisecond); EvGet 0]).
Proof.
  apply (failed_verdict_ends_poll stuckClient deploymentManifest false 0 stuckDeployment
           "timed out progressing"); [lia | intros a Ha; lia | reflexivity | reflexivity].
Defined.

Lemma silentClient_no_status a :
  0 <= a <= 3 ->
  exists obj, Get silentClient a widget = (Some obj, None)
              /\ Compute (Now silentClient a) obj = Returns (Some noStatusInfo, None).
Proof. intros _. exists widget. split; reflexivity. Defined.

Lemma no_status_info_accepted_on_fourth_attempt_witness :
  exists obj,
    Get silentClient 3 widget = (Some obj, None)
    /\ getStatusWithRetries silentClient widget false
       = Returns (Some obj, None, [EvSleep initialGetDelay] ++ retries 3 ++ [EvGet 3])
    /\ gets ([EvSleep initialGetDelay] ++ retries 3 ++ [EvGet 3]) = 4%nat
    /\ slept ([EvSleep initialGetDelay] ++ retries 3 ++ [EvGet 3]) = 7500 * Millisecond.
Proof.
  exact (no_status_info_accepted_on_fourth_attempt silentClient widget false
           silentClient_no_status).
Defined.

Lemma poll_success_is_classified_witness :
  exists a r,
    0 <= a < maxRetries
    /\ Get readyClient a deploymentManifest = (Some deploymentManifest, None)
    /\ Compute (Now readyClient a) deploymentManifest = Returns (Some r, None)
    /\ Status r <> metav1.ConditionFalse
    /\ (Reason_ r = ReasonNoStatusInfo -> 3 <= a).
Proof.
  apply (poll_success_is_classified readyClient deploymentManifest false deploymentManifest
           [EvSleep initialGetDelay; EvGet 0]).
  reflexivity.
Defined.

Lemma deletion_flag_only_matters_on_not_found_witness :
  getStatusWithRetries readyClient deploymentManifest true
  = getStatusWithRetries readyClient deploymentManifest false
  /\ getStatusWithRetries readyClient deploymentManifest true
     = Returns (Some deploymentManifest, None, [EvSleep initialGetDelay; EvGet 0]).
Proof.
  split; [|reflexivity].
  apply (deletion_flag_only_matters_on_not_found readyClient deploymentManifest).
  intros a o e _ H. discriminate H.
Defined.

Lemma poll_effort_is_bounded_witness :
  (gets ([EvSleep initialGetDelay] ++ retries 3 ++ [EvGet 3]) <= 5)%nat
  /\ slept ([EvSleep initialGetDelay] ++ retries 3 ++ [EvGet 3]) <= 31500 * Millisecond.
Proof.
  apply (poll_effort_is_bounded silentClient widget false (Some widget) None).
  reflexivity.
Defined.

Lemma dry_run_never_polls_witness :
  resourceKubernetesManifestCreate unmarshal marshal liveRemote dryRunDeployment
  = Returns (Some "Deployment qual/test", [], [ReqCreate deploymentManifest ["All"]])
  /\ exists b d requests,
       resourceKubernetesManifestUpdate unmarshal marshal liveRemote dryRunDeployment
       = Returns (b, d, requests)
       /\ (requests = [] \/ exists u, requests = [ReqUpdate u ["All"]]).
Proof.
  split; [reflexivity|].
  apply (dry_run_never_polls unmarshal marshal liveRemote dryRunDeployment). reflexivity.
Defined.

Lemma delete_without_diagnostics_witness :
  resourceKubernetesManifestDelete unmarshal errorText absentRemote widgetObject
  = Returns ([], [ReqGet widget])
  /\ exists u, unmarshal (GetObject widgetObject) = (u, None).
Proof.
  split; [reflexivity|].
  destruct (delete_without_diagnostics unmarshal errorText absentRemote widgetObject
              [ReqGet widget] eq_refl) as (u & Hu & _).
  exists u. exact Hu.
Defined.

Lemma update_carries_old_resourceVersion_witness :
  GetResourceVersion oldDeployment = "695865"
  /\ exists sent rest,
       [ReqUpdate (SetResourceVersion deploymentManifest "695865") ["All"]]
       = ReqUpdate sent (if IsDryRun dryRunDeployment then ["All"] else []) :: rest
       /\ (GetResourceVersion oldDeployment <> "" ->
           GetResourceVersion sent = GetResourceVersion oldDeployment
           /\ forall k, k <> "metadata" -> sent !! k = deploymentManifest !! k)
       /\ (GetResourceVersion oldDeployment = "" -> sent = deploymentManifest).
Proof.
  split; [reflexivity|].
  apply (update_carries_old_resourceVersion unmarshal marshal liveRemote dryRunDeployment
           deploymentManifest oldDeployment (Some "Deployment qual/test") []).
  - reflexivity.
  - reflexivity.
  - right. eexists. reflexivity.
  - reflexivity.
Defined.

End ExtraRuns.
